(** * bin/check_samplesheet.py: the samplesheet validator

    A shallow embedding of the procedural [check_samplesheet] of
    [bin/check_samplesheet.py] (the loop over the data lines, the sample
    mapping dictionary and the writer of the validated sheet), and the
    properties of the specification proved, or refuted, on it.

    The file also holds pieces of a row-checker class ([validate_and_transform]
    and the like, lines 57-237) that the procedural code never calls; they
    are left out.

    Text is modelled by [string]; a character stands for one code point
    below 256.  The input file is the list of its lines as the file iterator
    yields them (each keeps its line terminator), the output file is the text
    written to it, or [None] while it has not been opened. *)

From Stdlib Require Import String Ascii List Bool Arith Lia.
From Stdlib Require Import Sorted Permutation DecimalString OrderedTypeEx.
From Stdlib Require Import DecimalNat ZArith.
Import ListNotations.
Local Open Scope list_scope.
Local Open Scope string_scope.

(** ** Python's [str] methods used by the script *)

Module PyStr.

Definition nl_char : ascii := Eval cbv in ascii_of_nat 10.
Definition cr_char : ascii := Eval cbv in ascii_of_nat 13.
Definition quote_char : ascii := Eval cbv in ascii_of_nat 34.
Definition space_char : ascii := " "%char.
Definition comma_char : ascii := ","%char.

(** The line terminator, [\n]. *)
Definition nl : string := String nl_char "".

(** [str.isspace] on one code point below 256: tab to carriage return,
    the four separators 28..31, the blank, NEL and the no-break space. *)
Definition isspace (c : ascii) : bool :=
  let n := nat_of_ascii c in
  (((9 <=? n) && (n <=? 13)) || ((28 <=? n) && (n <=? 32))
   || (n =? 133) || (n =? 160))%nat.

Definition is_quote (c : ascii) : bool := Ascii.eqb c quote_char.

Fixpoint lstrip (p : ascii -> bool) (s : string) : string :=
  match s with
  | EmptyString => EmptyString
  | String c r => if p c then lstrip p r else s
  end.

Fixpoint rstrip (p : ascii -> bool) (s : string) : string :=
  match s with
  | EmptyString => EmptyString
  | String c r =>
      match rstrip p r with
      | EmptyString => if p c then EmptyString else String c EmptyString
      | r' => String c r'
      end
  end.

(** [s.strip()] *)
Definition strip (s : string) : string := rstrip isspace (lstrip isspace s).

(** [s.strip(q)] with [q] the double quote. *)
Definition strip_quotes (s : string) : string :=
  rstrip is_quote (lstrip is_quote s).

(** [s.split(",")] *)
Fixpoint split_comma (s : string) : list string :=
  match s with
  | EmptyString => [EmptyString]
  | String c r =>
      if Ascii.eqb c comma_char then EmptyString :: split_comma r
      else match split_comma r with
           | x :: xs => String c x :: xs
           | [] => [String c EmptyString]
           end
  end.

(** [s.replace(" ", "_")] *)
Fixpoint replace_spaces (s : string) : string :=
  match s with
  | EmptyString => EmptyString
  | String c r =>
      String (if Ascii.eqb c space_char then "_"%char else c)
             (replace_spaces r)
  end.

(** [s.find(" ") != -1] *)
Fixpoint has_space (s : string) : bool :=
  match s with
  | EmptyString => false
  | String c r => Ascii.eqb c space_char || has_space r
  end.

(** [s.endswith(suffix)] *)
Fixpoint endswith (s suffix : string) : bool :=
  String.eqb s suffix
  || match s with
     | EmptyString => false
     | String _ r => endswith r suffix
     end.

(** [sep.join(l)] *)
Definition join (sep : string) (l : list string) : string :=
  String.concat sep l.

(** ["{}".format(n)] for a natural number. *)
Definition str (n : nat) : string :=
  NilEmpty.string_of_uint (Nat.to_uint n).

(** [bool(s)]: a string is true when it is not empty. *)
Definition truthy (s : string) : bool :=
  match s with EmptyString => false | _ => true end.

(** [a == b] on lists of strings. *)
Fixpoint list_eqb (a b : list string) : bool :=
  match a, b with
  | [], [] => true
  | x :: a', y :: b' => String.eqb x y && list_eqb a' b'
  | _, _ => false
  end.

Fixpoint insert_sorted (x : string) (l : list string) : list string :=
  match l with
  | [] => [x]
  | y :: r => if (x <=? y)%string then x :: l else y :: insert_sorted x r
  end.

(** [sorted(l)] on strings: code point order.  The script sorts the keys
    of a dictionary, which are distinct, so that the result is the one
    ordered permutation of the keys, whichever stable sort computes it. *)
Definition sorted (l : list string) : list string :=
  fold_right insert_sorted [] l.

(** Whether a text starts with [\n]. *)
Definition starts_nl (s : string) : bool :=
  match s with
  | EmptyString => false
  | String c _ => Ascii.eqb c nl_char
  end.

(** The lines the iterator of a text file yields, the file opened without
    a [newline] argument (universal newlines): a line ends at [\n], at
    [\r\n] or at a [\r] that no [\n] follows, and each of these endings is
    given as [\n]. *)
Fixpoint lines_of (s : string) : list string :=
  match s with
  | EmptyString => []
  | String c r =>
      if Ascii.eqb c nl_char then String c EmptyString :: lines_of r
      else if Ascii.eqb c cr_char
      then (if starts_nl r then lines_of r else nl :: lines_of r)
      else match lines_of r with
           | l :: ls => String c l :: ls
           | [] => [String c EmptyString]
           end
  end.

(** The lines the iterator yields when the file is opened with
    [newline=""] (line 223): the lines end at the same places and keep
    their endings as they are in the file. *)
Fixpoint raw_lines_of (s : string) : list string :=
  match s with
  | EmptyString => []
  | String c r =>
      if Ascii.eqb c nl_char || (Ascii.eqb c cr_char && negb (starts_nl r))
      then String c EmptyString :: raw_lines_of r
      else match raw_lines_of r with
           | l :: ls => String c l :: ls
           | [] => [String c EmptyString]
           end
  end.

(** [s.find(",") != -1] *)
Fixpoint has_comma (s : string) : bool :=
  match s with
  | EmptyString => false
  | String c r => Ascii.eqb c comma_char || has_comma r
  end.

End PyStr.
Import PyStr.

(** ** Control: return, [sys.exit] after a message, uncaught exception *)

Inductive outcome (A : Type) : Type :=
| Ret (a : A)
| Exit (printed : string)
| Raise (exn : string).
Arguments Ret {A} a.
Arguments Exit {A} printed.
Arguments Raise {A} exn.

Definition bind {A B : Type} (c : outcome A) (k : A -> outcome B) : outcome B :=
  match c with
  | Ret a => k a
  | Exit s => Exit s
  | Raise e => Raise e
  end.

Notation "x <- c ;; k" := (bind c (fun x => k))
  (at level 61, c at next level, right associativity).
Notation "c ;;; k" := (bind c (fun _ => k))
  (at level 61, right associativity).

(** [print_error(error, context, context_str)]: the text printed, then
    [sys.exit(1)]. *)
Definition error_str (error context context_str : string) : string :=
  if negb (context =? "") && negb (context_str =? "")
  then "ERROR: Please check samplesheet -> " ++ error ++ nl
       ++ strip context ++ ": '" ++ strip context_str ++ "'"
  else "ERROR: Please check samplesheet -> " ++ error.

Definition print_error {A : Type} (error context context_str : string)
  : outcome A :=
  Exit (error_str error context context_str).

(** ** The sample mapping dictionary *)

(** [sample_info]: the list [[flag, path, ...]] recorded for a row, kept as
    its first element and the rest. *)
Record sample_info : Type := SampleInfo {
  info_flag : string;
  info_files : list string
}.

Definition info_list (i : sample_info) : list string :=
  info_flag i :: info_files i.

Definition info_eqb (a b : sample_info) : bool :=
  list_eqb (info_list a) (info_list b).

(** [sample_mapping_dict]: keys in insertion order, each with its runs. *)
Definition mapping : Type := list (string * list sample_info).

Fixpoint lookup (m : mapping) (sample : string) : option (list sample_info) :=
  match m with
  | [] => None
  | (k, runs) :: r => if k =? sample then Some runs else lookup r sample
  end.

(** [sample_mapping_dict[sample].append(sample_info)] *)
Fixpoint append_run (m : mapping) (sample : string) (i : sample_info)
  : mapping :=
  match m with
  | [] => []
  | (k, runs) :: r =>
      if k =? sample then (k, (runs ++ [i])%list) :: r
      else (k, runs) :: append_run r sample i
  end.

Definition keys (m : mapping) : list string := map fst m.

(** Lines 285-291 and 339-345: record the row, or stop on a repeated one. *)
Definition add_sample (m : mapping) (line sample : string) (i : sample_info)
  : outcome mapping :=
  match lookup m sample with
  | None => Ret (m ++ [(sample, [i])])%list
  | Some runs =>
      if existsb (info_eqb i) runs
      then print_error "Samplesheet contains duplicate rows!" "Line" line
      else Ret (append_run m sample i)
  end.

(** ** Reading the rows *)

(** [lspl]: the fields of [line.strip().split(",")], each stripped of blanks
    and then of double quotes. *)
Definition lspl_of (line : string) : list string :=
  map (fun x => strip_quotes (strip x)) (split_comma (strip line)).

(** [header]: the fields of [fin.readline().strip().split(",")], each
    stripped of double quotes. *)
Definition header_of (line : string) : list string :=
  map strip_quotes (split_comma (strip line)).

(** [fin.readline()] and the lines left for [for line in fin]. *)
Definition readline (fin : list string) : string * list string :=
  match fin with
  | [] => (EmptyString, [])
  | l :: rest => (l, rest)
  end.

(** Lines 243-256 and 305-318: the two column counts. *)
Definition check_columns (HEADER : list string) (MIN_COLS : nat)
  (line : string) (lspl : list string) : outcome unit :=
  (if (length lspl <? length HEADER)%nat
   then print_error
          ("Invalid number of columns (minimum = " ++ str (length HEADER) ++ ")!")
          "Line" line
   else Ret tt) ;;;
  let num_cols := length (filter truthy lspl) in
  if (num_cols <? MIN_COLS)%nat
  then print_error
         ("Invalid number of populated columns (minimum = " ++ str MIN_COLS ++ ")!")
         "Line" line
  else Ret tt.

(** The header test of both branches (lines 296-299). *)
Definition check_header (HEADER : list string) (fin : list string)
  : outcome (list string) :=
  let (first, rest) := readline fin in
  let header := header_of first in
  if negb (list_eqb (firstn (length HEADER) header) HEADER)
  then Exit ("ERROR: Please check samplesheet header -> "
             ++ join "," header ++ " != " ++ join "," HEADER)
  else Ret rest.

Module Bam.

Definition MIN_COLS : nat := 2.
Definition HEADER : list string := ["sample"; "bam"].

(** Lines 303-324: the fields of a row, up to the sample name. *)
Definition entries (line : string) : outcome (string * string) :=
  let lspl := lspl_of line in
  check_columns HEADER MIN_COLS line lspl ;;;
  match firstn (length HEADER) lspl with
  | [sample; bam] =>
      let sample := replace_spaces sample in
      if negb (truthy sample)
      then print_error "Sample entry has not been specified!" "Line" line
      else Ret (sample, bam)
  | _ => Raise "ValueError"
  end.

(** Lines 327-335: the file name of the row. *)
Definition check_file (line bam : string) : outcome unit :=
  if truthy bam then
    (if has_space bam
     then print_error "BAM file contains spaces!" "Line" line
     else Ret tt) ;;;
    if negb (endswith bam ".bam")
    then print_error "Bam file does not have extension '.bam'!" "Line" line
    else Ret tt
  else Ret tt.

(** Lines 303-336: one row, up to its [sample_info]. *)
Definition row (line : string) : outcome (string * sample_info) :=
  e <- entries line ;;
  let '(sample, bam) := e in
  check_file line bam ;;;
  Ret (sample, SampleInfo "1" [bam]).

(** The body of [for line in fin] (lines 303-345). *)
Definition step (m : mapping) (line : string) : outcome mapping :=
  r <- row line ;;
  add_sample m line (fst r) (snd r).

End Bam.

Module Fastq.

(** Modelled from the spec: the head of the FASTQ branch (its [MIN_COLS],
    its [HEADER] and its header test) is not in the source file.  The
    specification asks for at least two populated fields in a FASTQ row and
    for a header that starts with [sample,fastq_1,fastq_2]; the BAM branch
    shows the shape. *)
Definition MIN_COLS : nat := 2.
Definition HEADER : list string := ["sample"; "fastq_1"; "fastq_2"].

(** Lines 241-262: the fields of a row, up to the sample name. *)
Definition entries (line : string) : outcome (string * string * string) :=
  let lspl := lspl_of line in
  check_columns HEADER MIN_COLS line lspl ;;;
  match firstn (length HEADER) lspl with
  | [sample; fastq_1; fastq_2] =>
      let sample := replace_spaces sample in
      if negb (truthy sample)
      then print_error "Sample entry has not been specified!" "Line" line
      else Ret (sample, fastq_1, fastq_2)
  | _ => Raise "ValueError"
  end.

(** Lines 266-274: one file name of the row. *)
Definition check_file (line fastq : string) : outcome unit :=
  if truthy fastq then
    (if has_space fastq
     then print_error "FastQ file contains spaces!" "Line" line
     else Ret tt) ;;;
    if negb (endswith fastq ".fastq.gz") && negb (endswith fastq ".fq.gz")
    then print_error
           "FastQ file does not have extension '.fastq.gz' or '.fq.gz'!"
           "Line" line
    else Ret tt
  else Ret tt.

(** Lines 276-282: paired-end or single-end. *)
Definition auto_detect (line sample fastq_1 fastq_2 : string)
  : outcome sample_info :=
  if truthy sample && truthy fastq_1 && truthy fastq_2
  then Ret (SampleInfo "0" [fastq_1; fastq_2])
  else if truthy sample && truthy fastq_1 && negb (truthy fastq_2)
  then Ret (SampleInfo "1" [fastq_1; fastq_2])
  else print_error "Invalid combination of columns provided!" "Line" line.

(** Lines 241-282: one row, up to its [sample_info]. *)
Definition row (line : string) : outcome (string * sample_info) :=
  e <- entries line ;;
  let '(sample, fastq_1, fastq_2) := e in
  check_file line fastq_1 ;;;
  check_file line fastq_2 ;;;
  i <- auto_detect line sample fastq_1 fastq_2 ;;
  Ret (sample, i).

(** The body of [for line in fin] (lines 241-291). *)
Definition step (m : mapping) (line : string) : outcome mapping :=
  r <- row line ;;
  add_sample m line (fst r) (snd r).

End Fastq.

(** [for line in fin: ...] over the sample mapping dictionary. *)
Fixpoint loop (step : mapping -> string -> outcome mapping)
  (m : mapping) (fin : list string) : outcome mapping :=
  match fin with
  | [] => Ret m
  | line :: rest => m' <- step m line ;; loop step m' rest
  end.

(** The reading half of [check_samplesheet]: the branch on [input_format],
    from an empty dictionary.  The BAM branch and the last one are lines
    293-349; the test of the FASTQ branch and its header test are not in the
    source file and follow the BAM branch, see [Fastq.HEADER]. *)
Definition read_samplesheet (fin : list string) (input_format : string)
  : outcome mapping :=
  if input_format =? "FASTQ" then
    rest <- check_header Fastq.HEADER fin ;;
    loop Fastq.step [] rest
  else if input_format =? "BAM" then
    rest <- check_header Bam.HEADER fin ;;
    loop Bam.step [] rest
  else print_error "INPUT_FORMAT needs to be either 'FASTQ' or 'BAM'" "Line" "".

(** ** Writing the validated sheet *)

(** [all(x[0] == runs[0][0] for x in runs)] *)
Definition same_datatype (runs : list sample_info) : bool :=
  match runs with
  | [] => true
  | first :: _ => forallb (fun x => info_flag x =? info_flag first) runs
  end.

(** Lines 366-367: [for idx, val in enumerate(runs)], FASTQ. *)
Fixpoint fastq_lines (sample : string) (idx : nat) (runs : list sample_info)
  : string :=
  match runs with
  | [] => ""
  | val :: rest =>
      join "," ((sample ++ "_T" ++ str (idx + 1)) :: info_list val) ++ nl
      ++ fastq_lines sample (S idx) rest
  end.

(** Lines 371-372: [for idx, val in enumerate(runs)], BAM. *)
Fixpoint bam_lines (sample : string) (idx : nat) (runs : list sample_info)
  : string :=
  match runs with
  | [] => ""
  | val :: rest =>
      join "," (sample :: info_list val) ++ nl
      ++ bam_lines sample (S idx) rest
  end.

(** Lines 358-367: [for sample in sorted(...)], FASTQ; [fout] is the text
    written so far. *)
Fixpoint write_fastq (m : mapping) (samples : list string) (fout : string)
  : outcome unit * string :=
  match samples with
  | [] => (Ret tt, fout)
  | sample :: rest =>
      match lookup m sample with
      | None => (Raise "KeyError", fout)
      | Some runs =>
          if negb (same_datatype runs)
          then (print_error
                  "Multiple runs of a sample must be of the same datatype!"
                  ("Sample: " ++ sample) "", fout)
          else write_fastq m rest (fout ++ fastq_lines sample 0 runs)
      end
  end.

(** Lines 370-372: [for sample in sorted(...)], BAM. *)
Fixpoint write_bam (m : mapping) (samples : list string) (fout : string)
  : outcome unit * string :=
  match samples with
  | [] => (Ret tt, fout)
  | sample :: rest =>
      match lookup m sample with
      | None => (Raise "KeyError", fout)
      | Some runs => write_bam m rest (fout ++ bam_lines sample 0 runs)
      end
  end.

Definition fastq_header_line : string :=
  join "," ["sample"; "single_end"; "fastq_1"; "fastq_2"] ++ nl.

Definition bam_header_line : string :=
  join "," ["sample"; "idx"; "bam"] ++ nl.

(** Lines 352-375: the writing half.  The directory of [file_out] is taken
    to exist or to be creatable. *)
Definition write_samplesheet (file_in : string) (m : mapping)
  (input_format : string) : outcome unit * option string :=
  if (0 <? length m)%nat then
    if input_format =? "FASTQ" then
      let (o, fout) := write_fastq m (sorted (keys m)) fastq_header_line in
      (o, Some fout)
    else if input_format =? "BAM" then
      let (o, fout) := write_bam m (sorted (keys m)) bam_header_line in
      (o, Some fout)
    else (Ret tt, Some "")
  else (print_error "No entries to process!" ("Samplesheet: " ++ file_in) "",
        None).

(** [check_samplesheet(file_in, file_out, input_format)], with [fin] the
    lines of [file_in]: how the call ends, and the text of [file_out] when
    it was opened. *)
Definition check_samplesheet (file_in : string) (fin : list string)
  (input_format : string) : outcome unit * option string :=
  match read_samplesheet fin input_format with
  | Ret m => write_samplesheet file_in m input_format
  | Exit s => (Exit s, None)
  | Raise e => (Raise e, None)
  end.

(** ** The output as the specification words it *)

Module Spec.

(** A validated row: its sanitized sample name and what was recorded. *)
Definition row : Type := (string * sample_info)%type.

(** The rows of one sample, in the order of the sheet. *)
Definition group (sample : string) (rows : list row) : list sample_info :=
  map snd (filter (fun r => fst r =? sample) rows).

Definition cat (l : list string) : string :=
  fold_right String.append "" l.

(** The [n]-th row of a sample in the FASTQ output: [sample_Tn,...]. *)
Definition fastq_line (sample : string) (n : nat) (i : sample_info)
  : string :=
  join "," ((sample ++ "_T" ++ str n) :: info_list i) ++ nl.

(** The rows of a group, numbered from 1. *)
Definition fastq_group (sample : string) (g : list sample_info) : string :=
  cat (map (fun ni => fastq_line sample (fst ni) (snd ni))
           (combine (seq 1 (length g)) g)).

(** The FASTQ sheet: the header, then the groups of [samples] in turn. *)
Definition fastq_output (samples : list string) (rows : list row)
  : string :=
  fastq_header_line
  ++ cat (map (fun s => fastq_group s (group s rows)) samples).

(** The BAM sheet as the specification has it: [idx] numbers the rows of
    a sample from 1. *)
Definition bam_line (sample : string) (n : nat) (i : sample_info) : string :=
  join "," (sample :: str n :: info_files i) ++ nl.

Definition bam_group (sample : string) (g : list sample_info) : string :=
  cat (map (fun ni => bam_line sample (fst ni) (snd ni))
           (combine (seq 1 (length g)) g)).

Definition bam_output (samples : list string) (rows : list row) : string :=
  bam_header_line
  ++ cat (map (fun s => bam_group s (group s rows)) samples).

(** The rows of sample [s] have one pairing flag. *)
Definition uniform (s : string) (rows : list row) : Prop :=
  forall i j, In (s, i) rows -> In (s, j) rows -> info_flag i = info_flag j.

(** Two rows of sample [s] have different pairing flags. *)
Definition mixed (s : string) (rows : list row) : Prop :=
  exists i j, In (s, i) rows /\ In (s, j) rows /\ info_flag i <> info_flag j.

(** All the rows of every sample have one pairing flag. *)
Definition consistent (rows : list row) : Prop :=
  forall s, uniform s rows.

(** The sample names of the rows, each once, in code point order. *)
Definition samples (rows : list row) : list string :=
  sorted (nodup string_dec (map fst rows)).

(** The number of the row at position [p] among the rows of [sample], in
    the order of the sheet and from 1. *)
Definition run_number (rows : list row) (p : nat) (sample : string) : nat :=
  S (length (group sample (firstn p rows))).

(** The file name fields of a data line: [fastq_1] and [fastq_2] of a FASTQ
    row, [bam] of a BAM row. *)
Definition file_fields (input_format line : string) : list string :=
  if input_format =? "FASTQ" then firstn 2 (skipn 1 (lspl_of line))
  else if input_format =? "BAM" then firstn 1 (skipn 1 (lspl_of line))
  else [].

End Spec.

(** The errors a row can stop with once it has enough columns. *)
Definition fastq_row_errors : list string :=
  ["Invalid number of populated columns (minimum = 2)!";
   "Sample entry has not been specified!";
   "FastQ file contains spaces!";
   "FastQ file does not have extension '.fastq.gz' or '.fq.gz'!";
   "Invalid combination of columns provided!"].

Definition bam_row_errors : list string :=
  ["Invalid number of populated columns (minimum = 2)!";
   "Sample entry has not been specified!";
   "BAM file contains spaces!";
   "Bam file does not have extension '.bam'!"].

(** An error text that differs from the one of repeated rows before either
    ends is not mistaken for it, whatever the lines cited. *)
Definition apart (e : string) : Prop :=
  forall t1 t2 : string, e ++ t1 <> "Samplesheet contains duplicate rows!" ++ t2.

(** The row of [line] is already in the dictionary [m]: some run recorded
    for its sample is the same list. *)
Definition recorded (row : string -> outcome (string * sample_info))
  (m : mapping) (line : string) : Prop :=
  exists s i runs, row line = Ret (s, i) /\ lookup m s = Some runs /\ In i runs.

(** The rows before [line] were all recorded, into [m], and the row of
    [line] is already in [m]. *)
Definition repeats (row : string -> outcome (string * sample_info))
  (step : mapping -> string -> outcome mapping) (lines : list string) : Prop :=
  exists before line after m,
    lines = (before ++ line :: after)%list
    /\ loop step [] before = Ret m
    /\ recorded row m line.

(** The dictionary [m] holds exactly the rows [rows]: its keys are the
    samples of the rows, each with its group. *)
Definition represents (m : mapping) (rows : list Spec.row) : Prop :=
  NoDup (keys m)
  /\ (forall s, In s (keys m) <-> In s (map fst rows))
  /\ (forall s, In s (keys m) -> lookup m s = Some (Spec.group s rows)).

(** ** Sheets used as instances *)

Module Examples.

Definition fastq_first : string := "sample,fastq_1,fastq_2" ++ nl.
Definition bam_first : string := "sample,bam" ++ nl.

(** Two samples, the second of the sheet first in the order. *)
Definition two_samples : list string :=
  ["b,b1.fq.gz," ++ nl; "a,a1.fq.gz," ++ nl; "b,b2.fq.gz," ++ nl].
Definition two_samples_rows : list Spec.row :=
  [("b", SampleInfo "1" ["b1.fq.gz"; ""]);
   ("a", SampleInfo "1" ["a1.fq.gz"; ""]);
   ("b", SampleInfo "1" ["b2.fq.gz"; ""])].

(** Sample [b] has a paired and a single run, sample [a] is sound. *)
Definition mixed_after : list string :=
  ["b,b1.fq.gz,b2.fq.gz" ++ nl; "a,a1.fq.gz," ++ nl; "b,b3.fq.gz," ++ nl].
Definition mixed_after_rows : list Spec.row :=
  [("b", SampleInfo "0" ["b1.fq.gz"; "b2.fq.gz"]);
   ("a", SampleInfo "1" ["a1.fq.gz"; ""]);
   ("b", SampleInfo "1" ["b3.fq.gz"; ""])].

(** Headers with a column more than the mode asks for. *)
Definition bam_first_extra : string := "sample,bam,extra" ++ nl.

(** A BAM row of two fields, and a FASTQ row of two fields. *)
Definition bam_two_fields : string := "S1,S1.bam" ++ nl.
Definition fastq_two_fields : string := "A,a.fastq.gz" ++ nl.

(** BAM rows without a file name. *)
Definition bam_no_file : string := "S1,,extra" ++ nl.
Definition bam_no_file_again : string := "S1,,other" ++ nl.
Definition bam_no_sample : string := ",,x,y" ++ nl.

(** Two BAM runs of one sample. *)
Definition bam_two_runs : list string :=
  ["S1,a.bam" ++ nl; "S1,b.bam" ++ nl].
Definition bam_two_runs_rows : list Spec.row :=
  [("S1", SampleInfo "1" ["a.bam"]); ("S1", SampleInfo "1" ["b.bam"])].

(** A paired and a single run of sample [A]. *)
Definition paired_then_single : list string :=
  ["A,a_1.fastq.gz,a_2.fastq.gz" ++ nl; "A,b_1.fastq.gz," ++ nl].

(** Two paired runs of sample [A], and a paired and a single run of it. *)
Definition paired_run_1 : string := "A,a_1.fastq.gz,a_2.fastq.gz" ++ nl.
Definition paired_run_2 : string := "A,c_1.fastq.gz,c_2.fastq.gz" ++ nl.
Definition single_run : string := "A,d_1.fastq.gz," ++ nl.

(** [fastq_2] without [fastq_1]. *)
Definition second_only : string := "S1,,S1_R2.fastq.gz" ++ nl.

(** A blank inside the first file name. *)
Definition spaced_fastq : string := "S1,S1 R1.fastq.gz," ++ nl.

End Examples.

(** The order of [sorted]: code point by code point. *)
Definition str_le (a b : string) : Prop := (a <=? b)%string = true.
Definition str_lt (a b : string) : Prop := (a <? b)%string = true.

(** ** The lines of the FASTQ output, as data *)

(** The first field of each line the FASTQ loop writes (line 367), in the
    order of the file: for each sample in turn, [sample_T1], [sample_T2],
    ... *)
Definition fastq_names (samples : list string) (rows : list Spec.row)
  : list string :=
  concat (map (fun s => map (fun n => s ++ "_T" ++ str n)
                            (seq 1 (length (Spec.group s rows))))
              samples).

(** What is written after the first field, line by line. *)
Definition fastq_infos (samples : list string) (rows : list Spec.row)
  : list sample_info :=
  concat (map (fun s => Spec.group s rows) samples).

(** One line of the output: [",".join([name] + val) + "\n"]. *)
Definition output_line (name : string) (val : sample_info) : string :=
  join "," (name :: info_list val) ++ nl.

(** The calls of [fout.write] of line 367, in turn: the name and the list
    [val] of each. *)
Definition fastq_written (samples : list string) (rows : list Spec.row)
  : list (string * sample_info) :=
  combine (fastq_names samples rows) (fastq_infos samples rows).

(** A text with a lone carriage return, a pair [\r\n] and a [\n]. *)
Definition mixed_endings : string :=
  "a" ++ String cr_char "b" ++ String cr_char nl ++ "c" ++ nl.

Definition is_digit (c : ascii) : bool :=
  ((48 <=? nat_of_ascii c) && (nat_of_ascii c <=? 57))%nat.

Fixpoint all_digits (s : string) : bool :=
  match s with
  | EmptyString => true
  | String c r => is_digit c && all_digits r
  end.

(** The sheet [Examples.two_samples] with the rows of its samples
    interleaved another way. *)
Definition two_samples_again : list string :=
  ["a,a1.fq.gz," ++ nl; "b,b1.fq.gz," ++ nl; "b,b2.fq.gz," ++ nl].
Definition two_samples_again_rows : list Spec.row :=
  [("a", SampleInfo "1" ["a1.fq.gz"; ""]);
   ("b", SampleInfo "1" ["b1.fq.gz"; ""]);
   ("b", SampleInfo "1" ["b2.fq.gz"; ""])].

(** ** [read_head] *)

(** Lines 166-169: [for idx, line in enumerate(handle)], with the lines read
    so far; the result is the list of lines kept and the lines left in the
    handle.  The line fetched when [idx == num_lines] is taken from the
    handle and not kept. *)
Fixpoint read_head_loop (handle : list string) (idx : nat) (num_lines : Z)
  (lines : list string) : list string * list string :=
  match handle with
  | [] => (lines, [])
  | line :: rest =>
      if (Z.of_nat idx =? num_lines)%Z then (lines, rest)
      else read_head_loop rest (S idx) num_lines (lines ++ [line])%list
  end.

(** Lines 163-170: [read_head(handle, num_lines)]: the text returned and
    the lines left in the handle. *)
Definition read_head (handle : list string) (num_lines : Z)
  : string * list string :=
  let (lines, rest) := read_head_loop handle 0 num_lines [] in
  (join "" lines, rest).

(** ** The row checker (lines 57-161) and the loop that calls it *)

Module RowChecker.

(** What [csv.DictReader] holds under a column: the field, or [None] when
    the line has fewer fields than the header. *)
Definition cell : Type := option string.

(** A row dictionary at the columns the checker names, with the names of
    [__init__] ([sample], [fastq_1], [fastq_2], [single_end]: four
    different keys); the other keys are neither read nor written.  [single]
    is [None] until the checker writes it. *)
Record row : Type := Row {
  sample : cell;
  first : cell;
  second : cell;
  single : option bool
}.

(** The exceptions of the methods: the assertions, and [len(None)]. *)
Inductive exn : Type :=
| AssertionError (msg : string)
| TypeError.

(** The dictionaries live in a store; a variable holds a reference. *)
Definition heap : Type := nat -> row.

Definition upd (h : heap) (r : nat) (v : row) : heap :=
  fun x => if (x =? r)%nat then v else h x.

Definition cell_eqb (a b : cell) : bool :=
  match a, b with
  | Some x, Some y => String.eqb x y
  | None, None => true
  | _, _ => false
  end.

Definition key_eqb (a b : cell * cell) : bool :=
  cell_eqb (fst a) (fst b) && cell_eqb (snd a) (snd b).

(** [set.add] *)
Fixpoint set_add (k : cell * cell) (s : list (cell * cell))
  : list (cell * cell) :=
  match s with
  | [] => [k]
  | x :: r => if key_eqb k x then s else x :: set_add k r
  end.

(** The state of a checker: [self._seen], a set of tuples, and
    [self.modified], a list of references to rows. *)
Record checker : Type := Checker {
  _seen : list (cell * cell);
  modified : list nat
}.

(** Lines 90-91 of [__init__]. *)
Definition init : checker := Checker [] [].

Definition VALID_FORMATS : list string := [".fq.gz"; ".fastq.gz"].

(** Lines 138-144. *)
Definition _validate_fastq_format (filename : string) : option exn :=
  if negb (existsb (endswith filename) VALID_FORMATS)
  then Some (AssertionError
               ("The FASTQ file has an unrecognized extension: " ++ filename
                ++ nl ++ "It should be one of: " ++ join ", " VALID_FORMATS))
  else None.

(** Lines 109-114: the row after the call, and the exception if any. *)
Definition _validate_sample (w : row) : row * option exn :=
  match sample w with
  | None => (w, Some TypeError)
  | Some s =>
      if (String.length s <=? 0)%nat
      then (w, Some (AssertionError "Sample input is required."))
      else (Row (Some (replace_spaces s)) (first w) (second w) (single w),
            None)
  end.

(** Lines 116-120. *)
Definition _validate_first (w : row) : option exn :=
  match first w with
  | None => Some TypeError
  | Some f =>
      if (String.length f <=? 0)%nat
      then Some (AssertionError "At least the first FASTQ file is required.")
      else _validate_fastq_format f
  end.

(** Lines 122-125. *)
Definition _validate_second (w : row) : option exn :=
  match second w with
  | None => Some TypeError
  | Some f =>
      if (0 <? String.length f)%nat then _validate_fastq_format f else None
  end.

(** [bool(x)] of a cell. *)
Definition cell_truthy (c : cell) : bool :=
  match c with
  | Some s => truthy s
  | None => false
  end.

(** [str(x)] of a cell, as an f-string prints it. *)
Definition cell_str (c : cell) : string :=
  match c with
  | Some s => s
  | None => "None"
  end.

(** [l[-2:]] *)
Definition last_two (l : list string) : list string :=
  skipn (length l - 2) l.

(** [Counter]: the keys counted, each with its count; a key that is not
    there counts 0. *)
Definition counter : Type := list (cell * nat).

Fixpoint count (c : counter) (k : cell) : nat :=
  match c with
  | [] => 0
  | (x, n) :: r => if cell_eqb x k then n else count r k
  end.

(** [seen[k] += 1] *)
Fixpoint incr (c : counter) (k : cell) : counter :=
  match c with
  | [] => [(k, 1)]
  | (x, n) :: r => if cell_eqb x k then (x, n + 1) :: r else (x, n) :: incr r k
  end.

(** Lines 157-160: [for row in self.modified], on the store. *)
Fixpoint rename_loop (refs : list nat) (seen : counter) (h : heap) : heap :=
  match refs with
  | [] => h
  | r :: rest =>
      let w := h r in
      let sample := sample w in
      let seen := incr seen sample in
      rename_loop rest seen
        (upd h r (Row (Some (cell_str sample ++ "_T" ++ str (count seen sample)))
                      (first w) (second w) (single w)))
  end.

(** Lines 146-160. *)
Definition validate_unique_samples (c : checker) (h : heap)
  : heap * option exn :=
  if negb (length (_seen c) =? length (modified c))%nat
  then (h, Some (AssertionError
                   "The pair of sample name and FASTQ must be unique."))
  else (rename_loop (modified c) [] h, None).

Section Pathlib.

(** [Path(name).suffixes], of [pathlib]. *)
Variable suffixes : string -> list string.

(** Lines 127-136; the flag is written before the extensions are
    compared. *)
Definition _validate_pair (w : row) : row * option exn :=
  if cell_truthy (first w) && cell_truthy (second w) then
    let w' := Row (sample w) (first w) (second w) (Some false) in
    if negb (list_eqb (last_two (suffixes (cell_str (first w))))
                      (last_two (suffixes (cell_str (second w)))))
    then (w', Some (AssertionError
                      "FASTQ pairs must have the same file extensions."))
    else (w', None)
  else (Row (sample w) (first w) (second w) (Some true), None).

(** Lines 102-105: the four validations of a row, in turn. *)
Definition validate (w : row) : row * option exn :=
  match _validate_sample w with
  | (w1, Some e) => (w1, Some e)
  | (w1, None) =>
      match _validate_first w1 with
      | Some e => (w1, Some e)
      | None =>
          match _validate_second w1 with
          | Some e => (w1, Some e)
          | None => _validate_pair w1
          end
      end
  end.

(** Lines 93-107: [validate_and_transform(self, row)], [r] the reference
    held by [row]. *)
Definition validate_and_transform (c : checker) (h : heap) (r : nat)
  : checker * heap * option exn :=
  let (w, e) := validate (h r) in
  let h' := upd h r w in
  match e with
  | Some x => (c, h', Some x)
  | None =>
      (Checker (set_add (sample w, first w) (_seen c))
               (modified c ++ [r])%list,
       h', None)
  end.

(** Lines 231-237: [for i, row in enumerate(reader)], from row [i] on; an
    assertion is logged with the number of the line and the call exits,
    another exception goes through. *)
Fixpoint check_rows (c : checker) (h : heap) (i : nat) (reader : list nat)
  : checker * heap * outcome unit :=
  match reader with
  | [] => (c, h, Ret tt)
  | r :: rest =>
      match validate_and_transform c h r with
      | (c', h', None) => check_rows c' h' (S i) rest
      | (c', h', Some (AssertionError error)) =>
          (c', h', Exit (error ++ " On line " ++ str (i + 2) ++ "."))
      | (c', h', Some TypeError) => (c', h', Raise "TypeError")
      end
  end.

End Pathlib.

End RowChecker.

(** How many of the cells [l] are the cell [k]. *)
Definition occurrences (k : RowChecker.cell) (l : list RowChecker.cell) : nat :=
  length (filter (RowChecker.cell_eqb k) l).

(** The key of a row in [self._seen]: its sample and its first file. *)
Definition seen_key (w : RowChecker.row) : RowChecker.cell * RowChecker.cell :=
  (RowChecker.sample w, RowChecker.first w).

(** A store for the instances: row 0 is sound, the others have a first
    file of another kind. *)
Definition two_rows_heap : RowChecker.heap :=
  fun r =>
    if (r =? 0)%nat
    then RowChecker.Row (Some "A 1") (Some "a.fq.gz") (Some "") None
    else RowChecker.Row (Some "B") (Some "b.txt") (Some "") None.

(** A store of three sound rows, two of them of sample [A]. *)
Definition three_rows_heap : RowChecker.heap :=
  fun r =>
    if (r =? 0)%nat
    then RowChecker.Row (Some "A") (Some "a1.fq.gz") (Some "") None
    else if (r =? 1)%nat
    then RowChecker.Row (Some "B") (Some "b1.fq.gz") (Some "") None
    else RowChecker.Row (Some "A") (Some "a2.fq.gz") (Some "") None.

(** The checker and the store after the three rows are accepted. *)
Definition three_rows_checked
  : RowChecker.checker * RowChecker.heap * outcome unit :=
  RowChecker.check_rows (fun _ => []) RowChecker.init three_rows_heap 0
    [0; 1; 2]%nat.

(** ** Facts on the string methods *)

Section StringFacts.

Lemma truthy_true (s : string) : truthy s = true <-> s <> "".
Proof. destruct s; simpl; split; congruence. Qed.

Lemma truthy_false (s : string) : truthy s = false <-> s = "".
Proof. destruct s; simpl; split; congruence. Qed.

Lemma list_eqb_eq (a b : list string) : list_eqb a b = true <-> a = b.
Proof.
  revert b; induction a as [|x a IH]; intros [|y b]; simpl;
    try (split; congruence).
  rewrite andb_true_iff, String.eqb_eq, IH.
  split; [intros [-> ->]; reflexivity | intros H; inversion H; auto].
Qed.

Lemma info_eqb_eq (a b : sample_info) : info_eqb a b = true <-> a = b.
Proof.
  unfold info_eqb; rewrite list_eqb_eq.
  destruct a, b; unfold info_list; simpl.
  split; intros H; inversion H; reflexivity.
Qed.

Lemma existsb_info_In (i : sample_info) (runs : list sample_info) :
  existsb (info_eqb i) runs = true <-> In i runs.
Proof.
  rewrite existsb_exists; split.
  - intros [x [Hin Heq]]. apply info_eqb_eq in Heq. subst; assumption.
  - intros Hin. exists i. split; [assumption | now apply info_eqb_eq].
Qed.

Lemma existsb_info_notIn (i : sample_info) (runs : list sample_info) :
  existsb (info_eqb i) runs = false <-> ~ In i runs.
Proof.
  rewrite <- existsb_info_In. destruct (existsb _ _); split; congruence.
Qed.

(** [endswith] is Python's: some prefix followed by the suffix. *)
Lemma endswith_iff (s suffix : string) :
  endswith s suffix = true <-> exists p, s = p ++ suffix.
Proof.
  induction s as [|c s IH]; cbn [endswith].
  - rewrite orb_false_r, String.eqb_eq. split.
    + intros <-. exists "". reflexivity.
    + intros [[|d p] H]; simpl in H; [auto | discriminate].
  - rewrite orb_true_iff, String.eqb_eq, IH. split.
    + intros [<- | [p ->]]; [exists "" | exists (String c p)]; reflexivity.
    + intros [[|d p] H]; simpl in H; [left; auto | right].
      inversion H; subst. exists p; reflexivity.
Qed.

(** [has_space] is [find(" ") != -1]: a blank occurs somewhere. *)
Lemma has_space_iff (s : string) :
  has_space s = true <-> exists a b, s = a ++ String space_char b.
Proof.
  induction s as [|c s IH]; simpl.
  - split; [discriminate | intros [[|d a] [b H]]; discriminate].
  - rewrite orb_true_iff, Ascii.eqb_eq, IH. split.
    + intros [-> | [a [b ->]]].
      * exists "", s; reflexivity.
      * exists (String c a), b; reflexivity.
    + intros [[|d a] [b H]]; simpl in H; inversion H; subst.
      * left; reflexivity.
      * right; exists a, b; reflexivity.
Qed.

Lemma has_space_truthy (s : string) : has_space s = true -> truthy s = true.
Proof. destruct s; simpl; [discriminate | reflexivity]. Qed.

End StringFacts.

(** ** The order of [sorted] *)

Section Order.

Lemma str_le_cases (a b : string) :
  str_le a b <-> String_as_OT.lt a b \/ a = b.
Proof.
  unfold str_le, String.leb.
  rewrite <- String_as_OT.cmp_lt, <- String_as_OT.cmp_eq.
  unfold String_as_OT.cmp.
  destruct (String.compare a b); split; intros H; auto; try discriminate.
  destruct H; discriminate.
Qed.

Lemma str_lt_cases (a b : string) : str_lt a b <-> String_as_OT.lt a b.
Proof.
  unfold str_lt, String.ltb.
  rewrite <- String_as_OT.cmp_lt. unfold String_as_OT.cmp.
  destruct (String.compare a b); split; intros H; auto; discriminate.
Qed.

Lemma str_le_trans (a b c : string) : str_le a b -> str_le b c -> str_le a c.
Proof.
  rewrite !str_le_cases.
  intros [H1 | ->] [H2 | ->]; auto.
  left. eapply String_as_OT.lt_trans; eauto.
Qed.

Lemma str_le_lt (a b : string) : str_le a b -> a <> b -> str_lt a b.
Proof.
  rewrite str_le_cases, str_lt_cases. intros [H | H] Hne; congruence.
Qed.

Lemma str_lt_le (a b : string) : str_lt a b -> str_le a b.
Proof. rewrite str_le_cases, str_lt_cases. auto. Qed.

Lemma str_lt_neq (a b : string) : str_lt a b -> a <> b.
Proof.
  rewrite str_lt_cases. intros H ->.
  exact (String_as_OT.lt_not_eq _ _ H eq_refl).
Qed.

Lemma str_lt_irrefl (a : string) : ~ str_lt a a.
Proof. intros H. exact (str_lt_neq _ _ H eq_refl). Qed.

Lemma str_lt_asym (a b : string) : str_lt a b -> ~ str_lt b a.
Proof.
  rewrite !str_lt_cases. intros H1 H2.
  exact (String_as_OT.lt_not_eq _ _ (String_as_OT.lt_trans _ _ _ H1 H2) eq_refl).
Qed.

Lemma str_le_total (a b : string) : str_le a b \/ str_le b a.
Proof. apply String.leb_total. Qed.

Lemma insert_sorted_perm (x : string) (l : list string) :
  Permutation (insert_sorted x l) (x :: l).
Proof.
  induction l as [|y l IH]; simpl; [reflexivity|].
  destruct (x <=? y)%string; [reflexivity|].
  rewrite IH. apply perm_swap.
Qed.

Lemma sorted_perm (l : list string) : Permutation (sorted l) l.
Proof.
  induction l as [|x l IH]; simpl; [reflexivity|].
  rewrite insert_sorted_perm. now constructor.
Qed.

Lemma sorted_In (l : list string) (x : string) : In x (sorted l) <-> In x l.
Proof.
  split; apply Permutation_in;
    [apply sorted_perm | apply Permutation_sym, sorted_perm].
Qed.

Lemma insert_sorted_sorted (x : string) (l : list string) :
  StronglySorted str_le l -> StronglySorted str_le (insert_sorted x l).
Proof.
  induction 1 as [|y l Hs IH Hall]; simpl.
  - repeat constructor.
  - destruct (x <=? y)%string eqn:E.
    + constructor; [constructor; assumption|].
      constructor; [exact E|].
      eapply Forall_impl; [|exact Hall].
      intros z Hz. eapply str_le_trans; [exact E | exact Hz].
    + constructor; [assumption|].
      assert (Hyx : str_le y x).
      { destruct (str_le_total x y) as [H | H]; [|exact H].
        unfold str_le in H; congruence. }
      rewrite Forall_forall in *. intros z Hz.
      apply (Permutation_in _ (insert_sorted_perm x l)) in Hz.
      destruct Hz as [<- | Hz]; auto.
Qed.

Lemma sorted_sorted (l : list string) : StronglySorted str_le (sorted l).
Proof.
  induction l as [|x l IH]; simpl; [constructor|].
  now apply insert_sorted_sorted.
Qed.

Lemma strict_of_nodup (l : list string) :
  StronglySorted str_le l -> NoDup l -> StronglySorted str_lt l.
Proof.
  induction 1 as [|y l Hs IH Hall]; intros Hnd; constructor.
  - apply IH. now inversion Hnd.
  - inversion Hnd; subst. rewrite Forall_forall in *.
    intros z Hz. apply str_le_lt; [auto|]. intros ->. contradiction.
Qed.

(** A strictly ordered list is cut at each of its members into the
    smaller ones and the larger ones. *)
Lemma strict_split (l : list string) (s : string) :
  StronglySorted str_lt l -> In s l ->
  exists before after,
    l = (before ++ s :: after)%list
    /\ StronglySorted str_lt before
    /\ (forall x, In x before -> str_lt x s)
    /\ (forall x, In x after -> str_lt s x).
Proof.
  induction 1 as [|y l Hs IH Hall]; intros Hin; [destruct Hin|].
  rewrite Forall_forall in Hall.
  destruct Hin as [-> | Hin].
  - exists [], l. repeat split; [constructor | intros x [] | exact Hall].
  - destruct (IH Hin) as (b & a & -> & Hb & Hlt & Hgt).
    exists (y :: b), a. repeat split.
    + constructor; [exact Hb|]. rewrite Forall_forall.
      intros x Hx. apply Hall, in_or_app. now left.
    + intros x [<- | Hx]; [|now apply Hlt].
      apply Hall, in_or_app. right; now left.
    + exact Hgt.
Qed.

(** Two strictly ordered lists with the same members are the same list:
    the order of the output does not depend on how the keys are sorted. *)
Lemma strict_sorted_unique (l1 l2 : list string) :
  StronglySorted str_lt l1 -> StronglySorted str_lt l2 ->
  (forall x, In x l1 <-> In x l2) -> l1 = l2.
Proof.
  intros H1. revert l2.
  induction H1 as [|x l1 Hs1 IH Hall1]; intros l2 H2 Hmem.
  - destruct l2 as [|y l2]; [reflexivity|].
    destruct (proj2 (Hmem y) (or_introl eq_refl)).
  - destruct H2 as [|y l2 Hs2 Hall2].
    + destruct (proj1 (Hmem x) (or_introl eq_refl)).
    + rewrite Forall_forall in Hall1, Hall2.
      assert (Hxy : x = y).
      { destruct (proj1 (Hmem x) (or_introl eq_refl)) as [E | Hx]; [auto|].
        destruct (proj2 (Hmem y) (or_introl eq_refl)) as [E | Hy]; [auto|].
        exfalso. exact (str_lt_asym _ _ (Hall1 _ Hy) (Hall2 _ Hx)). }
      subst y. f_equal. apply IH; [exact Hs2|].
      intros z. split; intros Hz.
      * destruct (proj1 (Hmem z) (or_intror Hz)) as [E | Hz']; [|exact Hz'].
        subst z. exfalso. exact (str_lt_irrefl _ (Hall1 _ Hz)).
      * destruct (proj2 (Hmem z) (or_intror Hz)) as [E | Hz']; [|exact Hz'].
        subst z. exfalso. exact (str_lt_irrefl _ (Hall2 _ Hz)).
Qed.

Lemma sorted_strict (l : list string) :
  NoDup l -> StronglySorted str_lt (sorted l).
Proof.
  intros Hnd. apply strict_of_nodup; [apply sorted_sorted|].
  eapply Permutation_NoDup; [apply Permutation_sym, sorted_perm | exact Hnd].
Qed.

End Order.

(** ** The dictionary and the rows it records *)

Section Mapping.

Lemma append_nil_r (s : string) : s ++ "" = s.
Proof. induction s; simpl; congruence. Qed.

Lemma append_assoc (a b c : string) : (a ++ b) ++ c = a ++ (b ++ c).
Proof. induction a; simpl; congruence. Qed.

Lemma cat_app (l1 l2 : list string) :
  Spec.cat (l1 ++ l2)%list = Spec.cat l1 ++ Spec.cat l2.
Proof.
  induction l1 as [|x l1 IH]; simpl; [reflexivity|].
  now rewrite IH, append_assoc.
Qed.

Lemma lookup_None (m : mapping) (s : string) :
  lookup m s = None <-> ~ In s (keys m).
Proof.
  induction m as [|[k runs] m IH]; simpl; [tauto|].
  destruct (String.eqb_spec k s) as [-> | Hne].
  - split; [discriminate | intros H; exfalso; auto].
  - rewrite IH. tauto.
Qed.

Lemma lookup_Some_In (m : mapping) (s : string) (runs : list sample_info) :
  lookup m s = Some runs -> In s (keys m).
Proof.
  intros H. destruct (in_dec string_dec s (keys m)) as [Hin | Hin]; auto.
  apply lookup_None in Hin. congruence.
Qed.

Lemma keys_app (m1 m2 : mapping) : keys (m1 ++ m2)%list = (keys m1 ++ keys m2)%list.
Proof. apply map_app. Qed.

Lemma lookup_app_new (m : mapping) (s s' : string) (runs : list sample_info) :
  lookup (m ++ [(s, runs)])%list s' =
  match lookup m s' with
  | Some r => Some r
  | None => if s =? s' then Some runs else None
  end.
Proof.
  induction m as [|[k r] m IH]; simpl; [reflexivity|].
  destruct (k =? s'); auto.
Qed.

Lemma keys_append_run (m : mapping) (s : string) (i : sample_info) :
  keys (append_run m s i) = keys m.
Proof.
  induction m as [|[k r] m IH]; simpl; [reflexivity|].
  destruct (k =? s); simpl; [reflexivity | now rewrite IH].
Qed.

Lemma lookup_append_run (m : mapping) (s s' : string) (i : sample_info) :
  lookup (append_run m s i) s' =
  match lookup m s' with
  | Some r => if s =? s' then Some (r ++ [i])%list else Some r
  | None => None
  end.
Proof.
  induction m as [|[k r] m IH]; simpl; [reflexivity|].
  destruct (String.eqb_spec k s) as [-> | Hks]; simpl.
  - destruct (String.eqb_spec s s') as [-> | Hss]; [reflexivity|].
    destruct (lookup m s'); reflexivity.
  - destruct (String.eqb_spec k s') as [-> | Hks'].
    + destruct (String.eqb_spec s s'); [congruence | reflexivity].
    + apply IH.
Qed.

Lemma group_app (s : string) (r1 r2 : list Spec.row) :
  Spec.group s (r1 ++ r2)%list = (Spec.group s r1 ++ Spec.group s r2)%list.
Proof. unfold Spec.group. now rewrite filter_app, map_app. Qed.

Lemma group_one (s s' : string) (i : sample_info) :
  Spec.group s [(s', i)] = if s' =? s then [i] else [].
Proof. unfold Spec.group; simpl. destruct (s' =? s); reflexivity. Qed.

Lemma In_group (s : string) (i : sample_info) (rows : list Spec.row) :
  In i (Spec.group s rows) <-> In (s, i) rows.
Proof.
  unfold Spec.group. rewrite in_map_iff. split.
  - intros [[s' j] [Heq Hin]]. simpl in Heq; subst j.
    apply filter_In in Hin. destruct Hin as [Hin Hs].
    simpl in Hs. apply String.eqb_eq in Hs. now subst.
  - intros Hin. exists (s, i). split; [reflexivity|].
    apply filter_In. split; [assumption | apply String.eqb_refl].
Qed.

Lemma group_nil (s : string) (rows : list Spec.row) :
  ~ In s (map fst rows) -> Spec.group s rows = [].
Proof.
  intros Hn. destruct (Spec.group s rows) as [|i g] eqn:E; [reflexivity|].
  exfalso. apply Hn. apply in_map_iff. exists (s, i). split; [reflexivity|].
  apply In_group. rewrite E. now left.
Qed.

Lemma filter_split_perm (p : Spec.row -> bool) (l : list Spec.row) :
  Permutation (filter p l ++ filter (fun r => negb (p r)) l)%list l.
Proof.
  induction l as [|a l IH]; simpl; [constructor|].
  destruct (p a); simpl.
  - now constructor.
  - rewrite <- Permutation_middle. now constructor.
Qed.

Lemma filter_group_rows (s : string) (rows : list Spec.row) :
  map (pair s) (Spec.group s rows) = filter (fun r => fst r =? s) rows.
Proof.
  unfold Spec.group. induction rows as [|[k i] rows IH]; simpl; [reflexivity|].
  destruct (String.eqb_spec k s) as [-> | Hne]; simpl; now rewrite IH.
Qed.

Lemma group_filter_other (s s' : string) (rows : list Spec.row) :
  s' <> s ->
  Spec.group s' (filter (fun r => negb (fst r =? s)) rows) = Spec.group s' rows.
Proof.
  intros Hne. unfold Spec.group.
  induction rows as [|[k i] rows IH]; simpl; [reflexivity|].
  destruct (String.eqb_spec k s) as [-> | Hks]; simpl.
  - destruct (String.eqb_spec s s'); [congruence | exact IH].
  - destruct (k =? s'); simpl; now rewrite IH.
Qed.

(** The groups of distinct samples that cover the sheet hold every row of
    the sheet once. *)
Lemma groups_partition (samples : list string) :
  NoDup samples ->
  forall rows : list Spec.row,
    (forall s, In s (map fst rows) -> In s samples) ->
    Permutation
      (concat (map (fun s => map (pair s) (Spec.group s rows)) samples))
      rows.
Proof.
  induction 1 as [|s samples Hnotin Hnd IH]; intros rows Hcov.
  - destruct rows as [|[k i] rows]; [constructor|].
    destruct (Hcov k (or_introl eq_refl)).
  - simpl. rewrite filter_group_rows.
    rewrite <- (filter_split_perm (fun r => fst r =? s) rows) at 2.
    apply Permutation_app_head.
    rewrite <- (IH (filter (fun r => negb (fst r =? s)) rows)).
    + apply Permutation_refl'. f_equal. apply map_ext_in.
      intros s' Hs'. rewrite group_filter_other; [reflexivity|].
      intros ->. contradiction.
    + intros k Hk. apply in_map_iff in Hk. destruct Hk as ([k' i] & <- & Hk).
      apply filter_In in Hk. destruct Hk as [Hin Hne]. simpl in *.
      apply negb_true_iff, String.eqb_neq in Hne.
      destruct (Hcov k') as [-> | H]; [|congruence|exact H].
      apply in_map_iff. now exists (k', i).
Qed.

Lemma strict_NoDup (l : list string) : StronglySorted str_lt l -> NoDup l.
Proof.
  induction 1 as [|x l Hs IH Hall]; constructor; [|exact IH].
  rewrite Forall_forall in Hall. intros Hin.
  exact (str_lt_irrefl _ (Hall _ Hin)).
Qed.

Lemma represents_nil : represents [] [].
Proof.
  repeat split; simpl; try tauto. constructor.
Qed.

(** A row not yet recorded is added: as a new key, or to its sample. *)
Lemma add_sample_new (m : mapping) (rows : list Spec.row)
  (line s : string) (i : sample_info) :
  represents m rows -> ~ In (s, i) rows ->
  exists m', add_sample m line s i = Ret m'
             /\ represents m' (rows ++ [(s, i)])%list.
Proof.
  intros (Hnd & Hkeys & Hlook) Hnew. unfold add_sample.
  destruct (lookup m s) as [runs|] eqn:El.
  - assert (Hin : In s (keys m)) by (eapply lookup_Some_In; eauto).
    rewrite (Hlook s Hin) in El. injection El as <-.
    assert (E : existsb (info_eqb i) (Spec.group s rows) = false).
    { apply existsb_info_notIn. now rewrite In_group. }
    rewrite E. eexists; split; [reflexivity|].
    split; [now rewrite keys_append_run|]. split.
    + intros s'. rewrite keys_append_run, map_app, in_app_iff, Hkeys.
      simpl. split; [tauto|]. intros [H | [<- | []]]; auto.
      now apply Hkeys.
    + intros s'. rewrite keys_append_run. intros Hs'.
      rewrite lookup_append_run, (Hlook s' Hs'), group_app, group_one.
      destruct (s =? s'); [reflexivity | now rewrite app_nil_r].
  - apply lookup_None in El.
    eexists; split; [reflexivity|]. split; [|split].
    + rewrite keys_app. simpl. apply NoDup_app; auto.
      * repeat constructor. simpl; tauto.
      * intros x Hx [<- | []]. contradiction.
    + intros s'. rewrite keys_app, map_app, !in_app_iff, Hkeys. reflexivity.
    + intros s'. rewrite keys_app, in_app_iff, lookup_app_new, group_app,
        group_one. simpl.
      destruct (in_dec string_dec s' (keys m)) as [Hin | Hin].
      * rewrite (Hlook s' Hin). intros _.
        destruct (String.eqb_spec s s') as [<- | Hne];
          [contradiction | now rewrite app_nil_r].
      * intros [H | [<- | []]]; [contradiction|].
        apply lookup_None in Hin. rewrite Hin, String.eqb_refl.
        rewrite group_nil; [reflexivity|]. now rewrite <- Hkeys.
Qed.

(** A row already recorded for its sample stops the run. *)
Lemma add_sample_dup (m : mapping) (rows : list Spec.row)
  (line s : string) (i : sample_info) :
  represents m rows -> In (s, i) rows ->
  add_sample m line s i
  = print_error "Samplesheet contains duplicate rows!" "Line" line.
Proof.
  intros (Hnd & Hkeys & Hlook) Hin. unfold add_sample.
  assert (Hk : In s (keys m)).
  { apply Hkeys. apply in_map_iff. now exists (s, i). }
  rewrite (Hlook s Hk).
  assert (E : existsb (info_eqb i) (Spec.group s rows) = true).
  { apply existsb_info_In. now apply In_group. }
  now rewrite E.
Qed.

End Mapping.

(** ** The loop over the rows *)

Section Loop.

Variable row : string -> outcome (string * sample_info).
Variable step : mapping -> string -> outcome mapping.
Hypothesis step_eq : forall m line,
  step m line = (r <- row line ;; add_sample m line (fst r) (snd r)).

(** Rows that are all accepted and pairwise different are all recorded. *)
Lemma loop_records (lines : list string) (rows : list Spec.row) :
  Forall2 (fun l r => row l = Ret r) lines rows ->
  forall (m : mapping) (pre : list Spec.row),
    represents m pre -> NoDup (pre ++ rows)%list ->
    exists m', loop step m lines = Ret m'
               /\ represents m' (pre ++ rows)%list.
Proof.
  induction 1 as [|l [s i] lines rows Hrow _ IH]; intros m pre Hm Hnd.
  - exists m. rewrite app_nil_r. split; [reflexivity | assumption].
  - assert (Hnew : ~ In (s, i) pre).
    { intros Hin. apply NoDup_remove_2 in Hnd. apply Hnd.
      apply in_or_app; now left. }
    destruct (add_sample_new m pre l s i Hm Hnew) as (m1 & Hadd & Hm1).
    assert (Hnd1 : NoDup ((pre ++ [(s, i)]) ++ rows)%list)
      by now rewrite <- app_assoc.
    destruct (IH m1 _ Hm1 Hnd1) as (m' & Hloop & Hm').
    exists m'. rewrite <- app_assoc in Hm'. split; [|exact Hm'].
    simpl. rewrite step_eq, Hrow. simpl. rewrite Hadd. exact Hloop.
Qed.

(** The loop stops at the first row that fails, with that row's message. *)
Lemma loop_stops (pre : list string) (line : string) (post : list string)
  (m m1 : mapping) (msg : string) :
  loop step m pre = Ret m1 -> step m1 line = Exit msg ->
  loop step m (pre ++ line :: post)%list = Exit msg.
Proof.
  revert m. induction pre as [|l pre IH]; simpl; intros m Hpre Hline.
  - injection Hpre as ->. now rewrite Hline.
  - destruct (step m l) as [m2| |]; simpl in *; try discriminate.
    now apply IH.
Qed.

Lemma loop_app (l1 l2 : list string) (m : mapping) :
  loop step m (l1 ++ l2)%list = (m1 <- loop step m l1 ;; loop step m1 l2).
Proof.
  revert m. induction l1 as [|l l1 IH]; simpl; intros m; [reflexivity|].
  destruct (step m l); simpl; auto.
Qed.

(** A row that fails anywhere in the sheet keeps the loop from returning. *)
Lemma loop_fails (lines : list string) (line : string) :
  In line lines -> (forall m, exists msg, step m line = Exit msg) ->
  forall m, exists msg, loop step m lines = Exit msg \/ loop step m lines = Raise msg.
Proof.
  intros Hin Hline. induction lines as [|l lines IH]; [destruct Hin|].
  intros m. simpl.
  destruct Hin as [-> | Hin].
  - destruct (Hline m) as [msg ->]. exists msg. now left.
  - destruct (step m l) as [m1|s|e]; simpl.
    + apply IH, Hin.
    + exists s; now left.
    + exists e; now right.
Qed.

End Loop.

(** ** The writer *)

Section Writer.

Lemma fastq_lines_numbered (sample : string) (g : list sample_info) (k : nat) :
  fastq_lines sample k g
  = Spec.cat (map (fun ni => Spec.fastq_line sample (fst ni) (snd ni))
                  (combine (seq (S k) (length g)) g)).
Proof.
  unfold Spec.cat, Spec.fastq_line.
  revert k. induction g as [|i g IH]; intros k; [reflexivity|].
  cbn [fastq_lines length seq combine map fold_right fst snd].
  rewrite IH, Nat.add_1_r, append_assoc. reflexivity.
Qed.

Lemma fastq_lines_group (sample : string) (g : list sample_info) :
  fastq_lines sample 0 g = Spec.fastq_group sample g.
Proof. apply fastq_lines_numbered. Qed.

Lemma same_datatype_true (runs : list sample_info) :
  same_datatype runs = true
  <-> forall i j, In i runs -> In j runs -> info_flag i = info_flag j.
Proof.
  unfold same_datatype. destruct runs as [|f runs]; [simpl; tauto|].
  rewrite forallb_forall. split.
  - intros H i j Hi Hj.
    apply H in Hi, Hj. apply String.eqb_eq in Hi, Hj. congruence.
  - intros H x Hx. apply String.eqb_eq. apply H; [exact Hx | now left].
Qed.

Lemma same_datatype_uniform (rows : list Spec.row) (s : string) :
  same_datatype (Spec.group s rows) = true <-> Spec.uniform s rows.
Proof.
  rewrite same_datatype_true. unfold Spec.uniform. split.
  - intros H i j Hi Hj. apply H; now apply In_group.
  - intros H i j Hi Hj. apply In_group in Hi, Hj. now apply H.
Qed.

Lemma same_datatype_mixed (rows : list Spec.row) (s : string) :
  same_datatype (Spec.group s rows) = false <-> Spec.mixed s rows.
Proof.
  split.
  - intros H. unfold same_datatype in H.
    destruct (Spec.group s rows) as [|f runs] eqn:E; [discriminate|].
    assert (Hex : existsb (fun x => negb (info_flag x =? info_flag f))
                    (f :: runs) = true).
    { rewrite <- negb_false_iff, <- H. clear.
      induction (f :: runs) as [|x l IH]; simpl; [reflexivity|].
      rewrite negb_orb, negb_involutive, IH. reflexivity. }
    apply existsb_exists in Hex. destruct Hex as (x & Hx & Hne).
    exists x, f. rewrite <- !In_group, E. split; [exact Hx|].
    split; [now left|].
    apply negb_true_iff, String.eqb_neq in Hne. exact Hne.
  - intros (i & j & Hi & Hj & Hne).
    destruct (same_datatype (Spec.group s rows)) eqn:E; [|reflexivity].
    exfalso. apply Hne. apply same_datatype_uniform in E. now apply E.
Qed.

Lemma same_datatype_group (rows : list Spec.row) (s : string) :
  Spec.consistent rows -> same_datatype (Spec.group s rows) = true.
Proof. intros Hc. apply same_datatype_uniform, Hc. Qed.

(** Samples whose runs agree are written group after group. *)
Lemma write_fastq_groups (m : mapping) (rows : list Spec.row)
  (samples : list string) (fout : string) :
  represents m rows ->
  (forall s, In s samples -> In s (keys m)) ->
  (forall s, In s samples -> same_datatype (Spec.group s rows) = true) ->
  write_fastq m samples fout
  = (Ret tt,
     fout ++ Spec.cat (map (fun s => Spec.fastq_group s (Spec.group s rows))
                           samples)).
Proof.
  intros (Hnd & Hkeys & Hlook). revert fout.
  induction samples as [|s samples IH]; intros fout Hin Hsame; simpl.
  - now rewrite append_nil_r.
  - rewrite (Hlook s (Hin s (or_introl eq_refl))).
    rewrite (Hsame s (or_introl eq_refl)). simpl.
    rewrite IH;
      [ now rewrite fastq_lines_group, append_assoc
      | intros; apply Hin; now right
      | intros; apply Hsame; now right ].
Qed.

(** The first sample whose runs disagree stops the writer, after the
    groups before it. *)
Lemma write_fastq_stops (m : mapping) (rows : list Spec.row)
  (before : list string) (s : string) (after : list string) (fout : string) :
  represents m rows ->
  (forall x, In x (before ++ s :: after)%list -> In x (keys m)) ->
  (forall x, In x before -> same_datatype (Spec.group x rows) = true) ->
  same_datatype (Spec.group s rows) = false ->
  write_fastq m (before ++ s :: after)%list fout
  = (print_error "Multiple runs of a sample must be of the same datatype!"
       ("Sample: " ++ s) "",
     fout ++ Spec.cat (map (fun x => Spec.fastq_group x (Spec.group x rows))
                           before)).
Proof.
  intros (Hnd & Hkeys & Hlook). revert fout.
  induction before as [|b before IH]; intros fout Hin Hsame Hbad; simpl.
  - rewrite (Hlook s (Hin s (or_introl eq_refl))), Hbad. simpl.
    now rewrite append_nil_r.
  - rewrite (Hlook b (Hin b (or_introl eq_refl))).
    rewrite (Hsame b (or_introl eq_refl)). simpl.
    rewrite IH; auto.
    + now rewrite fastq_lines_group, append_assoc.
    + intros x Hx. apply Hin. now right.
    + intros x Hx. apply Hsame. now right.
Qed.

End Writer.

(** ** The whole call *)

Section Run.

Lemma check_header_ok (HEADER : list string) (first : string)
  (lines : list string) :
  firstn (length HEADER) (header_of first) = HEADER ->
  check_header HEADER (first :: lines) = Ret lines.
Proof.
  intros H. unfold check_header, readline.
  apply list_eqb_eq in H. now rewrite H.
Qed.

Lemma represents_nonempty (m : mapping) (rows : list Spec.row) :
  represents m rows -> rows <> [] -> (0 <? length m)%nat = true.
Proof.
  intros (_ & Hkeys & _) Hne. apply Nat.ltb_lt.
  destruct rows as [|[s i] rows]; [congruence|].
  destruct m; [|simpl; lia].
  exfalso. apply (proj2 (Hkeys s)). now left.
Qed.

(** What a FASTQ sheet of accepted, pairwise different rows is read to. *)
Lemma read_fastq_records (first : string) (lines : list string)
  (rows : list Spec.row) :
  firstn (length Fastq.HEADER) (header_of first) = Fastq.HEADER ->
  Forall2 (fun l r => Fastq.row l = Ret r) lines rows ->
  NoDup rows ->
  exists m, read_samplesheet (first :: lines) "FASTQ" = Ret m
            /\ represents m rows.
Proof.
  intros Hh Hrows Hnd. unfold read_samplesheet.
  rewrite String.eqb_refl, (check_header_ok _ _ _ Hh). simpl.
  apply (loop_records Fastq.row Fastq.step (fun _ _ => eq_refl)
           lines rows Hrows [] [] represents_nil Hnd).
Qed.

(** What a BAM sheet of accepted, pairwise different rows is read to. *)
Lemma read_bam_records (first : string) (lines : list string)
  (rows : list Spec.row) :
  firstn (length Bam.HEADER) (header_of first) = Bam.HEADER ->
  Forall2 (fun l r => Bam.row l = Ret r) lines rows ->
  NoDup rows ->
  exists m, read_samplesheet (first :: lines) "BAM" = Ret m
            /\ represents m rows.
Proof.
  intros Hh Hrows Hnd. unfold read_samplesheet.
  change ("BAM" =? "FASTQ") with false. cbv iota.
  rewrite String.eqb_refl, (check_header_ok _ _ _ Hh). simpl.
  apply (loop_records Bam.row Bam.step (fun _ _ => eq_refl)
           lines rows Hrows [] [] represents_nil Hnd).
Qed.

Lemma sorted_keys_strict (m : mapping) (rows : list Spec.row) :
  represents m rows ->
  StronglySorted str_lt (sorted (keys m))
  /\ (forall s, In s (sorted (keys m)) <-> In s (map fst rows)).
Proof.
  intros (Hnd & Hkeys & _). split; [now apply sorted_strict|].
  intros s. now rewrite sorted_In.
Qed.

End Run.

(** C1.  In FASTQ mode, a sheet whose rows all pass the row checks, with no
    repeated row, one pairing flag per sample and at least one row, is
    written as the header [sample,single_end,fastq_1,fastq_2] followed by
    the rows grouped by sanitized sample name: the groups come in strictly
    increasing code point order of the sample names (the one such list of
    the samples of the sheet), every row is in one group, the rows of a
    group keep the order of the sheet, and the [n]-th row of a group is
    named [sample_Tn], counting from 1.
    The sheet with the one row [S1,S1_R1.fastq.gz,S1_R2.fastq.gz] is written
    as the header and [S1_T1,0,S1_R1.fastq.gz,S1_R2.fastq.gz]. *)
Theorem fastq_output_grouped_sorted_numbered :
  (forall (file_in first : string) (lines : list string)
          (rows : list Spec.row),
      firstn (length Fastq.HEADER) (header_of first) = Fastq.HEADER ->
      Forall2 (fun l r => Fastq.row l = Ret r) lines rows ->
      rows <> [] -> NoDup rows -> Spec.consistent rows ->
      exists samples,
        StronglySorted str_lt samples
        /\ (forall s, In s samples <-> In s (map fst rows))
        /\ (forall others,
              StronglySorted str_lt others ->
              (forall s, In s others <-> In s (map fst rows)) ->
              others = samples)
        /\ Permutation
             (concat (map (fun s => map (pair s) (Spec.group s rows)) samples))
             rows
        /\ check_samplesheet file_in (first :: lines) "FASTQ"
           = (Ret tt, Some (Spec.fastq_output samples rows)))
  /\ (forall file_in,
        check_samplesheet file_in
          (lines_of ("sample,fastq_1,fastq_2" ++ nl
                     ++ "S1,S1_R1.fastq.gz,S1_R2.fastq.gz" ++ nl)) "FASTQ"
        = (Ret tt, Some ("sample,single_end,fastq_1,fastq_2" ++ nl
                         ++ "S1_T1,0,S1_R1.fastq.gz,S1_R2.fastq.gz" ++ nl))).
Proof.
  split.
  - intros file_in first lines rows Hh Hrows Hne Hnd Hc.
    destruct (read_fastq_records first lines rows Hh Hrows Hnd)
      as (m & Hread & Hm).
    destruct (sorted_keys_strict m rows Hm) as [Hs Hin].
    exists (sorted (keys m)). split; [exact Hs|]. split; [exact Hin|].
    split.
    { intros others Ho Hmem. apply strict_sorted_unique; auto.
      intros x. now rewrite Hmem, Hin. }
    split.
    { apply groups_partition; [now apply strict_NoDup|].
      intros s. apply Hin. }
    unfold check_samplesheet. rewrite Hread.
    unfold write_samplesheet.
    rewrite (represents_nonempty m rows Hm Hne), String.eqb_refl.
    rewrite (write_fastq_groups m rows (sorted (keys m)) fastq_header_line Hm).
    + reflexivity.
    + intros s. now rewrite sorted_In.
    + intros s _. now apply same_datatype_group.
  - intros file_in. vm_compute. reflexivity.
Qed.

(** The instance of C1 at a sheet of three rows for two samples. *)
Lemma fastq_output_grouped_sorted_numbered_witness :
  exists samples,
    StronglySorted str_lt samples
    /\ (forall s, In s samples <-> In s (map fst Examples.two_samples_rows))
    /\ (forall others,
          StronglySorted str_lt others ->
          (forall s, In s others <-> In s (map fst Examples.two_samples_rows)) ->
          others = samples)
    /\ Permutation
         (concat (map (fun s => map (pair s)
                                   (Spec.group s Examples.two_samples_rows))
                      samples))
         Examples.two_samples_rows
    /\ check_samplesheet "samplesheet.csv"
         (Examples.fastq_first :: Examples.two_samples) "FASTQ"
       = (Ret tt, Some (Spec.fastq_output samples Examples.two_samples_rows)).
Proof.
  apply (proj1 fastq_output_grouped_sorted_numbered
           "samplesheet.csv" Examples.fastq_first Examples.two_samples
           Examples.two_samples_rows).
  - reflexivity.
  - repeat constructor.
  - discriminate.
  - repeat constructor; simpl; intuition discriminate.
  - intros s i j Hi Hj. simpl in Hi, Hj.
    intuition (try congruence); repeat match goal with
              | H : (_, _) = (_, _) |- _ => inversion H; clear H; subst
              end; reflexivity.
Defined.

(** C10.  In FASTQ mode, when the rows are all recorded and the runs of
    sample [s] disagree on the pairing flag while those of every smaller
    sample agree, the call stops on the datatype error with the output file
    created: it holds the header [sample,single_end,fastq_1,fastq_2] and
    the groups of exactly the samples smaller than [s], in order; the
    output is not left untouched. *)
Theorem fastq_datatype_error_after_partial_output
  (file_in first : string) (lines : list string) (rows : list Spec.row)
  (s : string) :
  firstn (length Fastq.HEADER) (header_of first) = Fastq.HEADER ->
  Forall2 (fun l r => Fastq.row l = Ret r) lines rows ->
  NoDup rows ->
  Spec.mixed s rows ->
  (forall x, In x (map fst rows) -> str_lt x s -> Spec.uniform x rows) ->
  exists earlier,
    StronglySorted str_lt earlier
    /\ (forall x, In x earlier <-> In x (map fst rows) /\ str_lt x s)
    /\ check_samplesheet file_in (first :: lines) "FASTQ"
       = (Exit "ERROR: Please check samplesheet -> Multiple runs of a sample must be of the same datatype!",
          Some (Spec.fastq_output earlier rows))
    /\ snd (check_samplesheet file_in (first :: lines) "FASTQ") <> None
    /\ snd (check_samplesheet file_in (first :: lines) "FASTQ") <> Some "".
Proof.
  intros Hh Hrows Hnd Hmix Hbefore.
  destruct (read_fastq_records first lines rows Hh Hrows Hnd)
    as (m & Hread & Hm).
  destruct (sorted_keys_strict m rows Hm) as [Hs Hin].
  assert (Hsin : In s (sorted (keys m))).
  { apply Hin. destruct Hmix as (i & _ & Hi & _).
    apply in_map_iff. now exists (s, i). }
  destruct (strict_split _ s Hs Hsin) as (b & a & Hsplit & Hb & Hlt & Hgt).
  assert (Hne : rows <> []).
  { destruct Hmix as (i & _ & Hi & _). intros ->. destruct Hi. }
  assert (Hrun : check_samplesheet file_in (first :: lines) "FASTQ"
                 = (Exit "ERROR: Please check samplesheet -> Multiple runs of a sample must be of the same datatype!",
                    Some (Spec.fastq_output b rows))).
  { unfold check_samplesheet. rewrite Hread. unfold write_samplesheet.
    rewrite (represents_nonempty m rows Hm Hne), String.eqb_refl, Hsplit.
    rewrite (write_fastq_stops m rows b s a fastq_header_line Hm).
    - unfold print_error, error_str. rewrite andb_false_r. reflexivity.
    - intros x Hx. rewrite <- Hsplit in Hx. now apply sorted_In.
    - intros x Hx. apply same_datatype_uniform, Hbefore; [|now apply Hlt].
      apply Hin. rewrite Hsplit. apply in_or_app. now left.
    - now apply same_datatype_mixed. }
  exists b.
  split; [exact Hb|]. split; [|split; [exact Hrun|]].
  - intros x. split.
    + intros Hx. split; [|now apply Hlt].
      apply Hin. rewrite Hsplit. apply in_or_app. now left.
    + intros [Hx Hxs]. apply Hin in Hx. rewrite Hsplit in Hx.
      apply in_app_or in Hx. destruct Hx as [Hx | [<- | Hx]]; [exact Hx| |].
      * exfalso. exact (str_lt_irrefl _ Hxs).
      * exfalso. exact (str_lt_asym _ _ Hxs (Hgt x Hx)).
  - rewrite Hrun. simpl. split; discriminate.
Qed.

(** The instance of C10 at a sheet where [b] mixes a paired and a single
    run and [a] comes before it. *)
Lemma fastq_datatype_error_after_partial_output_witness :
  exists earlier,
    StronglySorted str_lt earlier
    /\ (forall x, In x earlier
                  <-> In x (map fst Examples.mixed_after_rows) /\ str_lt x "b")
    /\ check_samplesheet "samplesheet.csv"
         (Examples.fastq_first :: Examples.mixed_after) "FASTQ"
       = (Exit "ERROR: Please check samplesheet -> Multiple runs of a sample must be of the same datatype!",
          Some (Spec.fastq_output earlier Examples.mixed_after_rows))
    /\ snd (check_samplesheet "samplesheet.csv"
              (Examples.fastq_first :: Examples.mixed_after) "FASTQ") <> None
    /\ snd (check_samplesheet "samplesheet.csv"
              (Examples.fastq_first :: Examples.mixed_after) "FASTQ") <> Some "".
Proof.
  apply (fastq_datatype_error_after_partial_output
           "samplesheet.csv" Examples.fastq_first Examples.mixed_after
           Examples.mixed_after_rows "b").
  - reflexivity.
  - repeat constructor.
  - repeat constructor; simpl; intuition discriminate.
  - exists (SampleInfo "0" ["b1.fq.gz"; "b2.fq.gz"]),
           (SampleInfo "1" ["b3.fq.gz"; ""]).
    simpl. split; [now left|]. split; [now do 2 right; left | discriminate].
  - intros x Hx Hlt i j Hi Hj. simpl in Hx, Hi, Hj.
    destruct Hx as [<- | [<- | [<- | []]]];
      try (exfalso; exact (str_lt_irrefl _ Hlt)).
    intuition (try congruence); repeat match goal with
              | H : (_, _) = (_, _) |- _ => inversion H; clear H; subst
              end; try reflexivity; discriminate.
Defined.

(** ** One row *)

Section Rows.

Lemma firstn_three (l : list string) :
  (3 <= length l)%nat -> firstn 3 l = [nth 0 l ""; nth 1 l ""; nth 2 l ""].
Proof.
  destruct l as [|a [|b [|c l]]]; simpl; intros H; try lia. reflexivity.
Qed.

Lemma firstn_two (l : list string) :
  (2 <= length l)%nat -> firstn 2 l = [nth 0 l ""; nth 1 l ""].
Proof.
  destruct l as [|a [|b l]]; simpl; intros H; try lia. reflexivity.
Qed.

Lemma append_length (a b : string) :
  String.length (a ++ b) = (String.length a + String.length b)%nat.
Proof. induction a; simpl; congruence. Qed.

Lemma append_cancel_r (a b t : string) : a ++ t = b ++ t -> a = b.
Proof.
  revert b. induction a as [|c a IH]; intros [|d b] H; simpl in H.
  - reflexivity.
  - apply (f_equal String.length) in H. simpl in H.
    rewrite append_length in H. lia.
  - apply (f_equal String.length) in H. simpl in H.
    rewrite append_length in H. lia.
  - injection H as -> H. f_equal. now apply IH.
Qed.

Lemma append_cancel_l (p a b : string) : p ++ a = p ++ b -> a = b.
Proof. induction p; simpl; intros H; [exact H | injection H; auto]. Qed.

(** Two calls of [print_error] on one line print the same text only for
    the same error. *)
Lemma error_str_inj (e1 e2 context context_str : string) :
  error_str e1 context context_str = error_str e2 context context_str ->
  e1 = e2.
Proof.
  unfold error_str.
  destruct (negb (context =? "") && negb (context_str =? "")); intros H.
  - apply append_cancel_l in H. now apply append_cancel_r in H.
  - now apply append_cancel_l in H.
Qed.

(** On the lines of a file, which are not empty, the message cites the
    line. *)
Lemma error_str_cites (e line : string) :
  line <> "" ->
  error_str e "Line" line
  = "ERROR: Please check samplesheet -> " ++ e ++ nl
    ++ "Line: '" ++ strip line ++ "'".
Proof.
  intros H. unfold error_str.
  destruct line; [congruence | reflexivity].
Qed.

(** The message of a call without [context_str] leaves the context out. *)
Lemma error_str_plain (e context : string) :
  error_str e context "" = "ERROR: Please check samplesheet -> " ++ e.
Proof. unfold error_str. now rewrite andb_false_r. Qed.

Lemma lines_of_nonempty (s : string) : Forall (fun l => l <> "") (lines_of s).
Proof.
  induction s as [|c s IH]; cbn [lines_of]; [constructor|].
  destruct (Ascii.eqb c nl_char).
  - constructor; [discriminate | exact IH].
  - destruct (Ascii.eqb c cr_char).
    + destruct (starts_nl s); [exact IH|].
      constructor; [discriminate | exact IH].
    + destruct (lines_of s) as [|l ls]; [repeat constructor; discriminate|].
      inversion IH; subst. constructor; [discriminate | assumption].
Qed.

(** The fields of a FASTQ row, check after check. *)
Lemma fastq_entries_eq (line : string) :
  Fastq.entries line
  = let lspl := lspl_of line in
    if (length lspl <? 3)%nat
    then print_error "Invalid number of columns (minimum = 3)!" "Line" line
    else if (length (filter truthy lspl) <? 2)%nat
    then print_error "Invalid number of populated columns (minimum = 2)!"
           "Line" line
    else if negb (truthy (replace_spaces (nth 0 lspl "")))
    then print_error "Sample entry has not been specified!" "Line" line
    else Ret (replace_spaces (nth 0 lspl ""), nth 1 lspl "", nth 2 lspl "").
Proof.
  unfold Fastq.entries, check_columns. cbv zeta.
  change (length Fastq.HEADER) with 3%nat. change Fastq.MIN_COLS with 2%nat.
  destruct (length (lspl_of line) <? 3)%nat eqn:E; [reflexivity|].
  apply Nat.ltb_ge in E. cbn [bind].
  destruct (length (filter truthy (lspl_of line)) <? 2)%nat; [reflexivity|].
  cbn [bind]. rewrite (firstn_three _ E). reflexivity.
Qed.

(** The fields of a BAM row, check after check. *)
Lemma bam_entries_eq (line : string) :
  Bam.entries line
  = let lspl := lspl_of line in
    if (length lspl <? 2)%nat
    then print_error "Invalid number of columns (minimum = 2)!" "Line" line
    else if (length (filter truthy lspl) <? 2)%nat
    then print_error "Invalid number of populated columns (minimum = 2)!"
           "Line" line
    else if negb (truthy (replace_spaces (nth 0 lspl "")))
    then print_error "Sample entry has not been specified!" "Line" line
    else Ret (replace_spaces (nth 0 lspl ""), nth 1 lspl "").
Proof.
  unfold Bam.entries, check_columns. cbv zeta.
  change (length Bam.HEADER) with 2%nat. change Bam.MIN_COLS with 2%nat.
  destruct (length (lspl_of line) <? 2)%nat eqn:E; [reflexivity|].
  apply Nat.ltb_ge in E. cbn [bind].
  destruct (length (filter truthy (lspl_of line)) <? 2)%nat; [reflexivity|].
  cbn [bind]. rewrite (firstn_two _ E). reflexivity.
Qed.

(** What [entries] returns: the three first fields, the sample not empty. *)
Lemma fastq_entries_ret (line sample fastq_1 fastq_2 : string) :
  Fastq.entries line = Ret (sample, fastq_1, fastq_2) ->
  (3 <= length (lspl_of line))%nat
  /\ (2 <= length (filter truthy (lspl_of line)))%nat
  /\ sample = replace_spaces (nth 0 (lspl_of line) "")
  /\ fastq_1 = nth 1 (lspl_of line) ""
  /\ fastq_2 = nth 2 (lspl_of line) ""
  /\ sample <> "".
Proof.
  rewrite fastq_entries_eq. cbv zeta.
  destruct (length (lspl_of line) <? 3)%nat eqn:E1; [discriminate|].
  destruct (length (filter truthy (lspl_of line)) <? 2)%nat eqn:E2;
    [discriminate|].
  destruct (truthy (replace_spaces (nth 0 (lspl_of line) ""))) eqn:E3;
    [|discriminate].
  cbn [negb]. intros H. injection H as <- <- <-.
  apply Nat.ltb_ge in E1, E2. apply truthy_true in E3. auto 10.
Qed.

Lemma bam_entries_ret (line sample bam : string) :
  Bam.entries line = Ret (sample, bam) ->
  (2 <= length (lspl_of line))%nat
  /\ (2 <= length (filter truthy (lspl_of line)))%nat
  /\ sample = replace_spaces (nth 0 (lspl_of line) "")
  /\ bam = nth 1 (lspl_of line) ""
  /\ sample <> "".
Proof.
  rewrite bam_entries_eq. cbv zeta.
  destruct (length (lspl_of line) <? 2)%nat eqn:E1; [discriminate|].
  destruct (length (filter truthy (lspl_of line)) <? 2)%nat eqn:E2;
    [discriminate|].
  destruct (truthy (replace_spaces (nth 0 (lspl_of line) ""))) eqn:E3;
    [|discriminate].
  cbn [negb]. intros H. injection H as <- <-.
  apply Nat.ltb_ge in E1, E2. apply truthy_true in E3. auto 10.
Qed.

Lemma fastq_entries_no_raise (line e : string) : Fastq.entries line <> Raise e.
Proof.
  rewrite fastq_entries_eq. cbv zeta. unfold print_error.
  repeat match goal with |- context [if ?b then _ else _] => destruct b end;
    discriminate.
Qed.

Lemma bam_entries_no_raise (line e : string) : Bam.entries line <> Raise e.
Proof.
  rewrite bam_entries_eq. cbv zeta. unfold print_error.
  repeat match goal with |- context [if ?b then _ else _] => destruct b end;
    discriminate.
Qed.

Lemma fastq_check_file_cases (line fastq : string) :
  Fastq.check_file line fastq = Ret tt
  \/ exists msg, Fastq.check_file line fastq = Exit msg.
Proof.
  unfold Fastq.check_file, print_error.
  repeat match goal with |- context [if ?b then _ else _] => destruct b end;
    cbn [bind]; eauto.
Qed.

Lemma bam_check_file_cases (line bam : string) :
  Bam.check_file line bam = Ret tt
  \/ exists msg, Bam.check_file line bam = Exit msg.
Proof.
  unfold Bam.check_file, print_error.
  repeat match goal with |- context [if ?b then _ else _] => destruct b end;
    cbn [bind]; eauto.
Qed.

Lemma fastq_row_no_raise (line e : string) : Fastq.row line <> Raise e.
Proof.
  unfold Fastq.row.
  destruct (Fastq.entries line) as [[[s f1] f2]|msg|e'] eqn:E; cbn [bind];
    [|discriminate|exfalso; exact (fastq_entries_no_raise _ _ E)].
  destruct (fastq_check_file_cases line f1) as [-> | [m1 ->]]; cbn [bind];
    [|discriminate].
  destruct (fastq_check_file_cases line f2) as [-> | [m2 ->]]; cbn [bind];
    [|discriminate].
  unfold Fastq.auto_detect, print_error.
  repeat match goal with |- context [if ?b then _ else _] => destruct b end;
    cbn [bind]; discriminate.
Qed.

Lemma bam_row_no_raise (line e : string) : Bam.row line <> Raise e.
Proof.
  unfold Bam.row.
  destruct (Bam.entries line) as [[s b]|msg|e'] eqn:E; cbn [bind];
    [|discriminate|exfalso; exact (bam_entries_no_raise _ _ E)].
  destruct (bam_check_file_cases line b) as [-> | [m1 ->]]; cbn [bind];
    discriminate.
Qed.

Lemma add_sample_no_raise (m : mapping) (line s e : string) (i : sample_info) :
  add_sample m line s i <> Raise e.
Proof.
  unfold add_sample, print_error.
  destruct (lookup m s); [destruct (existsb _ _)|]; discriminate.
Qed.

Lemma fastq_step_no_raise (m : mapping) (line e : string) :
  Fastq.step m line <> Raise e.
Proof.
  unfold Fastq.step.
  destruct (Fastq.row line) as [r|msg|e'] eqn:E; cbn [bind];
    [apply add_sample_no_raise | discriminate
    | exfalso; exact (fastq_row_no_raise _ _ E)].
Qed.

Lemma bam_step_no_raise (m : mapping) (line e : string) :
  Bam.step m line <> Raise e.
Proof.
  unfold Bam.step.
  destruct (Bam.row line) as [r|msg|e'] eqn:E; cbn [bind];
    [apply add_sample_no_raise | discriminate
    | exfalso; exact (bam_row_no_raise _ _ E)].
Qed.

End Rows.

(** ** A row that stops the call *)

Section Stops.

Lemma loop_fails_exit (step : mapping -> string -> outcome mapping)
  (lines : list string) (line : string) :
  (forall m l e, step m l <> Raise e) ->
  In line lines -> (forall m, exists msg, step m line = Exit msg) ->
  forall m, exists msg, loop step m lines = Exit msg.
Proof.
  intros Hnr Hin Hline. induction lines as [|l lines IH]; [destruct Hin|].
  intros m. simpl.
  destruct Hin as [-> | Hin].
  - destruct (Hline m) as [msg ->]. exists msg. reflexivity.
  - destruct (step m l) as [m1|s|e] eqn:E; simpl.
    + apply IH, Hin.
    + exists s; reflexivity.
    + exfalso. exact (Hnr _ _ _ E).
Qed.

(** In FASTQ mode a row that stops the loop stops the call, and the output
    file is not opened. *)
Lemma fastq_run_stops (file_in first : string) (before : list string)
  (line : string) (after : list string) (m : mapping) (msg : string) :
  firstn (length Fastq.HEADER) (header_of first) = Fastq.HEADER ->
  loop Fastq.step [] before = Ret m ->
  Fastq.step m line = Exit msg ->
  check_samplesheet file_in (first :: before ++ line :: after)%list "FASTQ"
  = (Exit msg, None).
Proof.
  intros Hh Hb Hl. unfold check_samplesheet, read_samplesheet.
  rewrite String.eqb_refl, (check_header_ok _ _ _ Hh). cbn [bind].
  now rewrite (loop_stops Fastq.step before line after [] m msg Hb Hl).
Qed.

(** The same in BAM mode. *)
Lemma bam_run_stops (file_in first : string) (before : list string)
  (line : string) (after : list string) (m : mapping) (msg : string) :
  firstn (length Bam.HEADER) (header_of first) = Bam.HEADER ->
  loop Bam.step [] before = Ret m ->
  Bam.step m line = Exit msg ->
  check_samplesheet file_in (first :: before ++ line :: after)%list "BAM"
  = (Exit msg, None).
Proof.
  intros Hh Hb Hl. unfold check_samplesheet, read_samplesheet.
  change ("BAM" =? "FASTQ") with false. cbv iota.
  rewrite String.eqb_refl, (check_header_ok _ _ _ Hh). cbn [bind].
  now rewrite (loop_stops Bam.step before line after [] m msg Hb Hl).
Qed.

Lemma fastq_step_row_exit (m : mapping) (line msg : string) :
  Fastq.row line = Exit msg -> Fastq.step m line = Exit msg.
Proof. intros H. unfold Fastq.step. now rewrite H. Qed.

Lemma bam_step_row_exit (m : mapping) (line msg : string) :
  Bam.row line = Exit msg -> Bam.step m line = Exit msg.
Proof. intros H. unfold Bam.step. now rewrite H. Qed.

End Stops.

(** C3.  In FASTQ mode, for a row that reaches the pairing step (its fields
    were read with a sample name and both file names passed their check):
    the sample name is not empty; with [fastq_1] given and [fastq_2] empty
    the row is single-end, flag [1]; with both given it is paired-end, flag
    [0]; in the one other case, [fastq_1] empty, the row stops with the
    error [Invalid combination of columns provided!], and so does the call
    on any sheet that reaches the row, without opening the output file. *)
Theorem fastq_pairing_classification
  (line sample fastq_1 fastq_2 : string) :
  Fastq.entries line = Ret (sample, fastq_1, fastq_2) ->
  Fastq.check_file line fastq_1 = Ret tt ->
  Fastq.check_file line fastq_2 = Ret tt ->
  sample <> ""
  /\ (fastq_1 <> "" -> fastq_2 = "" ->
      Fastq.row line = Ret (sample, SampleInfo "1" [fastq_1; fastq_2]))
  /\ (fastq_1 <> "" -> fastq_2 <> "" ->
      Fastq.row line = Ret (sample, SampleInfo "0" [fastq_1; fastq_2]))
  /\ (fastq_1 = "" ->
      Fastq.row line
      = print_error "Invalid combination of columns provided!" "Line" line
      /\ forall (file_in first : string) (before after : list string)
                (m : mapping),
          firstn (length Fastq.HEADER) (header_of first) = Fastq.HEADER ->
          loop Fastq.step [] before = Ret m ->
          check_samplesheet file_in (first :: before ++ line :: after)%list
            "FASTQ"
          = (Exit (error_str "Invalid combination of columns provided!"
                     "Line" line), None)).
Proof.
  intros He H1 H2.
  destruct (fastq_entries_ret _ _ _ _ He) as (_ & _ & _ & _ & _ & Hs).
  assert (Hrow : Fastq.row line
                 = (i <- Fastq.auto_detect line sample fastq_1 fastq_2 ;;
                    Ret (sample, i))).
  { unfold Fastq.row. rewrite He. cbn [bind]. rewrite H1, H2. reflexivity. }
  apply truthy_true in Hs.
  split; [now apply truthy_true|]. rewrite Hrow.
  unfold Fastq.auto_detect. rewrite Hs. cbn [andb].
  split; [|split].
  - intros Hf1 ->. apply truthy_true in Hf1. rewrite Hf1. reflexivity.
  - intros Hf1 Hf2. apply truthy_true in Hf1, Hf2. rewrite Hf1, Hf2.
    reflexivity.
  - intros ->. cbn [truthy andb bind].
    split; [reflexivity|].
    intros file_in first before after m Hh Hb.
    apply (fastq_run_stops file_in first before line after m _ Hh Hb).
    apply fastq_step_row_exit. rewrite Hrow.
    unfold Fastq.auto_detect. rewrite Hs. reflexivity.
Qed.

(** The instance of C3 at a row with [fastq_2] and no [fastq_1]. *)
Lemma fastq_pairing_classification_witness :
  "S1" <> ""
  /\ ("" <> "" -> "S1_R2.fastq.gz" = "" ->
      Fastq.row Examples.second_only
      = Ret ("S1", SampleInfo "1" [""; "S1_R2.fastq.gz"]))
  /\ ("" <> "" -> "S1_R2.fastq.gz" <> "" ->
      Fastq.row Examples.second_only
      = Ret ("S1", SampleInfo "0" [""; "S1_R2.fastq.gz"]))
  /\ ("" = "" ->
      Fastq.row Examples.second_only
      = print_error "Invalid combination of columns provided!" "Line"
          Examples.second_only
      /\ forall (file_in first : string) (before after : list string)
                (m : mapping),
          firstn (length Fastq.HEADER) (header_of first) = Fastq.HEADER ->
          loop Fastq.step [] before = Ret m ->
          check_samplesheet file_in
            (first :: before ++ Examples.second_only :: after)%list "FASTQ"
          = (Exit (error_str "Invalid combination of columns provided!"
                     "Line" Examples.second_only), None)).
Proof.
  apply (fastq_pairing_classification
           Examples.second_only "S1" "" "S1_R2.fastq.gz");
    reflexivity.
Defined.

(** ** The file name checks *)

Section FileNames.

Lemma fastq_check_file_ok (line fastq : string) :
  Fastq.check_file line fastq = Ret tt
  <-> fastq = ""
      \/ (has_space fastq = false
          /\ (endswith fastq ".fastq.gz" = true
              \/ endswith fastq ".fq.gz" = true)).
Proof.
  unfold Fastq.check_file, print_error.
  destruct fastq as [|c r]; [cbn [truthy]; split; auto|].
  cbn [truthy].
  destruct (has_space (String c r)); cbn [bind].
  - split; [discriminate | intros [H | [H _]]; discriminate].
  - destruct (endswith (String c r) ".fastq.gz");
      destruct (endswith (String c r) ".fq.gz"); cbn [negb andb];
      split; auto; try discriminate.
    intros [H | [_ [H | H]]]; discriminate.
Qed.

Lemma fastq_check_file_space (line fastq : string) :
  has_space fastq = true ->
  Fastq.check_file line fastq
  = print_error "FastQ file contains spaces!" "Line" line.
Proof.
  intros H. unfold Fastq.check_file.
  now rewrite (has_space_truthy _ H), H.
Qed.

Lemma fastq_check_file_ext (line fastq : string) :
  fastq <> "" -> has_space fastq = false ->
  endswith fastq ".fastq.gz" = false -> endswith fastq ".fq.gz" = false ->
  Fastq.check_file line fastq
  = print_error "FastQ file does not have extension '.fastq.gz' or '.fq.gz'!"
      "Line" line.
Proof.
  intros Hne Hs H1 H2. unfold Fastq.check_file.
  apply truthy_true in Hne. now rewrite Hne, Hs, H1, H2.
Qed.

Lemma bam_check_file_space (line bam : string) :
  has_space bam = true ->
  Bam.check_file line bam = print_error "BAM file contains spaces!" "Line" line.
Proof.
  intros H. unfold Bam.check_file.
  now rewrite (has_space_truthy _ H), H.
Qed.

Lemma bam_check_file_ext (line bam : string) :
  bam <> "" -> has_space bam = false -> endswith bam ".bam" = false ->
  Bam.check_file line bam
  = print_error "Bam file does not have extension '.bam'!" "Line" line.
Proof.
  intros Hne Hs H1. unfold Bam.check_file.
  apply truthy_true in Hne. now rewrite Hne, Hs, H1.
Qed.

Lemma check_header_cases (HEADER : list string) (first : string)
  (lines : list string) :
  check_header HEADER (first :: lines) = Ret lines
  \/ exists msg, check_header HEADER (first :: lines) = Exit msg.
Proof.
  unfold check_header, readline.
  destruct (negb _); eauto.
Qed.

(** A FASTQ row with a blank in a file name stops. *)
Lemma fastq_row_space_exit (line f : string) :
  In f (Spec.file_fields "FASTQ" line) -> has_space f = true ->
  exists msg, Fastq.row line = Exit msg.
Proof.
  unfold Spec.file_fields. rewrite String.eqb_refl. intros Hin Hsp.
  unfold Fastq.row. rewrite fastq_entries_eq. cbv zeta. unfold print_error.
  destruct (length (lspl_of line) <? 3)%nat eqn:E1; cbn [bind]; eauto.
  destruct (length (filter truthy (lspl_of line)) <? 2)%nat; cbn [bind]; eauto.
  destruct (negb _); cbn [bind]; eauto.
  apply Nat.ltb_ge in E1.
  destruct (lspl_of line) as [|a [|b [|c l]]]; simpl in E1; try lia.
  cbn [nth skipn firstn In] in *.
  destruct Hin as [<- | [<- | []]].
  - rewrite (fastq_check_file_space line _ Hsp). unfold print_error.
    cbn [bind]. eauto.
  - destruct (fastq_check_file_cases line b) as [-> | [m1 ->]]; cbn [bind];
      eauto.
    rewrite (fastq_check_file_space line _ Hsp). unfold print_error.
    cbn [bind]. eauto.
Qed.

(** A BAM row with a blank in the file name stops. *)
Lemma bam_row_space_exit (line f : string) :
  In f (Spec.file_fields "BAM" line) -> has_space f = true ->
  exists msg, Bam.row line = Exit msg.
Proof.
  unfold Spec.file_fields. change ("BAM" =? "FASTQ") with false. cbv iota.
  rewrite String.eqb_refl. intros Hin Hsp.
  unfold Bam.row. rewrite bam_entries_eq. cbv zeta. unfold print_error.
  destruct (length (lspl_of line) <? 2)%nat eqn:E1; cbn [bind]; eauto.
  destruct (length (filter truthy (lspl_of line)) <? 2)%nat; cbn [bind]; eauto.
  destruct (negb _); cbn [bind]; eauto.
  apply Nat.ltb_ge in E1.
  destruct (lspl_of line) as [|a [|b l]]; simpl in E1; try lia.
  cbn [nth skipn firstn In] in *.
  destruct Hin as [<- | []].
  rewrite (bam_check_file_space line _ Hsp). unfold print_error.
  cbn [bind]. eauto.
Qed.

(** A sheet with such a row anywhere is never written. *)
Lemma space_never_written (file_in first : string) (lines : list string)
  (input_format line f : string) :
  In line lines -> In f (Spec.file_fields input_format line) ->
  has_space f = true ->
  exists msg,
    check_samplesheet file_in (first :: lines) input_format = (Exit msg, None).
Proof.
  intros Hin Hf Hsp. unfold check_samplesheet, read_samplesheet.
  destruct (String.eqb_spec input_format "FASTQ") as [-> | Hnf].
  - destruct (check_header_cases Fastq.HEADER first lines) as [-> | [msg ->]];
      cbn [bind]; [|eauto].
    destruct (fastq_row_space_exit line f Hf Hsp) as [msg Hrow].
    destruct (loop_fails_exit Fastq.step lines line fastq_step_no_raise Hin
                (fun m => ex_intro _ msg (fastq_step_row_exit m line msg Hrow))
                []) as [msg' ->].
    eauto.
  - destruct (String.eqb_spec input_format "BAM") as [-> | Hnb].
    + destruct (check_header_cases Bam.HEADER first lines) as [-> | [msg ->]];
        cbn [bind]; [|eauto].
      destruct (bam_row_space_exit line f Hf Hsp) as [msg Hrow].
      destruct (loop_fails_exit Bam.step lines line bam_step_no_raise Hin
                  (fun m => ex_intro _ msg (bam_step_row_exit m line msg Hrow))
                  []) as [msg' ->].
      eauto.
    + unfold print_error. eauto.
Qed.

End FileNames.

(** C6.  The file names of a row are checked in turn, each only when it
    is not empty and the ones before it passed: a blank in the name stops
    the row with [FastQ file contains spaces!] (FASTQ) or
    [BAM file contains spaces!] (BAM); a FASTQ name without blank that ends
    in neither [.fastq.gz] nor [.fq.gz], and a BAM name without blank that
    does not end in [.bam], stop it with the extension error.  A sheet
    holding a row with a blank in a file name stops with an error and the
    output file is not opened, so the row is never written. *)
Theorem file_names_checked :
  (forall line sample fastq_1 fastq_2 : string,
      Fastq.entries line = Ret (sample, fastq_1, fastq_2) ->
      (has_space fastq_1 = true ->
       Fastq.row line
       = print_error "FastQ file contains spaces!" "Line" line)
      /\ (fastq_1 <> "" -> has_space fastq_1 = false ->
          endswith fastq_1 ".fastq.gz" = false ->
          endswith fastq_1 ".fq.gz" = false ->
          Fastq.row line
          = print_error
              "FastQ file does not have extension '.fastq.gz' or '.fq.gz'!"
              "Line" line)
      /\ (Fastq.check_file line fastq_1 = Ret tt ->
          has_space fastq_2 = true ->
          Fastq.row line
          = print_error "FastQ file contains spaces!" "Line" line)
      /\ (Fastq.check_file line fastq_1 = Ret tt ->
          fastq_2 <> "" -> has_space fastq_2 = false ->
          endswith fastq_2 ".fastq.gz" = false ->
          endswith fastq_2 ".fq.gz" = false ->
          Fastq.row line
          = print_error
              "FastQ file does not have extension '.fastq.gz' or '.fq.gz'!"
              "Line" line))
  /\ (forall line sample bam : string,
        Bam.entries line = Ret (sample, bam) ->
        (has_space bam = true ->
         Bam.row line = print_error "BAM file contains spaces!" "Line" line)
        /\ (bam <> "" -> has_space bam = false ->
            endswith bam ".bam" = false ->
            Bam.row line
            = print_error "Bam file does not have extension '.bam'!"
                "Line" line))
  /\ (forall (file_in first : string) (lines : list string)
             (input_format line f : string),
        In line lines -> In f (Spec.file_fields input_format line) ->
        has_space f = true ->
        exists msg,
          check_samplesheet file_in (first :: lines) input_format
          = (Exit msg, None)).
Proof.
  split; [|split].
  - intros line sample f1 f2 He. unfold Fastq.row. rewrite He. cbn [bind].
    repeat split.
    + intros H. now rewrite (fastq_check_file_space line _ H).
    + intros Hne Hs H1 H2.
      now rewrite (fastq_check_file_ext line _ Hne Hs H1 H2).
    + intros Hok H. rewrite Hok. cbn [bind].
      now rewrite (fastq_check_file_space line _ H).
    + intros Hok Hne Hs H1 H2. rewrite Hok. cbn [bind].
      now rewrite (fastq_check_file_ext line _ Hne Hs H1 H2).
  - intros line sample bam He. unfold Bam.row. rewrite He. cbn [bind].
    split.
    + intros H. now rewrite (bam_check_file_space line _ H).
    + intros Hne Hs H1. now rewrite (bam_check_file_ext line _ Hne Hs H1).
  - exact space_never_written.
Qed.

(** The instance of C6 at a sheet whose second row has a blank in
    [fastq_1]. *)
Lemma file_names_checked_witness :
  exists msg,
    check_samplesheet "samplesheet.csv"
      (Examples.fastq_first :: Examples.two_samples
       ++ [Examples.spaced_fastq])%list "FASTQ"
    = (Exit msg, None).
Proof.
  apply (proj2 (proj2 file_names_checked) "samplesheet.csv"
           Examples.fastq_first
           (Examples.two_samples ++ [Examples.spaced_fastq])%list
           "FASTQ" Examples.spaced_fastq "S1 R1.fastq.gz").
  - simpl. auto.
  - simpl. auto.
  - reflexivity.
Defined.

(** ** The errors of a row *)

Section RowErrors.

Ltac break_ifs :=
  repeat match goal with
         | |- context [if ?b then _ else _] => destruct b
         end; cbn [bind].

Ltac pick_error :=
  intros H;
  first [ discriminate H
        | injection H as <-; eexists; split; [|reflexivity]; simpl; auto 10 ].

Lemma fastq_check_file_errors (line fastq msg : string) :
  Fastq.check_file line fastq = Exit msg ->
  exists e, In e fastq_row_errors /\ msg = error_str e "Line" line.
Proof.
  unfold Fastq.check_file, print_error. break_ifs; pick_error.
Qed.

Lemma bam_check_file_errors (line bam msg : string) :
  Bam.check_file line bam = Exit msg ->
  exists e, In e bam_row_errors /\ msg = error_str e "Line" line.
Proof.
  unfold Bam.check_file, print_error. break_ifs; pick_error.
Qed.

(** How a FASTQ row can stop: on the column count when it has fewer than
    three fields, on one of the later errors otherwise. *)
Lemma fastq_row_exit_cases (line msg : string) :
  Fastq.row line = Exit msg ->
  ((length (lspl_of line) < 3)%nat
   /\ msg = error_str "Invalid number of columns (minimum = 3)!" "Line" line)
  \/ ((3 <= length (lspl_of line))%nat
      /\ exists e, In e fastq_row_errors /\ msg = error_str e "Line" line).
Proof.
  unfold Fastq.row. rewrite fastq_entries_eq. cbv zeta. unfold print_error.
  destruct (length (lspl_of line) <? 3)%nat eqn:E1; cbn [bind].
  - apply Nat.ltb_lt in E1. intros H. injection H as <-. now left.
  - apply Nat.ltb_ge in E1. intros H. right. split; [exact E1|]. revert H.
    destruct (length (filter truthy (lspl_of line)) <? 2)%nat; cbn [bind];
      [pick_error|].
    destruct (negb _); cbn [bind]; [pick_error|].
    destruct (Fastq.check_file line (nth 1 (lspl_of line) "")) eqn:C1;
      cbn [bind]; try discriminate;
      [|intros H; injection H as <-; eapply fastq_check_file_errors; eauto].
    destruct (Fastq.check_file line (nth 2 (lspl_of line) "")) eqn:C2;
      cbn [bind]; try discriminate;
      [|intros H; injection H as <-; eapply fastq_check_file_errors; eauto].
    unfold Fastq.auto_detect, print_error. break_ifs; pick_error.
Qed.

(** How a BAM row can stop. *)
Lemma bam_row_exit_cases (line msg : string) :
  Bam.row line = Exit msg ->
  ((length (lspl_of line) < 2)%nat
   /\ msg = error_str "Invalid number of columns (minimum = 2)!" "Line" line)
  \/ ((2 <= length (lspl_of line))%nat
      /\ exists e, In e bam_row_errors /\ msg = error_str e "Line" line).
Proof.
  unfold Bam.row. rewrite bam_entries_eq. cbv zeta. unfold print_error.
  destruct (length (lspl_of line) <? 2)%nat eqn:E1; cbn [bind].
  - apply Nat.ltb_lt in E1. intros H. injection H as <-. now left.
  - apply Nat.ltb_ge in E1. intros H. right. split; [exact E1|]. revert H.
    destruct (length (filter truthy (lspl_of line)) <? 2)%nat; cbn [bind];
      [pick_error|].
    destruct (negb _); cbn [bind]; [pick_error|].
    destruct (Bam.check_file line (nth 1 (lspl_of line) "")) eqn:C1;
      cbn [bind]; try discriminate.
    intros H; injection H as <-; eapply bam_check_file_errors; eauto.
Qed.

Lemma fastq_row_short (line : string) :
  (length (lspl_of line) < 3)%nat ->
  Fastq.row line
  = print_error "Invalid number of columns (minimum = 3)!" "Line" line.
Proof.
  intros H. apply Nat.ltb_lt in H.
  unfold Fastq.row. rewrite fastq_entries_eq. cbv zeta. now rewrite H.
Qed.

Lemma bam_row_short (line : string) :
  (length (lspl_of line) < 2)%nat ->
  Bam.row line
  = print_error "Invalid number of columns (minimum = 2)!" "Line" line.
Proof.
  intros H. apply Nat.ltb_lt in H.
  unfold Bam.row. rewrite bam_entries_eq. cbv zeta. now rewrite H.
Qed.

Lemma fastq_row_long (line : string) :
  (3 <= length (lspl_of line))%nat ->
  Fastq.row line
  <> print_error "Invalid number of columns (minimum = 3)!" "Line" line.
Proof.
  intros Hlen Hrow. unfold print_error in Hrow.
  destruct (fastq_row_exit_cases _ _ Hrow) as [[H _] | [_ (e & Hin & He)]];
    [lia|].
  apply error_str_inj in He. subst e.
  simpl in Hin. intuition discriminate.
Qed.

Lemma bam_row_long (line : string) :
  (2 <= length (lspl_of line))%nat ->
  Bam.row line
  <> print_error "Invalid number of columns (minimum = 2)!" "Line" line.
Proof.
  intros Hlen Hrow. unfold print_error in Hrow.
  destruct (bam_row_exit_cases _ _ Hrow) as [[H _] | [_ (e & Hin & He)]];
    [lia|].
  apply error_str_inj in He. subst e.
  simpl in Hin. intuition discriminate.
Qed.

End RowErrors.

(** C8, as stated, fails: in BAM mode, under the header line
    [sample,bam,extra] of three fields, the row [S1,S1.bam] of two fields
    passes the column count and is written. *)
Lemma column_count_ignores_file_header :
  length (header_of Examples.bam_first_extra) = 3%nat
  /\ length (lspl_of Examples.bam_two_fields) = 2%nat
  /\ check_samplesheet "samplesheet.csv"
       [Examples.bam_first_extra; Examples.bam_two_fields] "BAM"
     = (Ret tt, Some ("sample,idx,bam" ++ nl ++ "S1,1,S1.bam" ++ nl)).
Proof. repeat split; vm_compute; reflexivity. Qed.

(** C8, amended.  In either mode the fields of a row are counted against
    the columns the mode requires ([sample,fastq_1,fastq_2], three, in FASTQ
    mode; [sample,bam], two, in BAM mode), not against the header line of
    the file: a row with fewer fields stops with
    [Invalid number of columns (minimum = n)!], and so does the call on any
    sheet that reaches the row, without opening the output file; the message
    cites the line; a row with at least that many fields does not stop on
    this error, and so a row with at least as many fields as an accepted
    header line does not either. *)
Theorem column_count_against_required_columns (line : string) :
  ((length (lspl_of line) < length Fastq.HEADER)%nat ->
   Fastq.row line
   = print_error "Invalid number of columns (minimum = 3)!" "Line" line
   /\ forall (file_in first : string) (before after : list string)
             (m : mapping),
       firstn (length Fastq.HEADER) (header_of first) = Fastq.HEADER ->
       loop Fastq.step [] before = Ret m ->
       check_samplesheet file_in (first :: before ++ line :: after)%list
         "FASTQ"
       = (Exit (error_str "Invalid number of columns (minimum = 3)!"
                  "Line" line), None))
  /\ ((length Fastq.HEADER <= length (lspl_of line))%nat ->
      Fastq.row line
      <> print_error "Invalid number of columns (minimum = 3)!" "Line" line)
  /\ ((length (lspl_of line) < length Bam.HEADER)%nat ->
      Bam.row line
      = print_error "Invalid number of columns (minimum = 2)!" "Line" line
      /\ forall (file_in first : string) (before after : list string)
                (m : mapping),
          firstn (length Bam.HEADER) (header_of first) = Bam.HEADER ->
          loop Bam.step [] before = Ret m ->
          check_samplesheet file_in (first :: before ++ line :: after)%list
            "BAM"
          = (Exit (error_str "Invalid number of columns (minimum = 2)!"
                     "Line" line), None))
  /\ ((length Bam.HEADER <= length (lspl_of line))%nat ->
      Bam.row line
      <> print_error "Invalid number of columns (minimum = 2)!" "Line" line)
  /\ (forall first : string,
        firstn (length Fastq.HEADER) (header_of first) = Fastq.HEADER ->
        (length (header_of first) <= length (lspl_of line))%nat ->
        Fastq.row line
        <> print_error "Invalid number of columns (minimum = 3)!" "Line" line)
  /\ (forall first : string,
        firstn (length Bam.HEADER) (header_of first) = Bam.HEADER ->
        (length (header_of first) <= length (lspl_of line))%nat ->
        Bam.row line
        <> print_error "Invalid number of columns (minimum = 2)!" "Line" line)
  /\ (line <> "" ->
      forall n : string,
        error_str ("Invalid number of columns (minimum = " ++ n ++ ")!")
          "Line" line
        = "ERROR: Please check samplesheet -> "
          ++ ("Invalid number of columns (minimum = " ++ n ++ ")!") ++ nl
          ++ "Line: '" ++ strip line ++ "'").
Proof.
  change (length Fastq.HEADER) with 3%nat.
  change (length Bam.HEADER) with 2%nat.
  repeat split.
  - now apply fastq_row_short.
  - intros file_in first before after m Hh Hb.
    apply (fastq_run_stops file_in first before line after m _ Hh Hb).
    apply fastq_step_row_exit. now apply fastq_row_short.
  - now apply fastq_row_long.
  - now apply bam_row_short.
  - intros file_in first before after m Hh Hb.
    apply (bam_run_stops file_in first before line after m _ Hh Hb).
    apply bam_step_row_exit. now apply bam_row_short.
  - now apply bam_row_long.
  - intros first Hh Hlen. apply fastq_row_long.
    apply (f_equal (@length string)) in Hh.
    rewrite length_firstn in Hh.
    change (length Fastq.HEADER) with 3%nat in Hh. lia.
  - intros first Hh Hlen. apply bam_row_long.
    apply (f_equal (@length string)) in Hh.
    rewrite length_firstn in Hh.
    change (length Bam.HEADER) with 2%nat in Hh. lia.
  - intros Hne n. now apply error_str_cites.
Qed.

(** The instance of C8 at a FASTQ row of two fields. *)
Lemma column_count_against_required_columns_witness :
  Fastq.row Examples.fastq_two_fields
  = print_error "Invalid number of columns (minimum = 3)!" "Line"
      Examples.fastq_two_fields
  /\ Bam.row Examples.fastq_two_fields
     <> print_error "Invalid number of columns (minimum = 2)!" "Line"
          Examples.fastq_two_fields
  /\ check_samplesheet "samplesheet.csv"
       (Examples.fastq_first
        :: Examples.two_samples ++ Examples.fastq_two_fields :: [])%list
       "FASTQ"
     = (Exit ("ERROR: Please check samplesheet -> "
              ++ "Invalid number of columns (minimum = 3)!" ++ nl
              ++ "Line: 'A,a.fastq.gz'"), None).
Proof.
  pose proof (column_count_against_required_columns Examples.fastq_two_fields)
    as (Hshort & _ & _ & Hlong & _ & _ & _).
  assert (Hlen : (length (lspl_of Examples.fastq_two_fields)
                  < length Fastq.HEADER)%nat) by (vm_compute; lia).
  destruct (Hshort Hlen) as [Hrow Hrun].
  split; [exact Hrow|]. split.
  - apply Hlong. vm_compute. lia.
  - rewrite (Hrun "samplesheet.csv" Examples.fastq_first Examples.two_samples
               []
               [("b", [SampleInfo "1" ["b1.fq.gz"; ""];
                       SampleInfo "1" ["b2.fq.gz"; ""]]);
                ("a", [SampleInfo "1" ["a1.fq.gz"; ""]])]
               eq_refl eq_refl).
    reflexivity.
Defined.

(** ** The BAM writer *)

Section BamWriter.

(** The index of [enumerate] is not written: every row of a group gets the
    line [sample,flag,bam], whatever its position. *)
Lemma bam_lines_unnumbered (sample : string) (g : list sample_info) (k : nat) :
  bam_lines sample k g
  = Spec.cat (map (fun i => join "," (sample :: info_list i) ++ nl) g).
Proof.
  unfold Spec.cat. revert k.
  induction g as [|i g IH]; intros k; [reflexivity|].
  cbn [bam_lines map fold_right]. rewrite IH, append_assoc. reflexivity.
Qed.

Lemma write_bam_groups (m : mapping) (rows : list Spec.row)
  (samples : list string) (fout : string) :
  represents m rows ->
  (forall s, In s samples -> In s (keys m)) ->
  write_bam m samples fout
  = (Ret tt,
     fout ++ Spec.cat (map (fun s => bam_lines s 0 (Spec.group s rows))
                           samples)).
Proof.
  intros (Hnd & Hkeys & Hlook). revert fout.
  induction samples as [|s samples IH]; intros fout Hin; simpl.
  - now rewrite append_nil_r.
  - rewrite (Hlook s (Hin s (or_introl eq_refl))).
    rewrite IH; [now rewrite append_assoc | intros; apply Hin; now right].
Qed.

(** X1.  What the call writes for a BAM sheet of accepted rows, none
    repeated: the header [sample,idx,bam], then the groups in increasing
    order of the sample names, each row as [sample,flag,bam] with the flag
    [1] recorded for it; the position of the row in its group is not
    written. *)
Lemma bam_output_written (file_in first : string) (lines : list string)
  (rows : list Spec.row) :
  firstn (length Bam.HEADER) (header_of first) = Bam.HEADER ->
  Forall2 (fun l r => Bam.row l = Ret r) lines rows ->
  rows <> [] -> NoDup rows ->
  exists samples,
    StronglySorted str_lt samples
    /\ (forall s, In s samples <-> In s (map fst rows))
    /\ check_samplesheet file_in (first :: lines) "BAM"
       = (Ret tt,
          Some (bam_header_line
                ++ Spec.cat
                     (map (fun s =>
                             Spec.cat
                               (map (fun i =>
                                       join "," (s :: info_list i) ++ nl)
                                    (Spec.group s rows)))
                          samples))).
Proof.
  intros Hh Hrows Hne Hnd.
  destruct (read_bam_records first lines rows Hh Hrows Hnd)
    as (m & Hread & Hm).
  destruct (sorted_keys_strict m rows Hm) as [Hs Hin].
  exists (sorted (keys m)). split; [exact Hs|]. split; [exact Hin|].
  unfold check_samplesheet. rewrite Hread. unfold write_samplesheet.
  rewrite (represents_nonempty m rows Hm Hne).
  change ("BAM" =? "FASTQ") with false. cbv iota. rewrite String.eqb_refl.
  rewrite (write_bam_groups m rows (sorted (keys m)) bam_header_line Hm).
  - do 4 f_equal. apply map_ext. intros s. apply bam_lines_unnumbered.
  - intros s. now rewrite sorted_In.
Qed.

End BamWriter.

(** ** Rows without a file name, BAM *)

Section EmptyBam.

Lemma replace_spaces_empty (s : string) : replace_spaces s = "" <-> s = "".
Proof. destruct s; simpl; split; congruence. Qed.

Lemma filter_length_le (l : list string) :
  (length (filter truthy l) <= length l)%nat.
Proof.
  induction l as [|x l IH]; simpl; [lia|].
  destruct (truthy x); simpl; lia.
Qed.

Lemma bam_row_empty_file (line : string) :
  nth 0 (lspl_of line) "" <> "" ->
  nth 1 (lspl_of line) "" = "" ->
  (2 <= length (filter truthy (lspl_of line)))%nat ->
  Bam.row line
  = Ret (replace_spaces (nth 0 (lspl_of line) ""), SampleInfo "1" [""]).
Proof.
  intros Hs Hb Hp. unfold Bam.row. rewrite bam_entries_eq. cbv zeta.
  pose proof (filter_length_le (lspl_of line)) as Hle.
  assert (E1 : (length (lspl_of line) <? 2)%nat = false)
    by (apply Nat.ltb_ge; lia).
  assert (E2 : (length (filter truthy (lspl_of line)) <? 2)%nat = false)
    by (apply Nat.ltb_ge; lia).
  assert (E3 : truthy (replace_spaces (nth 0 (lspl_of line) "")) = true).
  { apply truthy_true. now rewrite replace_spaces_empty. }
  rewrite E1, E2, E3, Hb. reflexivity.
Qed.

End EmptyBam.

(** C9, as stated, fails: the BAM row [,,x,y] has an empty [bam] field and
    two populated fields and stops on its empty sample name; the row
    [S1,,other] after the row [S1,,extra] stops as a repeated row. *)
Lemma bam_empty_file_rejected :
  (nth 1 (lspl_of Examples.bam_no_sample) "" = ""
   /\ length (filter truthy (lspl_of Examples.bam_no_sample)) = 2%nat
   /\ check_samplesheet "samplesheet.csv"
        [Examples.bam_first; Examples.bam_no_sample] "BAM"
      = (Exit ("ERROR: Please check samplesheet -> "
               ++ "Sample entry has not been specified!" ++ nl
               ++ "Line: ',,x,y'"), None))
  /\ (nth 1 (lspl_of Examples.bam_no_file_again) "" = ""
      /\ length (filter truthy (lspl_of Examples.bam_no_file_again)) = 2%nat
      /\ check_samplesheet "samplesheet.csv"
           [Examples.bam_first; Examples.bam_no_file;
            Examples.bam_no_file_again] "BAM"
         = (Exit ("ERROR: Please check samplesheet -> "
                  ++ "Samplesheet contains duplicate rows!" ++ nl
                  ++ "Line: 'S1,,other'"), None)).
Proof. repeat split; vm_compute; reflexivity. Qed.

(** C9, amended.  In BAM mode a row with a sample name, an empty [bam]
    field and at least two populated fields passes the row checks, the file
    name checks being skipped, with the empty string recorded as its file;
    it is added to the dictionary unless its sample already has a row
    without file name, in which case it stops as a repeated row; alone on a
    sheet it is written as [sample,1,], the file column empty. *)
Theorem bam_empty_file_accepted (line : string) :
  nth 0 (lspl_of line) "" <> "" ->
  nth 1 (lspl_of line) "" = "" ->
  (2 <= length (filter truthy (lspl_of line)))%nat ->
  Bam.check_file line (nth 1 (lspl_of line) "") = Ret tt
  /\ Bam.row line
     = Ret (replace_spaces (nth 0 (lspl_of line) ""), SampleInfo "1" [""])
  /\ (forall (m : mapping) (rows : list Spec.row),
        represents m rows ->
        ~ In (replace_spaces (nth 0 (lspl_of line) ""), SampleInfo "1" [""])
             rows ->
        exists m',
          Bam.step m line = Ret m'
          /\ represents m'
               (rows ++ [(replace_spaces (nth 0 (lspl_of line) ""),
                          SampleInfo "1" [""])])%list)
  /\ (forall (m : mapping) (rows : list Spec.row),
        represents m rows ->
        In (replace_spaces (nth 0 (lspl_of line) ""), SampleInfo "1" [""])
           rows ->
        Bam.step m line
        = print_error "Samplesheet contains duplicate rows!" "Line" line)
  /\ (forall file_in first : string,
        firstn (length Bam.HEADER) (header_of first) = Bam.HEADER ->
        check_samplesheet file_in [first; line] "BAM"
        = (Ret tt,
           Some (bam_header_line
                 ++ replace_spaces (nth 0 (lspl_of line) "") ++ ",1," ++ nl))).
Proof.
  intros Hs Hb Hp.
  pose proof (bam_row_empty_file line Hs Hb Hp) as Hrow.
  split; [now rewrite Hb|]. split; [exact Hrow|]. split; [|split].
  - intros m rows Hm Hnew. unfold Bam.step. rewrite Hrow. cbn [bind fst snd].
    now apply (add_sample_new m rows).
  - intros m rows Hm Hin. unfold Bam.step. rewrite Hrow. cbn [bind fst snd].
    now apply (add_sample_dup m rows).
  - intros file_in first Hh.
    unfold check_samplesheet, read_samplesheet.
    change ("BAM" =? "FASTQ") with false. cbv iota.
    rewrite String.eqb_refl, (check_header_ok _ _ _ Hh).
    cbn [bind loop]. unfold Bam.step. rewrite Hrow.
    cbn [bind fst snd add_sample lookup app].
    unfold write_samplesheet.
    change ("BAM" =? "FASTQ") with false. cbv iota.
    rewrite String.eqb_refl.
    cbn [length Nat.ltb Nat.leb keys map fst sorted fold_right insert_sorted
         write_bam lookup].
    rewrite String.eqb_refl.
    cbn [write_bam bam_lines info_list info_flag info_files].
    unfold join. cbn [String.concat].
    unfold info_list. cbn [info_flag info_files String.concat].
    rewrite !append_assoc. reflexivity.
Qed.

(** The instance of C9 at the row [S1,,extra]. *)
Lemma bam_empty_file_accepted_witness :
  Bam.row Examples.bam_no_file = Ret ("S1", SampleInfo "1" [""])
  /\ check_samplesheet "samplesheet.csv"
       [Examples.bam_first; Examples.bam_no_file] "BAM"
     = (Ret tt, Some ("sample,idx,bam" ++ nl ++ "S1,1," ++ nl)).
Proof.
  assert (H1 : nth 0 (lspl_of Examples.bam_no_file) "" <> "")
    by (vm_compute; discriminate).
  assert (H2 : nth 1 (lspl_of Examples.bam_no_file) "" = "")
    by (vm_compute; reflexivity).
  assert (H3 : (2 <= length (filter truthy (lspl_of Examples.bam_no_file)))%nat)
    by (vm_compute; lia).
  destruct (bam_empty_file_accepted Examples.bam_no_file H1 H2 H3)
    as (_ & Hrow & _ & _ & Hrun).
  split; [exact Hrow|].
  exact (Hrun "samplesheet.csv" Examples.bam_first eq_refl).
Defined.

(** C2.  The BAM sheet with the rows [S1,a.bam] and [S1,b.bam] is written
    with [1] in the [idx] column of both rows, where numbering the rows of
    the sample from 1 gives [1] and [2]; the sample name has no suffix, and
    the sheet with the one row [S1,S1.bam] is written as the specification
    has it. *)
Theorem bam_idx_column_is_constant :
  check_samplesheet "samplesheet.csv"
    (Examples.bam_first :: Examples.bam_two_runs) "BAM"
  = (Ret tt, Some ("sample,idx,bam" ++ nl
                   ++ "S1,1,a.bam" ++ nl ++ "S1,1,b.bam" ++ nl))
  /\ Spec.bam_output ["S1"] Examples.bam_two_runs_rows
     = "sample,idx,bam" ++ nl ++ "S1,1,a.bam" ++ nl ++ "S1,2,b.bam" ++ nl
  /\ Forall2 (fun l r => Bam.row l = Ret r)
       Examples.bam_two_runs Examples.bam_two_runs_rows
  /\ check_samplesheet "samplesheet.csv"
       (lines_of ("sample,bam" ++ nl ++ "S1,S1.bam" ++ nl)) "BAM"
     = (Ret tt, Some ("sample,idx,bam" ++ nl ++ "S1,1,S1.bam" ++ nl)).
Proof.
  split; [vm_compute; reflexivity|].
  split; [vm_compute; reflexivity|].
  split; [repeat constructor|].
  vm_compute; reflexivity.
Qed.

(** C5.  On the sheet with a paired and a single run of sample [A] the
    call stops on the datatype error after the header was written, and the
    text printed does not hold the sample: the sample is passed as the
    context of [print_error], which prints a context only next to a
    [context_str], so that the text is the same for every sample. *)
Theorem datatype_error_omits_sample :
  check_samplesheet "samplesheet.csv"
    (Examples.fastq_first :: Examples.paired_then_single) "FASTQ"
  = (Exit "ERROR: Please check samplesheet -> Multiple runs of a sample must be of the same datatype!",
     Some ("sample,single_end,fastq_1,fastq_2" ++ nl))
  /\ forall sample : string,
      @print_error unit
        "Multiple runs of a sample must be of the same datatype!"
        ("Sample: " ++ sample) ""
      = Exit "ERROR: Please check samplesheet -> Multiple runs of a sample must be of the same datatype!".
Proof.
  split; [vm_compute; reflexivity|].
  intros sample. unfold print_error. now rewrite error_str_plain.
Qed.

(** C7.  A format that is neither [FASTQ] nor [BAM], letter for letter,
    stops the call with the format error whatever the input file holds, and
    the output file is not opened. *)
Theorem invalid_format_rejected (file_in : string) (fin : list string)
  (input_format : string) :
  input_format <> "FASTQ" -> input_format <> "BAM" ->
  check_samplesheet file_in fin input_format
  = (Exit "ERROR: Please check samplesheet -> INPUT_FORMAT needs to be either 'FASTQ' or 'BAM'",
     None).
Proof.
  intros Hf Hb. apply String.eqb_neq in Hf, Hb.
  unfold check_samplesheet, read_samplesheet. rewrite Hf, Hb.
  reflexivity.
Qed.

(** The instances of C7 at the formats [XML] and [fastq]. *)
Lemma invalid_format_rejected_witness :
  check_samplesheet "samplesheet.csv"
    (Examples.fastq_first :: Examples.two_samples) "XML"
  = (Exit "ERROR: Please check samplesheet -> INPUT_FORMAT needs to be either 'FASTQ' or 'BAM'",
     None)
  /\ check_samplesheet "samplesheet.csv"
       (Examples.fastq_first :: Examples.two_samples) "fastq"
     = (Exit "ERROR: Please check samplesheet -> INPUT_FORMAT needs to be either 'FASTQ' or 'BAM'",
        None).
Proof.
  split; apply invalid_format_rejected; discriminate.
Defined.

(** ** Repeated rows *)

Section Duplicates.

Lemma error_str_shape (e context context_str : string) :
  exists tail,
    error_str e context context_str
    = "ERROR: Please check samplesheet -> " ++ e ++ tail.
Proof.
  unfold error_str. destruct (_ && _).
  - eexists; reflexivity.
  - exists "". now rewrite append_nil_r.
Qed.

Lemma apart_error_str (e c1 l1 c2 l2 : string) :
  apart e ->
  error_str e c1 l1 <> error_str "Samplesheet contains duplicate rows!" c2 l2.
Proof.
  intros Ha H.
  destruct (error_str_shape e c1 l1) as [t1 E1].
  destruct (error_str_shape "Samplesheet contains duplicate rows!" c2 l2)
    as [t2 E2].
  rewrite E1, E2 in H. apply append_cancel_l in H. exact (Ha _ _ H).
Qed.

Lemma apart_fastq (e : string) :
  In e ("Invalid number of columns (minimum = 3)!" :: fastq_row_errors) ->
  apart e.
Proof.
  intros Hin t1 t2 H. simpl in Hin.
  repeat (destruct Hin as [<- | Hin]; [simpl in H; discriminate H|]).
  destruct Hin.
Qed.

Lemma apart_bam (e : string) :
  In e ("Invalid number of columns (minimum = 2)!" :: bam_row_errors) ->
  apart e.
Proof.
  intros Hin t1 t2 H. simpl in Hin.
  repeat (destruct Hin as [<- | Hin]; [simpl in H; discriminate H|]).
  destruct Hin.
Qed.

Variable row : string -> outcome (string * sample_info).
Variable step : mapping -> string -> outcome mapping.
Hypothesis step_eq : forall m line,
  step m line = (r <- row line ;; add_sample m line (fst r) (snd r)).
Hypothesis row_exit_apart : forall line msg,
  row line = Exit msg -> exists e, apart e /\ msg = error_str e "Line" line.

(** A row already in the dictionary stops on the error of repeated rows. *)
Lemma step_recorded (m : mapping) (line : string) :
  recorded row m line ->
  step m line
  = print_error "Samplesheet contains duplicate rows!" "Line" line.
Proof.
  intros (s & i & runs & Hrow & Hl & Hin).
  rewrite step_eq, Hrow. cbn [bind fst snd]. unfold add_sample.
  rewrite Hl. apply existsb_info_In in Hin. now rewrite Hin.
Qed.

(** A step that stops on that error, whatever the line cited, found its
    row in the dictionary. *)
Lemma step_dup_recorded (m : mapping) (line line0 : string) :
  step m line
  = print_error "Samplesheet contains duplicate rows!" "Line" line0 ->
  recorded row m line.
Proof.
  rewrite step_eq. unfold print_error.
  destruct (row line) as [[s i]|msg|e] eqn:Hrow; cbn [bind fst snd];
    [|intros H|discriminate].
  - unfold add_sample, print_error.
    destruct (lookup m s) as [runs|] eqn:Hl; [|discriminate].
    destruct (existsb (info_eqb i) runs) eqn:Hex; [|discriminate].
    intros _. exists s, i, runs. split; [exact Hrow|]. split; [exact Hl|].
    now apply existsb_info_In.
  - injection H as ->.
    destruct (row_exit_apart _ _ Hrow) as (e & Ha & He).
    exfalso. exact (apart_error_str _ _ _ _ _ Ha (eq_sym He)).
Qed.

Lemma loop_exit_inv (lines : list string) (m : mapping) (msg : string) :
  loop step m lines = Exit msg ->
  exists before line after m1,
    lines = (before ++ line :: after)%list
    /\ loop step m before = Ret m1
    /\ step m1 line = Exit msg.
Proof.
  revert m. induction lines as [|l lines IH]; intros m; simpl;
    [discriminate|].
  destruct (step m l) as [m2|s|e] eqn:E; cbn [bind]; [|intros H|discriminate].
  - intros H. destruct (IH _ H) as (b & x & a & m1 & -> & Hb & Hx).
    exists (l :: b), x, a, m1. simpl. rewrite E. cbn [bind]. auto.
  - injection H as ->. exists [], l, lines, m. auto.
Qed.

(** The loop stops on the error of repeated rows exactly when a row that
    it reaches is already in the dictionary. *)
Lemma loop_dup_iff (lines : list string) :
  (exists line0,
      loop step [] lines
      = print_error "Samplesheet contains duplicate rows!" "Line" line0)
  <-> repeats row step lines.
Proof.
  split.
  - intros [line0 H]. unfold print_error in H.
    destruct (loop_exit_inv _ _ _ H) as (b & x & a & m1 & -> & Hb & Hx).
    exists b, x, a, m1. split; [reflexivity|]. split; [exact Hb|].
    eapply step_dup_recorded. exact Hx.
  - intros (b & x & a & m1 & -> & Hb & Hrec).
    exists x. apply (loop_stops step b x a [] m1 _ Hb).
    now apply step_recorded.
Qed.

End Duplicates.

Section DuplicateRuns.

Lemma fastq_row_exit_apart (line msg : string) :
  Fastq.row line = Exit msg ->
  exists e, apart e /\ msg = error_str e "Line" line.
Proof.
  intros H.
  destruct (fastq_row_exit_cases _ _ H) as [[_ ->] | [_ (e & Hin & ->)]];
    eexists; (split; [|reflexivity]); apply apart_fastq; simpl; auto.
Qed.

Lemma bam_row_exit_apart (line msg : string) :
  Bam.row line = Exit msg ->
  exists e, apart e /\ msg = error_str e "Line" line.
Proof.
  intros H.
  destruct (bam_row_exit_cases _ _ H) as [[_ ->] | [_ (e & Hin & ->)]];
    eexists; (split; [|reflexivity]); apply apart_bam; simpl; auto.
Qed.

Lemma apart_no_entries : apart "No entries to process!".
Proof. intros t1 t2 H. simpl in H. discriminate H. Qed.

(** In FASTQ mode the call stops on the error of repeated rows, the output
    file unopened, exactly when the loop reaches a row it has recorded. *)
Lemma fastq_run_dup_iff (file_in first : string) (lines : list string) :
  firstn (length Fastq.HEADER) (header_of first) = Fastq.HEADER ->
  (exists line0,
      check_samplesheet file_in (first :: lines) "FASTQ"
      = (Exit (error_str "Samplesheet contains duplicate rows!" "Line" line0),
         None))
  <-> repeats Fastq.row Fastq.step lines.
Proof.
  intros Hh.
  rewrite <- (loop_dup_iff Fastq.row Fastq.step (fun _ _ => eq_refl)
                fastq_row_exit_apart lines).
  unfold check_samplesheet, read_samplesheet, print_error.
  rewrite String.eqb_refl, (check_header_ok _ _ _ Hh). cbn [bind].
  split; intros [line0 H]; exists line0.
  - destruct (loop Fastq.step [] lines) as [m|msg|e]; [|congruence|discriminate].
    exfalso. unfold write_samplesheet in H.
    destruct (0 <? length m)%nat.
    + rewrite String.eqb_refl in H.
      destruct (write_fastq m (sorted (keys m)) fastq_header_line).
      discriminate.
    + unfold print_error in H. injection H as H.
      exact (apart_error_str _ _ _ _ _ apart_no_entries H).
  - now rewrite H.
Qed.

(** The same in BAM mode. *)
Lemma bam_run_dup_iff (file_in first : string) (lines : list string) :
  firstn (length Bam.HEADER) (header_of first) = Bam.HEADER ->
  (exists line0,
      check_samplesheet file_in (first :: lines) "BAM"
      = (Exit (error_str "Samplesheet contains duplicate rows!" "Line" line0),
         None))
  <-> repeats Bam.row Bam.step lines.
Proof.
  intros Hh.
  rewrite <- (loop_dup_iff Bam.row Bam.step (fun _ _ => eq_refl)
                bam_row_exit_apart lines).
  unfold check_samplesheet, read_samplesheet, print_error.
  change ("BAM" =? "FASTQ") with false. cbv iota.
  rewrite String.eqb_refl, (check_header_ok _ _ _ Hh). cbn [bind].
  split; intros [line0 H]; exists line0.
  - destruct (loop Bam.step [] lines) as [m|msg|e]; [|congruence|discriminate].
    exfalso. unfold write_samplesheet in H.
    destruct (0 <? length m)%nat.
    + change ("BAM" =? "FASTQ") with false in H. cbv iota in H.
      rewrite String.eqb_refl in H.
      destruct (write_bam m (sorted (keys m)) bam_header_line).
      discriminate.
    + unfold print_error in H. injection H as H.
      exact (apart_error_str _ _ _ _ _ apart_no_entries H).
  - now rewrite H.
Qed.

Lemma info_files_differ (i j : sample_info) :
  info_files i <> info_files j -> info_eqb j i = false.
Proof.
  intros H. destruct (info_eqb j i) eqn:E; [|reflexivity].
  apply info_eqb_eq in E. subst. congruence.
Qed.

(** Two runs of one sample with different files and one flag are written
    as [sample_T1] and [sample_T2]. *)
Lemma fastq_two_runs_written (file_in first l1 l2 s : string)
  (i j : sample_info) :
  firstn (length Fastq.HEADER) (header_of first) = Fastq.HEADER ->
  Fastq.row l1 = Ret (s, i) -> Fastq.row l2 = Ret (s, j) ->
  info_files i <> info_files j -> info_flag i = info_flag j ->
  check_samplesheet file_in [first; l1; l2] "FASTQ"
  = (Ret tt,
     Some (fastq_header_line ++ Spec.fastq_line s 1 i ++ Spec.fastq_line s 2 j)).
Proof.
  intros Hh H1 H2 Hf Hflag.
  unfold check_samplesheet, read_samplesheet.
  rewrite String.eqb_refl, (check_header_ok _ _ _ Hh).
  cbn [bind loop]. unfold Fastq.step. rewrite H1.
  cbn [bind fst snd add_sample lookup app]. rewrite H2.
  cbn [bind fst snd]. unfold add_sample. cbn [lookup].
  rewrite String.eqb_refl. cbn [existsb].
  rewrite (info_files_differ _ _ Hf).
  cbn [orb append_run]. rewrite String.eqb_refl. cbn [app bind].
  unfold write_samplesheet. rewrite String.eqb_refl.
  cbn [length Nat.ltb Nat.leb keys map fst sorted fold_right insert_sorted
       write_fastq lookup].
  rewrite String.eqb_refl.
  cbn [same_datatype forallb]. rewrite Hflag, String.eqb_refl.
  cbn [andb negb write_fastq fastq_lines Nat.add].
  unfold Spec.fastq_line. rewrite append_nil_r, !append_assoc. reflexivity.
Qed.

End DuplicateRuns.

(** C4, as stated, fails on its second half: the two rows of sample [A]
    with different files, one paired and one single, do not both succeed;
    the call stops on the datatype error and no row is written.  The
    same happens to two paired rows with different files when a third row
    of the sample is single: the flag has to be the same for every two
    rows of the sample. *)
Lemma different_files_may_fail :
  Fastq.row Examples.paired_run_1
  = Ret ("A", SampleInfo "0" ["a_1.fastq.gz"; "a_2.fastq.gz"])
  /\ Fastq.row Examples.single_run
     = Ret ("A", SampleInfo "1" ["d_1.fastq.gz"; ""])
  /\ check_samplesheet "samplesheet.csv"
       [Examples.fastq_first; Examples.paired_run_1; Examples.single_run]
       "FASTQ"
     = (Exit "ERROR: Please check samplesheet -> Multiple runs of a sample must be of the same datatype!",
        Some ("sample,single_end,fastq_1,fastq_2" ++ nl))
  /\ Fastq.row Examples.paired_run_2
     = Ret ("A", SampleInfo "0" ["c_1.fastq.gz"; "c_2.fastq.gz"])
  /\ check_samplesheet "samplesheet.csv"
       [Examples.fastq_first; Examples.paired_run_1; Examples.paired_run_2;
        Examples.single_run]
       "FASTQ"
     = (Exit "ERROR: Please check samplesheet -> Multiple runs of a sample must be of the same datatype!",
        Some ("sample,single_end,fastq_1,fastq_2" ++ nl)).
Proof. repeat split; vm_compute; reflexivity. Qed.

(** ** Two more facts on the writer *)

(** The instance of [bam_output_written] at two runs of one sample: both
    rows carry the flag [1] in the [idx] column. *)
Lemma bam_output_written_witness :
  exists samples,
    StronglySorted str_lt samples
    /\ (forall s, In s samples <-> In s (map fst Examples.bam_two_runs_rows))
    /\ check_samplesheet "samplesheet.csv"
         (Examples.bam_first :: Examples.bam_two_runs) "BAM"
       = (Ret tt,
          Some (bam_header_line
                ++ Spec.cat
                     (map (fun s =>
                             Spec.cat
                               (map (fun i =>
                                       join "," (s :: info_list i) ++ nl)
                                    (Spec.group s Examples.bam_two_runs_rows)))
                          samples))).
Proof.
  apply (bam_output_written "samplesheet.csv" Examples.bam_first
           Examples.bam_two_runs Examples.bam_two_runs_rows).
  - reflexivity.
  - repeat constructor.
  - discriminate.
  - repeat constructor; simpl; intuition discriminate.
Defined.

(** X2.  A sheet with an accepted header and no data line stops on
    [No entries to process!]; the output file is not opened, and the text
    printed leaves the name of the input file out. *)
Lemma no_entries_stops (file_in first input_format : string) :
  (input_format = "FASTQ"
   /\ firstn (length Fastq.HEADER) (header_of first) = Fastq.HEADER)
  \/ (input_format = "BAM"
      /\ firstn (length Bam.HEADER) (header_of first) = Bam.HEADER) ->
  check_samplesheet file_in [first] input_format
  = (Exit "ERROR: Please check samplesheet -> No entries to process!", None).
Proof.
  intros [[-> Hh] | [-> Hh]]; unfold check_samplesheet, read_samplesheet.
  - rewrite String.eqb_refl, (check_header_ok _ _ _ Hh). cbn [bind loop].
    unfold write_samplesheet, print_error. cbn [length Nat.ltb Nat.leb].
    now rewrite error_str_plain.
  - change ("BAM" =? "FASTQ") with false. cbv iota.
    rewrite String.eqb_refl, (check_header_ok _ _ _ Hh). cbn [bind loop].
    unfold write_samplesheet, print_error. cbn [length Nat.ltb Nat.leb].
    now rewrite error_str_plain.
Qed.

(** The instance of [no_entries_stops] at a FASTQ sheet of its header. *)
Lemma no_entries_stops_witness :
  check_samplesheet "samplesheet.csv" [Examples.fastq_first] "FASTQ"
  = (Exit "ERROR: Please check samplesheet -> No entries to process!", None).
Proof.
  apply no_entries_stops. left. split; reflexivity.
Defined.

(** ** Which sheets are accepted *)

Section Accepted.

Lemma row_eq_dec (a b : Spec.row) : {a = b} + {a <> b}.
Proof.
  destruct a as [s [f l]], b as [s' [f' l']].
  destruct (string_dec s s') as [-> | Hs]; [|right; congruence].
  destruct (string_dec f f') as [-> | Hf]; [|right; congruence].
  destruct (list_eq_dec string_dec l l') as [-> | Hl]; [|right; congruence].
  now left.
Qed.

Lemma check_header_ret_inv (HEADER : list string) (fin rest : list string) :
  check_header HEADER fin = Ret rest ->
  firstn (length HEADER) (header_of (fst (readline fin))) = HEADER
  /\ rest = snd (readline fin).
Proof.
  unfold check_header. destruct (readline fin) as [first r]. cbn [fst snd].
  destruct (list_eqb _ _) eqn:E; cbn [negb]; [|discriminate].
  intros H. injection H as <-. apply list_eqb_eq in E. auto.
Qed.

Lemma check_header_exit_inv (HEADER : list string) (fin : list string)
  (msg : string) :
  check_header HEADER fin = Exit msg ->
  firstn (length HEADER) (header_of (fst (readline fin))) <> HEADER
  /\ msg = "ERROR: Please check samplesheet header -> "
           ++ join "," (header_of (fst (readline fin)))
           ++ " != " ++ join "," HEADER.
Proof.
  unfold check_header. destruct (readline fin) as [first r]. cbn [fst snd].
  destruct (list_eqb _ _) eqn:E; cbn [negb]; [discriminate|].
  intros H. injection H as <-. split; [|reflexivity].
  intros Heq. apply list_eqb_eq in Heq. congruence.
Qed.

Lemma check_header_no_raise (HEADER fin : list string) (e : string) :
  check_header HEADER fin <> Raise e.
Proof.
  unfold check_header. destruct (readline fin). destruct (negb _); discriminate.
Qed.

Lemma represents_positive (m : mapping) (rows : list Spec.row) :
  represents m rows -> (0 <? length m)%nat = true -> rows <> [].
Proof.
  intros (_ & Hkeys & _) Hlen ->. destruct m as [|[k r] m]; [discriminate|].
  exact (proj1 (Hkeys k) (or_introl eq_refl)).
Qed.

Variable row : string -> outcome (string * sample_info).
Variable step : mapping -> string -> outcome mapping.
Hypothesis step_eq : forall m line,
  step m line = (r <- row line ;; add_sample m line (fst r) (snd r)).

(** A loop that returns has accepted every row, and no two of them are the
    same. *)
Lemma loop_ret_inv (lines : list string) :
  forall (m m' : mapping) (pre : list Spec.row),
    loop step m lines = Ret m' ->
    represents m pre -> NoDup pre ->
    exists rows,
      Forall2 (fun l r => row l = Ret r) lines rows
      /\ NoDup (pre ++ rows)%list
      /\ represents m' (pre ++ rows)%list.
Proof.
  induction lines as [|l lines IH]; intros m m' pre Hloop Hm Hnd.
  - injection Hloop as <-. exists []. rewrite app_nil_r. auto.
  - simpl in Hloop. rewrite step_eq in Hloop.
    destruct (row l) as [[s i]|msg|e] eqn:Hrow; cbn [bind fst snd] in Hloop;
      try discriminate.
    destruct (in_dec row_eq_dec (s, i) pre) as [Hin | Hnew].
    + rewrite (add_sample_dup m pre l s i Hm Hin) in Hloop. discriminate.
    + destruct (add_sample_new m pre l s i Hm Hnew) as (m1 & Hadd & Hm1).
      rewrite Hadd in Hloop. cbn [bind] in Hloop.
      assert (Hnd1 : NoDup (pre ++ [(s, i)])%list).
      { apply NoDup_app; auto.
        - repeat constructor. simpl; tauto.
        - intros x Hx [<- | []]. contradiction. }
      destruct (IH _ _ _ Hloop Hm1 Hnd1) as (rows & Hall & Hnd' & Hm').
      exists ((s, i) :: rows). rewrite <- app_assoc in Hnd', Hm'.
      split; [constructor; assumption | split; assumption].
Qed.

End Accepted.

Section AcceptedSheets.

Lemma write_fastq_ret_inv (m : mapping) (samples : list string) :
  forall fout out : string,
    write_fastq m samples fout = (Ret tt, out) ->
    forall s runs, In s samples -> lookup m s = Some runs ->
                   same_datatype runs = true.
Proof.
  induction samples as [|x samples IH]; intros fout out Hw s runs Hin Hl;
    [destruct Hin|].
  simpl in Hw. destruct (lookup m x) as [rx|] eqn:Ex; [|discriminate].
  destruct (same_datatype rx) eqn:Esame; cbn [negb] in Hw;
    [|unfold print_error in Hw; discriminate].
  destruct Hin as [<- | Hin]; [congruence|].
  eapply IH; eauto.
Qed.

Lemma consistent_of_groups (rows : list Spec.row) :
  (forall s, In s (map fst rows) ->
             same_datatype (Spec.group s rows) = true) ->
  Spec.consistent rows.
Proof.
  intros H s i j Hi Hj.
  assert (Hs : In s (map fst rows)) by (apply in_map_iff; now exists (s, i)).
  exact (proj1 (same_datatype_uniform rows s) (H s Hs) i j Hi Hj).
Qed.

End AcceptedSheets.

(** X3.  In BAM mode the call returns, with the output file written,
    exactly for the files that start with an accepted header line and hold
    at least one data line, every data line being accepted by the row
    checks and no two giving the same sample and file. *)
Theorem bam_accepts_exactly (file_in : string) (fin : list string) :
  (exists out, check_samplesheet file_in fin "BAM" = (Ret tt, Some out))
  <-> exists first lines rows,
        fin = first :: lines
        /\ firstn (length Bam.HEADER) (header_of first) = Bam.HEADER
        /\ Forall2 (fun l r => Bam.row l = Ret r) lines rows
        /\ NoDup rows /\ rows <> [].
Proof.
  split.
  - intros [out H]. unfold check_samplesheet, read_samplesheet in H.
    change ("BAM" =? "FASTQ") with false in H. cbv iota in H.
    rewrite String.eqb_refl in H.
    destruct (check_header Bam.HEADER fin) as [rest|msg|e] eqn:Hh;
      cbn [bind] in H; try discriminate.
    destruct (check_header_ret_inv _ _ _ Hh) as [Hhead ->].
    destruct fin as [|first lines]; [vm_compute in Hhead; discriminate|].
    cbn [readline fst snd] in *.
    destruct (loop Bam.step [] lines) as [m|msg|e] eqn:Hloop;
      try discriminate.
    destruct (loop_ret_inv Bam.row Bam.step (fun _ _ => eq_refl) lines
                [] m [] Hloop represents_nil (NoDup_nil _))
      as (rows & Hall & Hnd & Hm).
    cbn [app] in Hnd, Hm.
    exists first, lines, rows. repeat split; auto.
    apply (represents_positive m rows Hm).
    unfold write_samplesheet in H.
    destruct (0 <? length m)%nat; [reflexivity | discriminate].
  - intros (first & lines & rows & -> & Hh & Hall & Hnd & Hne).
    destruct (read_bam_records first lines rows Hh Hall Hnd)
      as (m & Hread & Hm).
    unfold check_samplesheet. rewrite Hread. unfold write_samplesheet.
    rewrite (represents_nonempty m rows Hm Hne).
    change ("BAM" =? "FASTQ") with false. cbv iota. rewrite String.eqb_refl.
    rewrite (write_bam_groups m rows (sorted (keys m)) bam_header_line Hm).
    + eexists; reflexivity.
    + intros s. now rewrite sorted_In.
Qed.

(** X4.  In FASTQ mode the call returns, with the output file written,
    exactly for the files that start with an accepted header line and hold
    at least one data line, every data line being accepted by the row
    checks, no two giving the same sample, flag and files, and the rows of
    each sample sharing one pairing flag. *)
Theorem fastq_accepts_exactly (file_in : string) (fin : list string) :
  (exists out, check_samplesheet file_in fin "FASTQ" = (Ret tt, Some out))
  <-> exists first lines rows,
        fin = first :: lines
        /\ firstn (length Fastq.HEADER) (header_of first) = Fastq.HEADER
        /\ Forall2 (fun l r => Fastq.row l = Ret r) lines rows
        /\ NoDup rows /\ rows <> [] /\ Spec.consistent rows.
Proof.
  split.
  - intros [out H]. unfold check_samplesheet, read_samplesheet in H.
    rewrite String.eqb_refl in H.
    destruct (check_header Fastq.HEADER fin) as [rest|msg|e] eqn:Hh;
      cbn [bind] in H; try discriminate.
    destruct (check_header_ret_inv _ _ _ Hh) as [Hhead ->].
    destruct fin as [|first lines]; [vm_compute in Hhead; discriminate|].
    cbn [readline fst snd] in *.
    destruct (loop Fastq.step [] lines) as [m|msg|e] eqn:Hloop;
      try discriminate.
    destruct (loop_ret_inv Fastq.row Fastq.step (fun _ _ => eq_refl) lines
                [] m [] Hloop represents_nil (NoDup_nil _))
      as (rows & Hall & Hnd & Hm).
    cbn [app] in Hnd, Hm.
    exists first, lines, rows.
    unfold write_samplesheet in H.
    destruct (0 <? length m)%nat eqn:Hlen; [|discriminate].
    rewrite String.eqb_refl in H.
    destruct (write_fastq m (sorted (keys m)) fastq_header_line)
      as [o fout] eqn:Hw.
    injection H as -> <-.
    repeat split; auto.
    + now apply (represents_positive m rows Hm).
    + apply consistent_of_groups. intros s Hs.
      destruct Hm as (Hndk & Hkeys & Hlook).
      apply Hkeys in Hs.
      apply (write_fastq_ret_inv m _ _ _ Hw s).
      * now apply sorted_In.
      * now apply Hlook.
  - intros (first & lines & rows & -> & Hh & Hall & Hnd & Hne & Hc).
    destruct (read_fastq_records first lines rows Hh Hall Hnd)
      as (m & Hread & Hm).
    unfold check_samplesheet. rewrite Hread. unfold write_samplesheet.
    rewrite (represents_nonempty m rows Hm Hne), String.eqb_refl.
    rewrite (write_fastq_groups m rows (sorted (keys m)) fastq_header_line Hm).
    + eexists; reflexivity.
    + intros s. now rewrite sorted_In.
    + intros s _. now apply same_datatype_group.
Qed.

(** ** How a call can end *)

Section Endings.

Lemma loop_no_raise (step : mapping -> string -> outcome mapping)
  (lines : list string) :
  (forall m l e, step m l <> Raise e) ->
  forall m e, loop step m lines <> Raise e.
Proof.
  intros Hnr. induction lines as [|l lines IH]; intros m e; simpl;
    [discriminate|].
  destruct (step m l) as [m1|msg|e1] eqn:E; cbn [bind];
    [apply IH | discriminate | exfalso; exact (Hnr _ _ _ E)].
Qed.

(** The keys of the dictionary are found in it: the writer of the BAM
    sheet always returns. *)
Lemma write_bam_returns (m : mapping) (samples : list string) :
  (forall s, In s samples -> In s (keys m)) ->
  forall fout, exists out, write_bam m samples fout = (Ret tt, fout ++ out).
Proof.
  induction samples as [|s samples IH]; intros Hin fout; simpl.
  - exists "". now rewrite append_nil_r.
  - destruct (lookup m s) as [runs|] eqn:El.
    + destruct (IH (fun x Hx => Hin x (or_intror Hx))
                  (fout ++ bam_lines s 0 runs)) as [out ->].
      exists (bam_lines s 0 runs ++ out). now rewrite append_assoc.
    + apply lookup_None in El. exfalso. apply El, Hin. now left.
Qed.

(** The writer of the FASTQ sheet returns or stops on the datatype error;
    what it wrote comes after what was there. *)
Lemma write_fastq_ends (m : mapping) (samples : list string) :
  (forall s, In s samples -> In s (keys m)) ->
  forall fout, exists out,
    write_fastq m samples fout = (Ret tt, fout ++ out)
    \/ write_fastq m samples fout
       = (Exit "ERROR: Please check samplesheet -> Multiple runs of a sample must be of the same datatype!",
          fout ++ out).
Proof.
  induction samples as [|s samples IH]; intros Hin fout; simpl.
  - exists "". left. now rewrite append_nil_r.
  - destruct (lookup m s) as [runs|] eqn:El.
    + destruct (same_datatype runs); cbn [negb].
      * destruct (IH (fun x Hx => Hin x (or_intror Hx))
                    (fout ++ fastq_lines s 0 runs)) as [out [-> | ->]];
          exists (fastq_lines s 0 runs ++ out); rewrite append_assoc; auto.
      * exists "". right. unfold print_error.
        now rewrite error_str_plain, append_nil_r.
    + apply lookup_None in El. exfalso. apply El, Hin. now left.
Qed.

Lemma read_samplesheet_no_raise (fin : list string) (input_format e : string) :
  read_samplesheet fin input_format <> Raise e.
Proof.
  unfold read_samplesheet.
  destruct (input_format =? "FASTQ"); [|destruct (input_format =? "BAM")].
  - destruct (check_header Fastq.HEADER fin) as [rest|msg|e1] eqn:E;
      cbn [bind];
      [ apply loop_no_raise, fastq_step_no_raise | discriminate
      | exfalso; exact (check_header_no_raise _ _ _ E) ].
  - destruct (check_header Bam.HEADER fin) as [rest|msg|e1] eqn:E;
      cbn [bind];
      [ apply loop_no_raise, bam_step_no_raise | discriminate
      | exfalso; exact (check_header_no_raise _ _ _ E) ].
  - discriminate.
Qed.

Lemma read_samplesheet_format (fin : list string) (input_format : string)
  (m : mapping) :
  read_samplesheet fin input_format = Ret m ->
  input_format = "FASTQ" \/ input_format = "BAM".
Proof.
  unfold read_samplesheet.
  destruct (String.eqb_spec input_format "FASTQ"); [auto|].
  destruct (String.eqb_spec input_format "BAM"); [auto|].
  discriminate.
Qed.

End Endings.

(** X5.  Whatever the file and the format, a call ends in one of three
    ways: it returns with the output file written; it exits on an error
    with the output file unopened; or, in FASTQ mode only, it exits on the
    datatype error with the output file begun, header first.  No other
    error leaves a file behind, and the unpacking of the fields and the
    lookups in the dictionary never raise. *)
Theorem check_samplesheet_endings (file_in : string) (fin : list string)
  (input_format : string) :
  (exists out,
      check_samplesheet file_in fin input_format = (Ret tt, Some out))
  \/ (exists msg,
        check_samplesheet file_in fin input_format = (Exit msg, None))
  \/ (input_format = "FASTQ"
      /\ exists out,
          check_samplesheet file_in fin input_format
          = (Exit "ERROR: Please check samplesheet -> Multiple runs of a sample must be of the same datatype!",
             Some (fastq_header_line ++ out))).
Proof.
  unfold check_samplesheet.
  destruct (read_samplesheet fin input_format) as [m|msg|e] eqn:Hread.
  - unfold write_samplesheet.
    destruct (0 <? length m)%nat;
      [|right; left; unfold print_error; eauto].
    destruct (read_samplesheet_format _ _ _ Hread) as [-> | ->].
    + rewrite String.eqb_refl.
      destruct (write_fastq_ends m (sorted (keys m))
                  (fun s Hs => proj1 (sorted_In (keys m) s) Hs)
                  fastq_header_line) as [out [-> | ->]]; eauto 6.
    + change ("BAM" =? "FASTQ") with false. cbv iota.
      rewrite String.eqb_refl.
      destruct (write_bam_returns m (sorted (keys m))
                  (fun s Hs => proj1 (sorted_In (keys m) s) Hs)
                  bam_header_line) as [out ->]; eauto.
  - right; left; eauto.
  - exfalso. exact (read_samplesheet_no_raise _ _ _ Hread).
Qed.

(** ** The output read again *)

Section ReadAgain.

Lemma bam_output_prefix (file_in : string) (fin : list string)
  (o : outcome unit) (out : string) :
  check_samplesheet file_in fin "BAM" = (o, Some out) ->
  exists rest, out = bam_header_line ++ rest.
Proof.
  unfold check_samplesheet.
  destruct (read_samplesheet fin "BAM") as [m|msg|e]; try discriminate.
  unfold write_samplesheet.
  destruct (0 <? length m)%nat; [|discriminate].
  change ("BAM" =? "FASTQ") with false. cbv iota. rewrite String.eqb_refl.
  destruct (write_bam_returns m (sorted (keys m))
              (fun s Hs => proj1 (sorted_In (keys m) s) Hs)
              bam_header_line) as [rest ->].
  intros H. injection H as _ <-. exists rest. reflexivity.
Qed.

Lemma fastq_output_prefix (file_in : string) (fin : list string)
  (o : outcome unit) (out : string) :
  check_samplesheet file_in fin "FASTQ" = (o, Some out) ->
  exists rest, out = fastq_header_line ++ rest.
Proof.
  unfold check_samplesheet.
  destruct (read_samplesheet fin "FASTQ") as [m|msg|e]; try discriminate.
  unfold write_samplesheet.
  destruct (0 <? length m)%nat; [|discriminate].
  rewrite String.eqb_refl.
  destruct (write_fastq_ends m (sorted (keys m))
              (fun s Hs => proj1 (sorted_In (keys m) s) Hs)
              fastq_header_line) as [rest [-> | ->]];
    intros H; injection H as _ <-; exists rest; reflexivity.
Qed.

End ReadAgain.

(** X6.  A sheet the call has written is not a sheet it accepts: read
    again in the same mode, the output stops on its own header line, which
    holds the added column ([idx], [single_end]) where the second required
    column is expected.  This holds for every output file, the one begun
    before a datatype error included. *)
Theorem output_is_not_input :
  (forall (file_in file_in' : string) (fin : list string)
          (o : outcome unit) (out : string),
      check_samplesheet file_in fin "BAM" = (o, Some out) ->
      check_samplesheet file_in' (lines_of out) "BAM"
      = (Exit "ERROR: Please check samplesheet header -> sample,idx,bam != sample,bam",
         None))
  /\ (forall (file_in file_in' : string) (fin : list string)
             (o : outcome unit) (out : string),
         check_samplesheet file_in fin "FASTQ" = (o, Some out) ->
         check_samplesheet file_in' (lines_of out) "FASTQ"
         = (Exit "ERROR: Please check samplesheet header -> sample,single_end,fastq_1,fastq_2 != sample,fastq_1,fastq_2",
            None)).
Proof.
  split; intros file_in file_in' fin o out H.
  - destruct (bam_output_prefix _ _ _ _ H) as [rest ->].
    change (lines_of (bam_header_line ++ rest))
      with (bam_header_line :: lines_of rest).
    reflexivity.
  - destruct (fastq_output_prefix _ _ _ _ H) as [rest ->].
    change (lines_of (fastq_header_line ++ rest))
      with (fastq_header_line :: lines_of rest).
    reflexivity.
Qed.

(** The instance of X6 at the BAM sheet of two runs of one sample. *)
Lemma output_is_not_input_witness :
  check_samplesheet "validated.csv"
    (lines_of ("sample,idx,bam" ++ nl
               ++ "S1,1,a.bam" ++ nl ++ "S1,1,b.bam" ++ nl)) "BAM"
  = (Exit "ERROR: Please check samplesheet header -> sample,idx,bam != sample,bam",
     None).
Proof.
  apply (proj1 output_is_not_input "samplesheet.csv" "validated.csv"
           (Examples.bam_first :: Examples.bam_two_runs) (Ret tt)).
  vm_compute. reflexivity.
Defined.

(** ** The names given to the runs *)

Section Names.

Lemma all_digits_uint (u : Decimal.uint) :
  all_digits (NilEmpty.string_of_uint u) = true.
Proof. induction u; simpl; auto. Qed.

Lemma all_digits_str (n : nat) : all_digits (str n) = true.
Proof. apply all_digits_uint. Qed.

Lemma all_digits_no_underscore (x z : string) :
  all_digits (x ++ String "_" z) = false.
Proof.
  induction x as [|c x IH]; simpl; [reflexivity|].
  rewrite IH. apply andb_false_r.
Qed.

Lemma string_of_uint_inj (u v : Decimal.uint) :
  NilEmpty.string_of_uint u = NilEmpty.string_of_uint v -> u = v.
Proof.
  intros H. apply (f_equal NilEmpty.uint_of_string) in H.
  rewrite !NilEmpty.usu in H. now injection H.
Qed.

Lemma str_inj (n n' : nat) : str n = str n' -> n = n'.
Proof.
  intros H. apply Unsigned.to_uint_inj. now apply string_of_uint_inj.
Qed.

(** A name is read back into its sample and its number: the digits after
    the last [_T] are the number. *)
Lemma name_split (a b d1 d2 : string) :
  all_digits d1 = true -> all_digits d2 = true ->
  a ++ "_T" ++ d1 = b ++ "_T" ++ d2 -> a = b /\ d1 = d2.
Proof.
  intros H1 H2. revert b.
  induction a as [|c a IH]; intros [|c' b] H; simpl in H.
  - injection H as H. auto.
  - exfalso. injection H as Hc H. destruct b as [|c'' b]; simpl in H.
    + discriminate H.
    + injection H as _ H. subst d1.
      now rewrite all_digits_no_underscore in H1.
  - exfalso. injection H as Hc H. destruct a as [|c'' a]; simpl in H.
    + discriminate H.
    + injection H as _ H. subst d2.
      now rewrite all_digits_no_underscore in H2.
  - injection H as -> H. destruct (IH _ H) as [-> ->]. auto.
Qed.

Lemma name_inj (s s' : string) (n n' : nat) :
  s ++ "_T" ++ str n = s' ++ "_T" ++ str n' -> s = s' /\ n = n'.
Proof.
  intros H.
  destruct (name_split _ _ _ _ (all_digits_str n) (all_digits_str n') H)
    as [-> Hd].
  split; [reflexivity | now apply str_inj].
Qed.

Lemma NoDup_map_inj {A B : Type} (f : A -> B) (l : list A) :
  (forall x y, f x = f y -> x = y) -> NoDup l -> NoDup (map f l).
Proof.
  intros Hinj. induction 1 as [|x l Hx Hnd IH]; simpl; constructor; auto.
  intros Hin. apply in_map_iff in Hin. destruct Hin as (y & Hy & Hin).
  apply Hinj in Hy. now subst.
Qed.

Lemma fastq_names_NoDup (samples : list string) (rows : list Spec.row) :
  NoDup samples -> NoDup (fastq_names samples rows).
Proof.
  unfold fastq_names. induction 1 as [|s samples Hnotin Hnd IH]; simpl;
    [constructor|].
  apply NoDup_app; [| exact IH |].
  - apply NoDup_map_inj; [|apply seq_NoDup].
    intros n n' Hn. now apply name_inj in Hn.
  - intros x Hx Hx'. apply in_map_iff in Hx. destruct Hx as (n & <- & _).
    apply in_concat in Hx'. destruct Hx' as (l & Hl & Hin).
    apply in_map_iff in Hl. destruct Hl as (s' & <- & Hs').
    apply in_map_iff in Hin. destruct Hin as (n' & Heq & _).
    apply name_inj in Heq. destruct Heq as [-> _]. contradiction.
Qed.

Lemma combine_app_same {A B : Type} (a c : list A) (b d : list B) :
  length a = length b ->
  combine (a ++ c)%list (b ++ d)%list = (combine a b ++ combine c d)%list.
Proof.
  revert b. induction a as [|x a IH]; intros [|y b] H; simpl in *;
    try discriminate; [reflexivity|].
  f_equal. apply IH. now injection H.
Qed.

Lemma fastq_group_lines (s : string) (g : list sample_info) :
  Spec.fastq_group s g
  = Spec.cat (map (fun p => output_line (fst p) (snd p))
                  (combine (map (fun n => s ++ "_T" ++ str n)
                                (seq 1 (length g))) g)).
Proof.
  unfold Spec.fastq_group. f_equal.
  generalize (seq 1 (length g)). intros l. revert l.
  induction g as [|i g IH]; intros [|n l]; simpl; try reflexivity.
  now rewrite IH.
Qed.

(** The FASTQ output is its header followed by one line per name. *)
Lemma fastq_output_lines (samples : list string) (rows : list Spec.row) :
  Spec.fastq_output samples rows
  = fastq_header_line
    ++ Spec.cat (map (fun p => output_line (fst p) (snd p))
                     (combine (fastq_names samples rows)
                              (fastq_infos samples rows))).
Proof.
  unfold Spec.fastq_output, fastq_names, fastq_infos. f_equal.
  induction samples as [|s samples IH]; simpl; [reflexivity|].
  rewrite combine_app_same by now rewrite length_map, length_seq.
  now rewrite map_app, cat_app, IH, fastq_group_lines.
Qed.

Lemma fastq_names_length (samples : list string) (rows : list Spec.row) :
  length (fastq_names samples rows) = length (fastq_infos samples rows).
Proof.
  unfold fastq_names, fastq_infos.
  induction samples as [|s samples IH]; [reflexivity|].
  cbn [map concat]. now rewrite !length_app, IH, length_map, length_seq.
Qed.

(** What a FASTQ call that returns has read and written. *)
Lemma fastq_return_inv (file_in : string) (fin : list string) (out : string) :
  check_samplesheet file_in fin "FASTQ" = (Ret tt, Some out) ->
  exists first lines rows m,
    fin = first :: lines
    /\ Forall2 (fun l r => Fastq.row l = Ret r) lines rows
    /\ NoDup rows /\ represents m rows
    /\ out = Spec.fastq_output (sorted (keys m)) rows.
Proof.
  intros H. unfold check_samplesheet, read_samplesheet in H.
  rewrite String.eqb_refl in H.
  destruct (check_header Fastq.HEADER fin) as [rest|msg|e] eqn:Hh;
    cbn [bind] in H; try discriminate.
  destruct (check_header_ret_inv _ _ _ Hh) as [Hhead ->].
  destruct fin as [|first lines]; [vm_compute in Hhead; discriminate|].
  cbn [readline fst snd] in *.
  destruct (loop Fastq.step [] lines) as [m|msg|e] eqn:Hloop;
    try discriminate.
  destruct (loop_ret_inv Fastq.row Fastq.step (fun _ _ => eq_refl) lines
              [] m [] Hloop represents_nil (NoDup_nil _))
    as (rows & Hall & Hnd & Hm).
  cbn [app] in Hnd, Hm.
  exists first, lines, rows, m.
  unfold write_samplesheet in H.
  destruct (0 <? length m)%nat eqn:Hlen; [|discriminate].
  rewrite String.eqb_refl in H.
  destruct (write_fastq m (sorted (keys m)) fastq_header_line)
    as [o fout] eqn:Hw.
  injection H as -> <-.
  split; [reflexivity|]. split; [exact Hall|]. split; [exact Hnd|].
  split; [exact Hm|].
  assert (Hsame : forall s, In s (sorted (keys m)) ->
                            same_datatype (Spec.group s rows) = true).
  { intros s Hs. destruct Hm as (Hndk & Hkeys & Hlook).
    apply (write_fastq_ret_inv m _ _ _ Hw s _ Hs). apply Hlook.
    now apply sorted_In. }
  rewrite (write_fastq_groups m rows (sorted (keys m)) fastq_header_line Hm)
    in Hw; [now injection Hw as <- | | exact Hsame].
  intros s. now rewrite sorted_In.
Qed.

End Names.

Section WrittenRows.

Lemma samples_spec (rows : list Spec.row) :
  StronglySorted str_lt (Spec.samples rows)
  /\ forall s, In s (Spec.samples rows) <-> In s (map fst rows).
Proof.
  unfold Spec.samples. split.
  - apply sorted_strict. apply NoDup_nodup.
  - intros s. rewrite sorted_In. apply nodup_In.
Qed.

(** The keys of the dictionary, sorted, are the samples of the rows. *)
Lemma sorted_keys_samples (m : mapping) (rows : list Spec.row) :
  represents m rows -> sorted (keys m) = Spec.samples rows.
Proof.
  intros Hm. destruct (sorted_keys_strict m rows Hm) as [Hs Hin].
  destruct (samples_spec rows) as [Hs' Hin'].
  apply strict_sorted_unique; auto. intros x. now rewrite Hin, Hin'.
Qed.

(** Rows that differ in their files two by two, within a sample, are not
    repeated, and rows that agree on the flag within a sample are
    consistent. *)
Lemma pairs_sound (rows : list Spec.row) :
  (forall p q s i j,
      (p < q)%nat ->
      nth_error rows p = Some (s, i) -> nth_error rows q = Some (s, j) ->
      info_files i <> info_files j /\ info_flag i = info_flag j) ->
  NoDup rows /\ Spec.consistent rows.
Proof.
  intros Hpair. split.
  - apply NoDup_nth_error. intros a b Hlen Heq.
    destruct (nth_error rows a) as [[s i]|] eqn:Ea;
      [|apply nth_error_None in Ea; lia].
    destruct (Nat.lt_trichotomy a b) as [H | [H | H]]; [|exact H|]; exfalso.
    + destruct (Hpair a b s i i H Ea (eq_sym Heq)) as [Hf _]. now apply Hf.
    + destruct (Hpair b a s i i H (eq_sym Heq) Ea) as [Hf _]. now apply Hf.
  - intros s i j Hi Hj.
    apply In_nth_error in Hi, Hj. destruct Hi as [p Hp], Hj as [q Hq].
    destruct (Nat.lt_trichotomy p q) as [H | [H | H]].
    + exact (proj2 (Hpair p q s i j H Hp Hq)).
    + subst q. rewrite Hp in Hq. now injection Hq as <-.
    + symmetry. exact (proj2 (Hpair q p s j i H Hq Hp)).
Qed.

(** A sound FASTQ sheet is written, group after group. *)
Lemma fastq_sheet_written (file_in first : string) (lines : list string)
  (rows : list Spec.row) :
  firstn (length Fastq.HEADER) (header_of first) = Fastq.HEADER ->
  Forall2 (fun l r => Fastq.row l = Ret r) lines rows ->
  rows <> [] -> NoDup rows -> Spec.consistent rows ->
  check_samplesheet file_in (first :: lines) "FASTQ"
  = (Ret tt, Some (Spec.fastq_output (Spec.samples rows) rows)).
Proof.
  intros Hh Hrows Hne Hnd Hc.
  destruct (read_fastq_records first lines rows Hh Hrows Hnd)
    as (m & Hread & Hm).
  unfold check_samplesheet. rewrite Hread. unfold write_samplesheet.
  rewrite (represents_nonempty m rows Hm Hne), String.eqb_refl.
  rewrite (write_fastq_groups m rows (sorted (keys m)) fastq_header_line Hm).
  - rewrite (sorted_keys_samples m rows Hm). reflexivity.
  - intros s. now rewrite sorted_In.
  - intros s _. now apply same_datatype_group.
Qed.

Lemma combine_seq_nth {A : Type} (f : nat -> string) (g : list A) :
  forall (start k : nat) (x : A),
    nth_error g k = Some x ->
    In (f (start + k)%nat, x) (combine (map f (seq start (length g))) g).
Proof.
  induction g as [|y g IH]; intros start [|k] x H; cbn in H;
    try discriminate H.
  - injection H as ->. left. now rewrite Nat.add_0_r.
  - right. rewrite <- Nat.add_succ_comm. now apply IH.
Qed.

(** What is written for a sample of the list is written. *)
Lemma written_group (samples : list string) (rows : list Spec.row)
  (s : string) (x : string * sample_info) :
  In s samples ->
  In x (combine (map (fun n => s ++ "_T" ++ str n)
                     (seq 1 (length (Spec.group s rows))))
                (Spec.group s rows)) ->
  In x (fastq_written samples rows).
Proof.
  unfold fastq_written, fastq_names, fastq_infos.
  induction samples as [|a samples IH]; intros Hin Hx; [destruct Hin|].
  cbn [map concat].
  rewrite combine_app_same by now rewrite length_map, length_seq.
  apply in_or_app. destruct Hin as [-> | Hin]; [now left | right; auto].
Qed.

Lemma group_position (rows : list Spec.row) (p : nat) (s : string)
  (i : sample_info) :
  nth_error rows p = Some (s, i) ->
  exists l1 l2,
    rows = (l1 ++ (s, i) :: l2)%list /\ length l1 = p
    /\ firstn p rows = l1
    /\ Spec.group s rows
       = (Spec.group s l1 ++ i :: Spec.group s l2)%list.
Proof.
  intros H. destruct (nth_error_split rows p H) as (l1 & l2 & -> & <-).
  exists l1, l2. split; [reflexivity|]. split; [reflexivity|]. split.
  - rewrite firstn_app, Nat.sub_diag, firstn_all. cbn [firstn].
    apply app_nil_r.
  - rewrite group_app. change ((s, i) :: l2) with ([(s, i)] ++ l2)%list.
    now rewrite group_app, group_one, String.eqb_refl.
Qed.

(** The row at position [p] is written under its sample and its run
    number. *)
Lemma written_row (rows : list Spec.row) (p : nat) (s : string)
  (i : sample_info) :
  nth_error rows p = Some (s, i) ->
  In (s ++ "_T" ++ str (Spec.run_number rows p s), i)
     (fastq_written (Spec.samples rows) rows).
Proof.
  intros H. apply (written_group _ _ s).
  - apply samples_spec. apply in_map_iff. exists (s, i).
    split; [reflexivity | eapply nth_error_In; eauto].
  - unfold Spec.run_number.
    apply (combine_seq_nth (fun n => s ++ "_T" ++ str n)
             (Spec.group s rows) 1).
    destruct (group_position rows p s i H) as (l1 & l2 & _ & _ & -> & ->).
    rewrite nth_error_app2 by lia. now rewrite Nat.sub_diag.
Qed.

(** Of two rows of one sample, the later has the larger run number. *)
Lemma run_number_lt (rows : list Spec.row) (p q : nat) (s : string)
  (i : sample_info) :
  (p < q)%nat -> nth_error rows p = Some (s, i) ->
  (Spec.run_number rows p s < Spec.run_number rows q s)%nat.
Proof.
  intros Hlt H.
  destruct (group_position rows p s i H) as (l1 & l2 & Hrows & Hlen & Hf & _).
  unfold Spec.run_number. rewrite Hf. rewrite Hrows.
  rewrite firstn_app, (firstn_all2 l1) by lia.
  replace (q - length l1)%nat with (S (q - S (length l1)))%nat by lia.
  cbn [firstn]. rewrite group_app.
  change ((s, i) :: firstn (q - S (length l1)) l2)
    with ([(s, i)] ++ firstn (q - S (length l1)) l2)%list.
  rewrite group_app, group_one, String.eqb_refl, !length_app.
  cbn [length]. lia.
Qed.

Lemma map_fst_combine_same {A B : Type} (a : list A) (b : list B) :
  length a = length b -> map fst (combine a b) = a.
Proof.
  revert b. induction a as [|x a IH]; intros [|y b] H; cbn in *;
    try discriminate H; [reflexivity|].
  f_equal. apply IH. now injection H.
Qed.

Lemma fastq_written_names (samples : list string) (rows : list Spec.row) :
  map fst (fastq_written samples rows) = fastq_names samples rows.
Proof. apply map_fst_combine_same, fastq_names_length. Qed.

(** One write for each row. *)
Lemma fastq_written_length (rows : list Spec.row) :
  length (fastq_written (Spec.samples rows) rows) = length rows.
Proof.
  rewrite <- (length_map fst (fastq_written (Spec.samples rows) rows)).
  rewrite fastq_written_names, fastq_names_length.
  destruct (samples_spec rows) as [Hs Hin].
  unfold fastq_infos.
  rewrite <- (length_map (pair "") (concat _)).
  assert (Hp := groups_partition (Spec.samples rows) (strict_NoDup _ Hs) rows
                  (fun s => proj2 (Hin s))).
  apply Permutation_length in Hp. etransitivity; [|exact Hp].
  rewrite length_map. clear.
  induction (Spec.samples rows) as [|s l IH]; simpl; [reflexivity|].
  now rewrite !length_app, IH, length_map.
Qed.

End WrittenRows.

Section Commas.

Lemma split_comma_fields (s : string) :
  Forall (fun x => has_comma x = false) (split_comma s).
Proof.
  induction s as [|c s IH]; cbn [split_comma]; [repeat constructor|].
  destruct (Ascii.eqb c comma_char) eqn:E; [now constructor|].
  destruct (split_comma s) as [|x xs].
  - repeat constructor. cbn [has_comma]. now rewrite E.
  - inversion IH as [|? ? Hx Hxs]; subst. constructor; [|exact Hxs].
    cbn [has_comma]. now rewrite E.
Qed.

Lemma lstrip_has_comma (p : ascii -> bool) (s : string) :
  has_comma s = false -> has_comma (lstrip p s) = false.
Proof.
  induction s as [|c s IH]; cbn [lstrip]; intros H; [reflexivity|].
  destruct (p c); [|exact H].
  cbn [has_comma] in H. apply orb_false_iff in H. now apply IH.
Qed.

Lemma rstrip_has_comma (p : ascii -> bool) (s : string) :
  has_comma s = false -> has_comma (rstrip p s) = false.
Proof.
  induction s as [|c s IH]; cbn [rstrip has_comma]; intros H; [reflexivity|].
  apply orb_false_iff in H. destruct H as [Hc Hs]. specialize (IH Hs).
  destruct (rstrip p s) as [|c' r'].
  - destruct (p c); cbn [has_comma]; [reflexivity | now rewrite Hc].
  - cbn [has_comma] in *. now rewrite Hc, IH.
Qed.

Lemma replace_spaces_has_comma (s : string) :
  has_comma (replace_spaces s) = has_comma s.
Proof.
  induction s as [|c s IH]; cbn [replace_spaces has_comma]; [reflexivity|].
  rewrite IH. destruct (Ascii.eqb_spec c space_char) as [-> | _];
    reflexivity.
Qed.

Lemma has_comma_app (a b : string) :
  has_comma (a ++ b) = has_comma a || has_comma b.
Proof.
  induction a as [|c a IH]; cbn [append has_comma]; [reflexivity|].
  now rewrite IH, orb_assoc.
Qed.

Lemma all_digits_has_comma (s : string) :
  all_digits s = true -> has_comma s = false.
Proof.
  induction s as [|c s IH]; cbn [all_digits has_comma]; intros H;
    [reflexivity|].
  apply andb_true_iff in H. destruct H as [Hc Hs]. rewrite (IH Hs).
  destruct (Ascii.eqb_spec c comma_char) as [-> | _];
    [discriminate Hc | reflexivity].
Qed.

(** The first field of a text is what stands before its first comma. *)
Lemma split_comma_head (a b : string) :
  has_comma a = false ->
  split_comma (a ++ String comma_char b) = a :: split_comma b.
Proof.
  induction a as [|c a IH]; cbn [append split_comma has_comma]; intros H.
  - now rewrite Ascii.eqb_refl.
  - apply orb_false_iff in H. destruct H as [Hc Ha].
    now rewrite Hc, (IH Ha).
Qed.

(** The sample name of a row holds no comma: it is made from a field of
    the line. *)
Lemma fastq_row_sample (line s : string) (i : sample_info) :
  Fastq.row line = Ret (s, i) -> has_comma s = false.
Proof.
  unfold Fastq.row.
  destruct (Fastq.entries line) as [[[a b] c]|msg|e] eqn:E; cbn [bind];
    try discriminate.
  destruct (Fastq.check_file line b); cbn [bind]; try discriminate.
  destruct (Fastq.check_file line c); cbn [bind]; try discriminate.
  destruct (Fastq.auto_detect line a b c); cbn [bind]; try discriminate.
  intros H. injection H as <- _.
  destruct (fastq_entries_ret _ _ _ _ E) as (_ & _ & -> & _).
  rewrite replace_spaces_has_comma. unfold lspl_of.
  pose proof (split_comma_fields (strip line)) as Hf.
  destruct (split_comma (strip line)) as [|x xs]; [reflexivity|].
  cbn [map nth]. inversion Hf; subst.
  unfold strip_quotes, strip.
  now repeat (apply rstrip_has_comma || apply lstrip_has_comma).
Qed.

Lemma Forall2_In_row {A B : Type} (R : A -> B -> Prop) (l : list A)
  (l' : list B) (y : B) :
  Forall2 R l l' -> In y l' -> exists x, In x l /\ R x y.
Proof.
  induction 1 as [|a b l l' Hab _ IH]; intros Hin; [destruct Hin|].
  destruct Hin as [<- | Hin].
  - exists a. split; [now left | exact Hab].
  - destruct (IH Hin) as (x & Hx & Hr). exists x. split; [now right | exact Hr].
Qed.

(** The names written hold no comma. *)
Lemma fastq_names_no_comma (lines : list string) (rows : list Spec.row)
  (name : string) :
  Forall2 (fun l r => Fastq.row l = Ret r) lines rows ->
  In name (fastq_names (Spec.samples rows) rows) ->
  has_comma name = false.
Proof.
  intros Hall Hin. unfold fastq_names in Hin.
  apply in_concat in Hin. destruct Hin as (l & Hl & Hin).
  apply in_map_iff in Hl. destruct Hl as (s & <- & Hs).
  apply in_map_iff in Hin. destruct Hin as (n & <- & _).
  apply samples_spec in Hs. apply in_map_iff in Hs.
  destruct Hs as ([s' i] & Hfst & Hrow). cbn [fst] in Hfst. subst s'.
  destruct (Forall2_In_row _ _ _ _ Hall Hrow) as (line & _ & Hline).
  rewrite !has_comma_app, (fastq_row_sample _ _ _ Hline).
  now rewrite (all_digits_has_comma _ (all_digits_str n)).
Qed.

(** The first field of a line of the output is the name it was written
    with. *)
Lemma output_line_name (name : string) (val : sample_info) :
  has_comma name = false ->
  nth 0 (split_comma (output_line name val)) "" = name.
Proof.
  intros H. unfold output_line, join, info_list.
  change (String.concat "," (name :: info_flag val :: info_files val))
    with (name ++ String comma_char
                    (String.concat "," (info_flag val :: info_files val))).
  rewrite append_assoc.
  change (String comma_char
            (String.concat "," (info_flag val :: info_files val)) ++ nl)
    with (String comma_char
            (String.concat "," (info_flag val :: info_files val) ++ nl)).
  now rewrite (split_comma_head _ _ H).
Qed.

End Commas.

(** C4, amended.  In either mode a row stops on
    [Samplesheet contains duplicate rows!] exactly when the list recorded
    for it (flag and file names) is already among the runs of its sanitized
    sample name, and the call stops on that error, the output file
    unopened, exactly when the loop reaches such a row, the rows before it
    recorded.  In a FASTQ sheet whose rows pass the row checks and in which
    every two rows of one sample have different files and the same pairing
    flag, the call returns and writes every row; two rows of one sample,
    at the positions [p] and [q] of the sheet, are written under the names
    [sample_Tn] and [sample_Tm], [n] and [m] being their numbers among the
    rows of the sample, and these names differ. *)
Theorem duplicate_rows_detected :
  (forall (m : mapping) (line : string),
      Fastq.step m line
      = print_error "Samplesheet contains duplicate rows!" "Line" line
      <-> recorded Fastq.row m line)
  /\ (forall (m : mapping) (line : string),
        Bam.step m line
        = print_error "Samplesheet contains duplicate rows!" "Line" line
        <-> recorded Bam.row m line)
  /\ (forall (file_in first : string) (lines : list string),
        firstn (length Fastq.HEADER) (header_of first) = Fastq.HEADER ->
        (exists line0,
            check_samplesheet file_in (first :: lines) "FASTQ"
            = (Exit (error_str "Samplesheet contains duplicate rows!"
                       "Line" line0), None))
        <-> repeats Fastq.row Fastq.step lines)
  /\ (forall (file_in first : string) (lines : list string),
        firstn (length Bam.HEADER) (header_of first) = Bam.HEADER ->
        (exists line0,
            check_samplesheet file_in (first :: lines) "BAM"
            = (Exit (error_str "Samplesheet contains duplicate rows!"
                       "Line" line0), None))
        <-> repeats Bam.row Bam.step lines)
  /\ (forall (file_in first : string) (lines : list string)
             (rows : list Spec.row),
        firstn (length Fastq.HEADER) (header_of first) = Fastq.HEADER ->
        Forall2 (fun l r => Fastq.row l = Ret r) lines rows ->
        rows <> [] ->
        (forall p q s i j,
            (p < q)%nat ->
            nth_error rows p = Some (s, i) ->
            nth_error rows q = Some (s, j) ->
            info_files i <> info_files j /\ info_flag i = info_flag j) ->
        check_samplesheet file_in (first :: lines) "FASTQ"
        = (Ret tt,
           Some (fastq_header_line
                 ++ Spec.cat (map (fun w => output_line (fst w) (snd w))
                                  (fastq_written (Spec.samples rows) rows))))
        /\ forall p q s i j,
            (p < q)%nat ->
            nth_error rows p = Some (s, i) ->
            nth_error rows q = Some (s, j) ->
            In (s ++ "_T" ++ str (Spec.run_number rows p s), i)
               (fastq_written (Spec.samples rows) rows)
            /\ In (s ++ "_T" ++ str (Spec.run_number rows q s), j)
                  (fastq_written (Spec.samples rows) rows)
            /\ (Spec.run_number rows p s < Spec.run_number rows q s)%nat
            /\ s ++ "_T" ++ str (Spec.run_number rows p s)
               <> s ++ "_T" ++ str (Spec.run_number rows q s)).
Proof.
  split; [|split; [|split; [|split]]].
  - intros m line. split.
    + apply (step_dup_recorded Fastq.row Fastq.step (fun _ _ => eq_refl)
               fastq_row_exit_apart).
    + apply (step_recorded Fastq.row Fastq.step (fun _ _ => eq_refl)).
  - intros m line. split.
    + apply (step_dup_recorded Bam.row Bam.step (fun _ _ => eq_refl)
               bam_row_exit_apart).
    + apply (step_recorded Bam.row Bam.step (fun _ _ => eq_refl)).
  - exact fastq_run_dup_iff.
  - exact bam_run_dup_iff.
  - intros file_in first lines rows Hh Hall Hne Hpair.
    destruct (pairs_sound rows Hpair) as [Hnd Hc]. split.
    + rewrite (fastq_sheet_written file_in first lines rows Hh Hall Hne Hnd Hc).
      now rewrite fastq_output_lines.
    + intros p q s i j Hlt Hp Hq.
      pose proof (run_number_lt rows p q s i Hlt Hp) as Hn.
      split; [now apply written_row|]. split; [now apply written_row|].
      split; [exact Hn|].
      intros H. apply name_inj in H. lia.
Qed.

(** The instance of C4 at two paired runs of sample [A], and at the sheet
    that repeats the first of them. *)
Lemma duplicate_rows_detected_witness :
  check_samplesheet "samplesheet.csv"
    [Examples.fastq_first; Examples.paired_run_1; Examples.paired_run_2]
    "FASTQ"
  = (Ret tt,
     Some ("sample,single_end,fastq_1,fastq_2" ++ nl
           ++ "A_T1,0,a_1.fastq.gz,a_2.fastq.gz" ++ nl
           ++ "A_T2,0,c_1.fastq.gz,c_2.fastq.gz" ++ nl))
  /\ Fastq.step [("A", [SampleInfo "0" ["a_1.fastq.gz"; "a_2.fastq.gz"]])]
       Examples.paired_run_1
     = print_error "Samplesheet contains duplicate rows!" "Line"
         Examples.paired_run_1.
Proof.
  destruct duplicate_rows_detected as (Hstep & _ & _ & _ & Htwo).
  split.
  - refine (proj1 (Htwo "samplesheet.csv" Examples.fastq_first
                     [Examples.paired_run_1; Examples.paired_run_2]
                     [("A", SampleInfo "0" ["a_1.fastq.gz"; "a_2.fastq.gz"]);
                      ("A", SampleInfo "0" ["c_1.fastq.gz"; "c_2.fastq.gz"])]
                     eq_refl _ _ _)).
    + repeat constructor.
    + discriminate.
    + intros [|[|p]] [|[|[|q]]] s i j Hlt Hp Hq; cbn in Hp, Hq;
        try discriminate; try lia.
      injection Hp as <- <-. injection Hq as <-.
      split; [discriminate | reflexivity].
  - apply Hstep.
    exists "A", (SampleInfo "0" ["a_1.fastq.gz"; "a_2.fastq.gz"]),
           [SampleInfo "0" ["a_1.fastq.gz"; "a_2.fastq.gz"]].
    repeat split. simpl. auto.
Defined.

(** X7.  Whenever a FASTQ call returns, every data line of the file has
    passed the row checks, and the output is the header followed by one
    line per data line: the writes are those of [fastq_written], a name and
    the list recorded for a row joined by commas.  The names are pairwise
    different, each is the first field of its line (it holds no comma), and
    the row at position [p] of the sheet is written under [sample_Tn], [n]
    its number among the rows of its sample: no two runs of the output
    share an identifier. *)
Theorem fastq_names_distinct (file_in : string) (fin : list string)
  (out : string) :
  check_samplesheet file_in fin "FASTQ" = (Ret tt, Some out) ->
  exists rows : list Spec.row,
    Forall2 (fun l r => Fastq.row l = Ret r) (tl fin) rows
    /\ out = fastq_header_line
             ++ Spec.cat (map (fun w => output_line (fst w) (snd w))
                              (fastq_written (Spec.samples rows) rows))
    /\ length (fastq_written (Spec.samples rows) rows) = length (tl fin)
    /\ NoDup (map fst (fastq_written (Spec.samples rows) rows))
    /\ (forall w,
           In w (fastq_written (Spec.samples rows) rows) ->
           nth 0 (split_comma (output_line (fst w) (snd w))) "" = fst w)
    /\ (forall p s i,
           nth_error rows p = Some (s, i) ->
           In (s ++ "_T" ++ str (Spec.run_number rows p s), i)
              (fastq_written (Spec.samples rows) rows)).
Proof.
  intros H.
  destruct (fastq_return_inv _ _ _ H)
    as (first & lines & rows & m & -> & Hall & Hnd & Hm & ->).
  exists rows. cbn [tl]. rewrite (sorted_keys_samples m rows Hm).
  destruct (samples_spec rows) as [Hs Hin].
  split; [exact Hall|]. split; [apply fastq_output_lines|].
  split; [rewrite fastq_written_length; symmetry; exact (Forall2_length Hall)|].
  split; [rewrite fastq_written_names; apply fastq_names_NoDup;
          now apply strict_NoDup|].
  split.
  - intros w Hw. apply output_line_name.
    apply (fastq_names_no_comma lines rows); [exact Hall|].
    rewrite <- fastq_written_names. now apply in_map.
  - intros p s i Hp. now apply written_row.
Qed.

(** The instance of X7 at the sheet of two samples. *)
Lemma fastq_names_distinct_witness :
  exists rows : list Spec.row,
    Forall2 (fun l r => Fastq.row l = Ret r)
      (tl (Examples.fastq_first :: Examples.two_samples)) rows
    /\ "sample,single_end,fastq_1,fastq_2" ++ nl
       ++ "a_T1,1,a1.fq.gz," ++ nl
       ++ "b_T1,1,b1.fq.gz," ++ nl
       ++ "b_T2,1,b2.fq.gz," ++ nl
       = fastq_header_line
         ++ Spec.cat (map (fun w => output_line (fst w) (snd w))
                          (fastq_written (Spec.samples rows) rows))
    /\ length (fastq_written (Spec.samples rows) rows)
       = length (tl (Examples.fastq_first :: Examples.two_samples))
    /\ NoDup (map fst (fastq_written (Spec.samples rows) rows))
    /\ (forall w,
           In w (fastq_written (Spec.samples rows) rows) ->
           nth 0 (split_comma (output_line (fst w) (snd w))) "" = fst w)
    /\ (forall p s i,
           nth_error rows p = Some (s, i) ->
           In (s ++ "_T" ++ str (Spec.run_number rows p s), i)
              (fastq_written (Spec.samples rows) rows)).
Proof.
  apply (fastq_names_distinct "samplesheet.csv"
           (Examples.fastq_first :: Examples.two_samples)).
  vm_compute. reflexivity.
Defined.

(** ** The order of the rows *)

Section Interleaving.

Lemma In_fst_group (s : string) (rows : list Spec.row) :
  In s (map fst rows) <-> Spec.group s rows <> [].
Proof.
  split.
  - intros Hin Hg. apply in_map_iff in Hin. destruct Hin as ([k i] & <- & Hin).
    apply In_group in Hin. simpl in Hg. rewrite Hg in Hin. destruct Hin.
  - intros Hg. destruct (in_dec string_dec s (map fst rows)) as [H | H];
      [exact H | now apply group_nil in H].
Qed.

Lemma write_fastq_ext (m1 m2 : mapping) (samples : list string) :
  (forall s, In s samples -> lookup m1 s = lookup m2 s) ->
  forall fout, write_fastq m1 samples fout = write_fastq m2 samples fout.
Proof.
  induction samples as [|s samples IH]; intros H fout; simpl; [reflexivity|].
  rewrite (H s (or_introl eq_refl)).
  destruct (lookup m2 s) as [runs|]; [|reflexivity].
  destruct (negb (same_datatype runs)); [reflexivity|].
  apply IH. intros x Hx. apply H. now right.
Qed.

Lemma write_bam_ext (m1 m2 : mapping) (samples : list string) :
  (forall s, In s samples -> lookup m1 s = lookup m2 s) ->
  forall fout, write_bam m1 samples fout = write_bam m2 samples fout.
Proof.
  induction samples as [|s samples IH]; intros H fout; simpl; [reflexivity|].
  rewrite (H s (or_introl eq_refl)).
  destruct (lookup m2 s) as [runs|]; [|reflexivity].
  apply IH. intros x Hx. apply H. now right.
Qed.

(** Dictionaries that hold the same groups are written the same way. *)
Lemma write_samplesheet_groups (file_in input_format : string)
  (m1 m2 : mapping) (rows1 rows2 : list Spec.row) :
  represents m1 rows1 -> represents m2 rows2 ->
  (forall s, Spec.group s rows1 = Spec.group s rows2) ->
  write_samplesheet file_in m1 input_format
  = write_samplesheet file_in m2 input_format.
Proof.
  intros Hm1 Hm2 Hg.
  assert (Hmem : forall s, In s (map fst rows1) <-> In s (map fst rows2)).
  { intros s. now rewrite !In_fst_group, Hg. }
  destruct (sorted_keys_strict m1 rows1 Hm1) as [Hs1 Hin1].
  destruct (sorted_keys_strict m2 rows2 Hm2) as [Hs2 Hin2].
  assert (Hkeys : sorted (keys m1) = sorted (keys m2)).
  { apply strict_sorted_unique; auto.
    intros s. now rewrite Hin1, Hin2. }
  assert (Hlook : forall s, In s (sorted (keys m2)) ->
                            lookup m1 s = lookup m2 s).
  { intros s Hs. destruct Hm1 as (_ & _ & Hl1), Hm2 as (_ & _ & Hl2).
    rewrite Hl1, Hl2, Hg; [reflexivity| |].
    - now apply sorted_In.
    - apply sorted_In. now rewrite Hkeys. }
  assert (Hlen : (0 <? length m1)%nat = (0 <? length m2)%nat).
  { destruct m1 as [|[k1 r1] m1], m2 as [|[k2 r2] m2]; try reflexivity;
      exfalso.
    - destruct Hm1 as (_ & Hk1 & _), Hm2 as (_ & Hk2 & _).
      apply (proj2 (Hk1 k2)). apply Hmem, Hk2. now left.
    - destruct Hm1 as (_ & Hk1 & _), Hm2 as (_ & Hk2 & _).
      apply (proj2 (Hk2 k1)). apply Hmem, Hk1. now left. }
  unfold write_samplesheet. rewrite Hlen, Hkeys.
  rewrite (write_fastq_ext m1 m2 _ Hlook), (write_bam_ext m1 m2 _ Hlook).
  reflexivity.
Qed.

End Interleaving.

(** X8.  Only the order of the rows within each sample reaches the
    output: two sheets, in one mode and under accepted header lines, whose
    rows are all accepted and never repeated and that give every sample
    the same rows in the same order, end the same way with the same output
    file, however the rows of different samples are interleaved. *)
Theorem interleaving_is_irrelevant :
  (forall (file_in first1 first2 : string) (lines1 lines2 : list string)
          (rows1 rows2 : list Spec.row),
      firstn (length Bam.HEADER) (header_of first1) = Bam.HEADER ->
      firstn (length Bam.HEADER) (header_of first2) = Bam.HEADER ->
      Forall2 (fun l r => Bam.row l = Ret r) lines1 rows1 ->
      Forall2 (fun l r => Bam.row l = Ret r) lines2 rows2 ->
      NoDup rows1 -> NoDup rows2 ->
      (forall s, Spec.group s rows1 = Spec.group s rows2) ->
      check_samplesheet file_in (first1 :: lines1) "BAM"
      = check_samplesheet file_in (first2 :: lines2) "BAM")
  /\ (forall (file_in first1 first2 : string) (lines1 lines2 : list string)
             (rows1 rows2 : list Spec.row),
         firstn (length Fastq.HEADER) (header_of first1) = Fastq.HEADER ->
         firstn (length Fastq.HEADER) (header_of first2) = Fastq.HEADER ->
         Forall2 (fun l r => Fastq.row l = Ret r) lines1 rows1 ->
         Forall2 (fun l r => Fastq.row l = Ret r) lines2 rows2 ->
         NoDup rows1 -> NoDup rows2 ->
         (forall s, Spec.group s rows1 = Spec.group s rows2) ->
         check_samplesheet file_in (first1 :: lines1) "FASTQ"
         = check_samplesheet file_in (first2 :: lines2) "FASTQ").
Proof.
  split; intros file_in first1 first2 lines1 lines2 rows1 rows2
                H1 H2 Ha1 Ha2 Hn1 Hn2 Hg.
  - destruct (read_bam_records first1 lines1 rows1 H1 Ha1 Hn1)
      as (m1 & Hr1 & Hm1).
    destruct (read_bam_records first2 lines2 rows2 H2 Ha2 Hn2)
      as (m2 & Hr2 & Hm2).
    unfold check_samplesheet. rewrite Hr1, Hr2.
    now apply (write_samplesheet_groups file_in "BAM" m1 m2 rows1 rows2).
  - destruct (read_fastq_records first1 lines1 rows1 H1 Ha1 Hn1)
      as (m1 & Hr1 & Hm1).
    destruct (read_fastq_records first2 lines2 rows2 H2 Ha2 Hn2)
      as (m2 & Hr2 & Hm2).
    unfold check_samplesheet. rewrite Hr1, Hr2.
    now apply (write_samplesheet_groups file_in "FASTQ" m1 m2 rows1 rows2).
Qed.

(** The instance of X8 at the sheet of two samples and its rows
    interleaved another way. *)
Lemma interleaving_is_irrelevant_witness :
  check_samplesheet "samplesheet.csv"
    (Examples.fastq_first :: Examples.two_samples) "FASTQ"
  = check_samplesheet "samplesheet.csv"
      (Examples.fastq_first :: two_samples_again) "FASTQ".
Proof.
  apply (proj2 interleaving_is_irrelevant "samplesheet.csv"
           Examples.fastq_first Examples.fastq_first
           Examples.two_samples two_samples_again
           Examples.two_samples_rows two_samples_again_rows).
  - reflexivity.
  - reflexivity.
  - repeat constructor.
  - repeat constructor.
  - repeat constructor; simpl; intuition discriminate.
  - repeat constructor; simpl; intuition discriminate.
  - intros s. unfold Spec.group, Examples.two_samples_rows,
      two_samples_again_rows. cbn [filter fst].
    destruct (String.eqb_spec "b" s) as [Hb | Hb];
      destruct (String.eqb_spec "a" s) as [Ha | Ha];
      try reflexivity; congruence.
Defined.

(** ** Which rows are accepted *)

Section AcceptedRows.

Lemma has_space_replace (s : string) : has_space (replace_spaces s) = false.
Proof.
  induction s as [|c s IH]; simpl; [reflexivity|].
  rewrite IH, orb_false_r.
  destruct (Ascii.eqb_spec c space_char); [reflexivity|].
  now apply Ascii.eqb_neq.
Qed.

Lemma two_populated (l : list string) :
  nth 0 l "" <> "" -> nth 1 l "" <> "" ->
  (2 <= length (filter truthy l))%nat.
Proof.
  destruct l as [|a [|b l]]; simpl; try congruence.
  intros Ha Hb. apply truthy_true in Ha, Hb. rewrite Ha, Hb. simpl. lia.
Qed.

Lemma populated_length (l : list string) (n : nat) :
  nth n l "" <> "" -> (S n <= length l)%nat.
Proof.
  intros H. destruct (Nat.le_gt_cases (S n) (length l)) as [Hle | Hgt];
    [exact Hle|].
  rewrite nth_overflow in H by lia. congruence.
Qed.

Lemma bam_check_file_ok (line bam : string) :
  Bam.check_file line bam = Ret tt
  <-> bam = "" \/ (has_space bam = false /\ endswith bam ".bam" = true).
Proof.
  unfold Bam.check_file, print_error.
  destruct bam as [|c r]; [cbn [truthy]; split; auto|].
  cbn [truthy].
  destruct (has_space (String c r)); cbn [bind].
  - split; [discriminate | intros [H | [H _]]; discriminate].
  - destruct (endswith (String c r) ".bam"); cbn [negb]; split; auto;
      try discriminate.
    intros [H | [_ H]]; discriminate.
Qed.

End AcceptedRows.

(** X9.  The BAM rows that pass the row checks are exactly those with at
    least two non-empty fields, a non-empty first field and a second field
    that is empty or has no blank and ends in [.bam]; what is recorded is
    the first field with its blanks turned into underscores, the flag [1]
    and the second field.  The sample name recorded is never empty and
    holds no blank. *)
Theorem bam_row_accepted_iff (line s : string) (i : sample_info) :
  (Bam.row line = Ret (s, i)
   <-> (2 <= length (filter truthy (lspl_of line)))%nat
       /\ nth 0 (lspl_of line) "" <> ""
       /\ (nth 1 (lspl_of line) "" = ""
           \/ (has_space (nth 1 (lspl_of line) "") = false
               /\ endswith (nth 1 (lspl_of line) "") ".bam" = true))
       /\ s = replace_spaces (nth 0 (lspl_of line) "")
       /\ i = SampleInfo "1" [nth 1 (lspl_of line) ""])
  /\ (Bam.row line = Ret (s, i) -> s <> "" /\ has_space s = false).
Proof.
  assert (Hiff :
    Bam.row line = Ret (s, i)
    <-> (2 <= length (filter truthy (lspl_of line)))%nat
        /\ nth 0 (lspl_of line) "" <> ""
        /\ (nth 1 (lspl_of line) "" = ""
            \/ (has_space (nth 1 (lspl_of line) "") = false
                /\ endswith (nth 1 (lspl_of line) "") ".bam" = true))
        /\ s = replace_spaces (nth 0 (lspl_of line) "")
        /\ i = SampleInfo "1" [nth 1 (lspl_of line) ""]).
  { split.
    - intros H. unfold Bam.row in H.
      destruct (Bam.entries line) as [[s0 b]|msg|e] eqn:He; cbn [bind] in H;
        try discriminate.
      destruct (bam_entries_ret _ _ _ He) as (_ & Hp & -> & -> & Hs).
      destruct (bam_check_file_cases line (nth 1 (lspl_of line) ""))
        as [Hok | [msg Hex]]; rewrite ?Hok, ?Hex in H; cbn [bind] in H;
        [|discriminate].
      injection H as <- <-.
      split; [exact Hp|]. split; [now rewrite replace_spaces_empty in Hs|].
      split; [now apply (bam_check_file_ok line)|]. auto.
    - intros (Hp & Hs & Hfile & -> & ->).
      unfold Bam.row. rewrite bam_entries_eq. cbv zeta.
      pose proof (filter_length_le (lspl_of line)) as Hle.
      assert (E1 : (length (lspl_of line) <? 2)%nat = false)
        by (apply Nat.ltb_ge; lia).
      assert (E2 : (length (filter truthy (lspl_of line)) <? 2)%nat = false)
        by (apply Nat.ltb_ge; lia).
      assert (E3 : truthy (replace_spaces (nth 0 (lspl_of line) "")) = true).
      { apply truthy_true. now rewrite replace_spaces_empty. }
      rewrite E1, E2, E3. cbn [negb bind].
      apply (bam_check_file_ok line) in Hfile. rewrite Hfile. reflexivity. }
  split; [exact Hiff|].
  intros H. apply Hiff in H. destruct H as (_ & Hs & _ & -> & _).
  split; [now rewrite replace_spaces_empty | apply has_space_replace].
Qed.

(** X10.  The FASTQ rows that pass the row checks are exactly those with
    at least three fields, a non-empty first field, a second field that is
    not empty, has no blank and ends in [.fastq.gz] or [.fq.gz], and a
    third field that is empty or passes the same test; the count of
    populated fields adds nothing.  What is recorded is the first field
    with its blanks turned into underscores, the flag ([1] when the third
    field is empty, [0] otherwise) and the two file fields. *)
Theorem fastq_row_accepted_iff (line s : string) (i : sample_info) :
  Fastq.row line = Ret (s, i)
  <-> (3 <= length (lspl_of line))%nat
      /\ nth 0 (lspl_of line) "" <> ""
      /\ nth 1 (lspl_of line) "" <> ""
      /\ has_space (nth 1 (lspl_of line) "") = false
      /\ (endswith (nth 1 (lspl_of line) "") ".fastq.gz" = true
          \/ endswith (nth 1 (lspl_of line) "") ".fq.gz" = true)
      /\ (nth 2 (lspl_of line) "" = ""
          \/ (has_space (nth 2 (lspl_of line) "") = false
              /\ (endswith (nth 2 (lspl_of line) "") ".fastq.gz" = true
                  \/ endswith (nth 2 (lspl_of line) "") ".fq.gz" = true)))
      /\ s = replace_spaces (nth 0 (lspl_of line) "")
      /\ i = SampleInfo (if truthy (nth 2 (lspl_of line) "") then "0" else "1")
               [nth 1 (lspl_of line) ""; nth 2 (lspl_of line) ""].
Proof.
  split.
  - intros H. unfold Fastq.row in H.
    destruct (Fastq.entries line) as [[[s0 f1] f2]|msg|e] eqn:He;
      cbn [bind] in H; try discriminate.
    destruct (fastq_entries_ret _ _ _ _ He) as (Hlen & _ & -> & -> & -> & Hs).
    destruct (fastq_check_file_cases line (nth 1 (lspl_of line) ""))
      as [Hok1 | [msg Hex]]; rewrite ?Hok1, ?Hex in H; cbn [bind] in H;
      [|discriminate].
    destruct (fastq_check_file_cases line (nth 2 (lspl_of line) ""))
      as [Hok2 | [msg Hex]]; rewrite ?Hok2, ?Hex in H; cbn [bind] in H;
      [|discriminate].
    unfold Fastq.auto_detect in H.
    apply truthy_true in Hs. rewrite Hs in H. cbn [andb] in H.
    destruct (truthy (nth 1 (lspl_of line) "")) eqn:E1; cbn [andb] in H;
      [|unfold print_error in H; discriminate].
    apply truthy_true in E1.
    apply fastq_check_file_ok in Hok1, Hok2.
    destruct Hok1 as [Hemp | [Hsp Hext]]; [congruence|].
    split; [exact Hlen|].
    split; [apply truthy_true in Hs; now rewrite replace_spaces_empty in Hs|].
    split; [exact E1|]. split; [exact Hsp|]. split; [exact Hext|].
    split; [exact Hok2|].
    destruct (truthy (nth 2 (lspl_of line) "")); cbn [negb bind] in H;
      injection H as <- <-; auto.
  - intros (Hlen & Hs & Hf1 & Hsp & Hext & Hf2 & -> & ->).
    unfold Fastq.row. rewrite fastq_entries_eq. cbv zeta.
    assert (E1 : (length (lspl_of line) <? 3)%nat = false)
      by (apply Nat.ltb_ge; lia).
    assert (E2 : (length (filter truthy (lspl_of line)) <? 2)%nat = false)
      by (apply Nat.ltb_ge; now apply two_populated).
    assert (E3 : truthy (replace_spaces (nth 0 (lspl_of line) "")) = true).
    { apply truthy_true. now rewrite replace_spaces_empty. }
    rewrite E1, E2, E3. cbn [negb bind].
    assert (Hok1 : Fastq.check_file line (nth 1 (lspl_of line) "") = Ret tt)
      by (apply fastq_check_file_ok; auto).
    assert (Hok2 : Fastq.check_file line (nth 2 (lspl_of line) "") = Ret tt)
      by (now apply fastq_check_file_ok).
    rewrite Hok1, Hok2. cbn [bind]. unfold Fastq.auto_detect.
    apply truthy_true in Hf1. rewrite E3, Hf1. cbn [andb].
    destruct (truthy (nth 2 (lspl_of line) "")); reflexivity.
Qed.

(** ** The header line *)

(** X11.  In BAM mode a file whose first line does not start with the
    fields [sample] and [bam] stops on the header error, which prints the
    fields found and the fields expected; no data line is read and the
    output file is not opened.  An empty file is such a file: its header
    is read as one empty field. *)
Theorem bam_header_rejected (file_in : string) (fin : list string) :
  firstn (length Bam.HEADER) (header_of (fst (readline fin))) <> Bam.HEADER ->
  check_samplesheet file_in fin "BAM"
  = (Exit ("ERROR: Please check samplesheet header -> "
           ++ join "," (header_of (fst (readline fin)))
           ++ " != sample,bam"), None)
  /\ check_samplesheet file_in [] "BAM"
     = (Exit "ERROR: Please check samplesheet header ->  != sample,bam", None).
Proof.
  intros H. split; [|reflexivity].
  unfold check_samplesheet, read_samplesheet.
  change ("BAM" =? "FASTQ") with false. cbv iota. rewrite String.eqb_refl.
  destruct (check_header Bam.HEADER fin) as [rest|msg|e] eqn:Hh; cbn [bind].
  - now destruct (check_header_ret_inv _ _ _ Hh).
  - destruct (check_header_exit_inv _ _ _ Hh) as [_ ->]. reflexivity.
  - exfalso. exact (check_header_no_raise _ _ _ Hh).
Qed.

(** The instance of X11 at a file whose header has a blank before
    [bam]: the fields of the header are not stripped of blanks. *)
Lemma bam_header_rejected_witness :
  check_samplesheet "samplesheet.csv"
    ["sample, bam" ++ nl; "S1,S1.bam" ++ nl] "BAM"
  = (Exit ("ERROR: Please check samplesheet header -> "
           ++ join "," (header_of (fst (readline ["sample, bam" ++ nl;
                                                  "S1,S1.bam" ++ nl])))
           ++ " != sample,bam"), None)
  /\ check_samplesheet "samplesheet.csv" [] "BAM"
     = (Exit "ERROR: Please check samplesheet header ->  != sample,bam", None).
Proof.
  apply bam_header_rejected. vm_compute. discriminate.
Defined.

(** ** [read_head] *)

Section ReadHead.

Lemma join_empty_cat (l : list string) : join "" l = Spec.cat l.
Proof.
  unfold join, Spec.cat. induction l as [|x l IH]; [reflexivity|].
  cbn [String.concat fold_right]. destruct l as [|y l].
  - now rewrite append_nil_r.
  - rewrite IH. reflexivity.
Qed.

(** The lines of a file opened with [newline=""], put end to end, are the
    text of the file. *)
Lemma cat_raw_lines_of (s : string) : Spec.cat (raw_lines_of s) = s.
Proof.
  induction s as [|c s IH]; [reflexivity|].
  cbn [raw_lines_of].
  destruct (Ascii.eqb c nl_char || (Ascii.eqb c cr_char && negb (starts_nl s))).
  - cbn [Spec.cat fold_right append]. fold (Spec.cat (raw_lines_of s)).
    now rewrite IH.
  - destruct (raw_lines_of s) as [|l ls].
    + simpl in IH. subst s. reflexivity.
    + cbn [Spec.cat fold_right append] in *.
      fold (Spec.cat ls) in *. now rewrite IH.
Qed.

Lemma read_head_loop_spec (handle : list string) (num_lines : Z) :
  forall (idx : nat) (lines : list string),
    (Z.of_nat idx <= num_lines)%Z ->
    read_head_loop handle idx num_lines lines
    = ((lines ++ firstn (Z.to_nat num_lines - idx) handle)%list,
       skipn (S (Z.to_nat num_lines - idx)) handle).
Proof.
  induction handle as [|line rest IH]; intros idx lines Hle.
  - cbn [read_head_loop]. now rewrite firstn_nil, skipn_nil, app_nil_r.
  - cbn [read_head_loop]. destruct (Z.eqb_spec (Z.of_nat idx) num_lines) as [E | E].
    + replace (Z.to_nat num_lines - idx)%nat with 0%nat by lia.
      cbn [firstn skipn]. now rewrite app_nil_r.
    + rewrite IH by lia.
      replace (Z.to_nat num_lines - idx)%nat
        with (S (Z.to_nat num_lines - S idx))%nat by lia.
      cbn [firstn skipn]. now rewrite <- app_assoc.
Qed.

Lemma read_head_loop_all (handle : list string) (num_lines : Z) :
  forall (idx : nat) (lines : list string),
    (num_lines < Z.of_nat idx)%Z ->
    read_head_loop handle idx num_lines lines = ((lines ++ handle)%list, []).
Proof.
  induction handle as [|line rest IH]; intros idx lines Hlt.
  - cbn [read_head_loop]. now rewrite app_nil_r.
  - cbn [read_head_loop].
    destruct (Z.eqb_spec (Z.of_nat idx) num_lines) as [E | E]; [lia|].
    rewrite IH by lia. now rewrite <- app_assoc.
Qed.

End ReadHead.

(** X12.  [read_head] returns the first [num_lines] lines of the handle,
    concatenated, and leaves the handle one line further than what it
    returns: the line at which the count is reached is read and dropped.
    With a negative [num_lines] the count is never reached and the whole
    handle is returned.  On the lines of a file opened with [newline=""]
    that has at most [num_lines] lines, whatever their endings ([\n],
    [\r\n] or a lone [\r]), it gives the text of the file back. *)
Theorem read_head_lines (handle : list string) (num_lines : Z) :
  read_head handle num_lines
  = (if (num_lines <? 0)%Z
     then (Spec.cat handle, [])
     else (Spec.cat (firstn (Z.to_nat num_lines) handle),
           skipn (S (Z.to_nat num_lines)) handle))
  /\ forall text : string,
      (Z.of_nat (length (raw_lines_of text)) <= num_lines)%Z ->
      read_head (raw_lines_of text) num_lines = (text, []).
Proof.
  assert (Hmain :
    read_head handle num_lines
    = (if (num_lines <? 0)%Z
       then (Spec.cat handle, [])
       else (Spec.cat (firstn (Z.to_nat num_lines) handle),
             skipn (S (Z.to_nat num_lines)) handle))).
  { unfold read_head. destruct (Z.ltb_spec num_lines 0) as [Hneg | Hpos].
    - rewrite read_head_loop_all by (simpl; lia).
      now rewrite join_empty_cat.
    - rewrite read_head_loop_spec by (simpl; lia).
      rewrite Nat.sub_0_r. now rewrite join_empty_cat. }
  split; [exact Hmain|].
  intros text Hlen. unfold read_head.
  rewrite read_head_loop_spec by (simpl; lia).
  rewrite Nat.sub_0_r, firstn_all2, skipn_all2 by lia.
  cbn [app]. now rewrite join_empty_cat, cat_raw_lines_of.
Qed.

(** The instance of X12 at a text of three lines, the first ended by a
    lone carriage return and the second by [\r\n], read with the default
    count of ten; with a count of one the first line is returned and the
    second is dropped. *)
Lemma read_head_lines_witness :
  read_head (raw_lines_of mixed_endings) 10 = (mixed_endings, [])
  /\ read_head (raw_lines_of mixed_endings) 1
     = ("a" ++ String cr_char "", ["c" ++ nl]).
Proof.
  split.
  - apply (proj2 (read_head_lines [] 10)). vm_compute. discriminate.
  - reflexivity.
Defined.

(** ** The row checker *)

Section CheckerRows.

Import RowChecker.

Variable suffixes : string -> list string.

Lemma length_zero_empty (s : string) :
  (String.length s <=? 0)%nat = true <-> s = "".
Proof. destruct s; simpl; split; congruence. Qed.

Lemma length_pos_truthy (s : string) :
  (0 <? String.length s)%nat = truthy s.
Proof. destruct s; reflexivity. Qed.

Lemma validate_format_ok (f : string) :
  _validate_fastq_format f = None
  <-> endswith f ".fq.gz" = true \/ endswith f ".fastq.gz" = true.
Proof.
  unfold _validate_fastq_format, VALID_FORMATS. cbn [existsb].
  rewrite orb_false_r.
  destruct (endswith f ".fq.gz"), (endswith f ".fastq.gz"); cbn [orb negb];
    split; auto; try discriminate.
  intros [H | H]; discriminate.
Qed.

Lemma validate_format_cases (f : string) :
  _validate_fastq_format f = None
  \/ exists msg, _validate_fastq_format f = Some (AssertionError msg).
Proof.
  unfold _validate_fastq_format. destruct (negb _); eauto.
Qed.

Lemma valid_format_nonempty (f : string) :
  endswith f ".fq.gz" = true \/ endswith f ".fastq.gz" = true -> f <> "".
Proof. intros [H | H] ->; discriminate. Qed.

End CheckerRows.

Section CheckerValidate.

Import RowChecker.

Variable suffixes : string -> list string.

(** X13.  The checker accepts a row exactly when its sample is a
    non-empty string, its first file ends in [.fq.gz] or [.fastq.gz], and
    its second file is the empty string or ends in one of the two and has
    the same last two suffixes as the first; it then writes the sample with
    blanks as underscores and the flag, true when there is no second file.
    No field is stripped and a blank in a file name is not looked for. *)
Theorem validate_accepts_iff (w w' : row) :
  validate suffixes w = (w', None)
  <-> exists s f g,
        sample w = Some s /\ s <> ""
        /\ first w = Some f
        /\ (endswith f ".fq.gz" = true \/ endswith f ".fastq.gz" = true)
        /\ second w = Some g
        /\ (g = ""
            \/ ((endswith g ".fq.gz" = true \/ endswith g ".fastq.gz" = true)
                /\ last_two (suffixes f) = last_two (suffixes g)))
        /\ w' = Row (Some (replace_spaces s)) (Some f) (Some g)
                    (Some (negb (truthy g))).
Proof.
  destruct w as [sa fi se si]. unfold validate, _validate_sample.
  cbn [sample first second single]. split.
  - destruct sa as [s|]; [|discriminate].
    destruct (String.length s <=? 0)%nat eqn:Es; [discriminate|].
    unfold _validate_first. cbn [first].
    destruct fi as [f|]; [|discriminate].
    destruct (String.length f <=? 0)%nat eqn:Ef; [discriminate|].
    destruct (_validate_fastq_format f) eqn:Hf; [discriminate|].
    unfold _validate_second. cbn [second].
    destruct se as [g|]; [|discriminate].
    rewrite length_pos_truthy.
    apply validate_format_ok in Hf.
    assert (Hs : s <> "").
    { intros ->. discriminate. }
    unfold _validate_pair. cbn [sample first second single cell_truthy cell_str].
    assert (Hft : truthy f = true)
      by (apply truthy_true; now apply valid_format_nonempty).
    rewrite Hft. cbn [andb].
    destruct (truthy g) eqn:Eg.
    + destruct (_validate_fastq_format g) eqn:Hg; [discriminate|].
      apply validate_format_ok in Hg.
      destruct (list_eqb _ _) eqn:El; cbn [negb]; [|discriminate].
      intros H. injection H as <-. apply list_eqb_eq in El.
      exists s, f, g. rewrite Eg. repeat split; auto.
    + intros H. injection H as <-. apply truthy_false in Eg. subst g.
      exists s, f, "". repeat split; auto.
  - intros (s & f & g & -> & Hs & -> & Hf & -> & Hg & ->).
    assert (Es : (String.length s <=? 0)%nat = false).
    { destruct (String.length s <=? 0)%nat eqn:E; [|reflexivity].
      apply length_zero_empty in E. congruence. }
    rewrite Es. unfold _validate_first. cbn [first].
    assert (Hfne : f <> "") by now apply valid_format_nonempty.
    assert (Ef : (String.length f <=? 0)%nat = false).
    { destruct (String.length f <=? 0)%nat eqn:E; [|reflexivity].
      apply length_zero_empty in E. congruence. }
    rewrite Ef. apply validate_format_ok in Hf. rewrite Hf.
    unfold _validate_second. cbn [second]. rewrite length_pos_truthy.
    unfold _validate_pair. cbn [sample first second single cell_truthy cell_str].
    apply truthy_true in Hfne. rewrite Hfne. cbn [andb].
    destruct Hg as [-> | [Hg Hsuf]].
    + reflexivity.
    + assert (Hgt : truthy g = true)
        by (apply truthy_true; now apply valid_format_nonempty).
      rewrite Hgt. apply validate_format_ok in Hg. rewrite Hg.
      apply list_eqb_eq in Hsuf. rewrite Hsuf. reflexivity.
Qed.

(** X14.  A row with a cell missing (a line with fewer fields than the
    header) meets [len(None)]: the checker raises a [TypeError], which is
    no assertion, exactly when the sample is missing, or the sample is
    sound and the first file is missing, or both are sound and the second
    file is missing. *)
Theorem validate_type_error_iff (w w' : row) :
  validate suffixes w = (w', Some TypeError)
  <-> (sample w = None /\ w' = w)
      \/ (exists s, sample w = Some s /\ s <> "" /\ first w = None
                    /\ w' = Row (Some (replace_spaces s)) None (second w)
                                (single w))
      \/ (exists s f,
             sample w = Some s /\ s <> "" /\ first w = Some f
             /\ (endswith f ".fq.gz" = true \/ endswith f ".fastq.gz" = true)
             /\ second w = None
             /\ w' = Row (Some (replace_spaces s)) (Some f) None (single w)).
Proof.
  destruct w as [sa fi se si]. unfold validate, _validate_sample.
  cbn [sample first second single]. split.
  - destruct sa as [s|]; [|intros H; injection H as <-; auto].
    destruct (String.length s <=? 0)%nat eqn:Es; [discriminate|].
    assert (Hs : s <> "") by (intros ->; discriminate).
    unfold _validate_first. cbn [first].
    destruct fi as [f|];
      [|intros H; injection H as <-; right; left; exists s; auto].
    destruct (String.length f <=? 0)%nat eqn:Ef; [discriminate|].
    destruct (validate_format_cases f) as [Hf | [msg Hf]]; rewrite Hf;
      [|discriminate].
    apply validate_format_ok in Hf.
    unfold _validate_second. cbn [second].
    destruct se as [g|];
      [|intros H; injection H as <-; right; right; exists s, f; auto 10].
    rewrite length_pos_truthy.
    assert (Hpair : forall x, snd (_validate_pair suffixes x) <> Some TypeError).
    { intros x. unfold _validate_pair.
      destruct (_ && _); [destruct (negb _)|]; discriminate. }
    destruct (truthy g).
    + destruct (validate_format_cases g) as [Hg | [msg Hg]]; rewrite Hg;
        [|discriminate].
      intros H. exfalso. eapply Hpair. rewrite H. reflexivity.
    + intros H. exfalso. eapply Hpair. rewrite H. reflexivity.
  - intros [[-> ->] | [(s & -> & Hs & -> & ->) | (s & f & -> & Hs & -> & Hf & -> & ->)]].
    + reflexivity.
    + assert (Es : (String.length s <=? 0)%nat = false).
      { destruct (String.length s <=? 0)%nat eqn:E; [|reflexivity].
        apply length_zero_empty in E. congruence. }
      rewrite Es. reflexivity.
    + assert (Es : (String.length s <=? 0)%nat = false).
      { destruct (String.length s <=? 0)%nat eqn:E; [|reflexivity].
        apply length_zero_empty in E. congruence. }
      rewrite Es. unfold _validate_first. cbn [first].
      assert (Hfne : f <> "") by now apply valid_format_nonempty.
      assert (Ef : (String.length f <=? 0)%nat = false).
      { destruct (String.length f <=? 0)%nat eqn:E; [|reflexivity].
        apply length_zero_empty in E. congruence. }
      rewrite Ef. apply validate_format_ok in Hf. rewrite Hf. reflexivity.
Qed.

End CheckerValidate.

Section CheckerLoop.

Import RowChecker.

Variable suffixes : string -> list string.

Lemma check_rows_app (l1 l2 : list nat) :
  forall (c : checker) (h : heap) (i : nat),
    check_rows suffixes c h i (l1 ++ l2)%list
    = match check_rows suffixes c h i l1 with
      | (c1, h1, Ret _) => check_rows suffixes c1 h1 (i + length l1) l2
      | other => other
      end.
Proof.
  induction l1 as [|r l1 IH]; intros c h i; cbn [app check_rows length].
  - now rewrite Nat.add_0_r.
  - destruct (validate_and_transform suffixes c h r) as [[c' h'] [[msg|]|]].
    + reflexivity.
    + reflexivity.
    + rewrite IH. now rewrite Nat.add_succ_comm.
Qed.

Lemma check_rows_ret_unit (l : list nat) (c c1 : checker) (h h1 : heap)
  (i : nat) (u : unit) :
  check_rows suffixes c h i l = (c1, h1, Ret u) ->
  check_rows suffixes c h i l = (c1, h1, Ret tt).
Proof. now destruct u. Qed.

End CheckerLoop.

Section CheckerLine.

Import RowChecker.

Variable suffixes : string -> list string.

(** X15.  When the rows before a row are accepted and the row fails an
    assertion, the loop over the rows exits with the text of the assertion
    followed by [ On line n.], [n] being the position of the row plus two
    (the header is line 1 and the rows are counted from 0); the rows after
    it are not touched. *)
Theorem check_rows_reports_line (c c1 : checker) (h h1 : heap)
  (before : list nat) (r : nat) (after : list nat) (w : row) (msg : string) :
  check_rows suffixes c h 0 before = (c1, h1, Ret tt) ->
  validate suffixes (h1 r) = (w, Some (AssertionError msg)) ->
  check_rows suffixes c h 0 (before ++ r :: after)%list
  = (c1, upd h1 r w,
     Exit (msg ++ " On line " ++ str (length before + 2) ++ ".")).
Proof.
  intros Hb Hv. rewrite check_rows_app, Hb. cbn [check_rows Nat.add].
  unfold validate_and_transform. rewrite Hv. reflexivity.
Qed.

End CheckerLine.

(** The instance of X15 at two rows, the second with a first file that
    is not a FASTQ file. *)
Lemma check_rows_reports_line_witness :
  snd (RowChecker.check_rows (fun _ => []) RowChecker.init two_rows_heap 0
         [0; 1]%nat)
  = Exit ("The FASTQ file has an unrecognized extension: b.txt" ++ nl
          ++ "It should be one of: .fq.gz, .fastq.gz On line 3.").
Proof.
  exact (f_equal snd
           (check_rows_reports_line (fun _ => []) RowChecker.init
              (RowChecker.Checker [(Some "A_1", Some "a.fq.gz")] [0%nat])
              two_rows_heap
              (RowChecker.upd two_rows_heap 0
                 (RowChecker.Row (Some "A_1") (Some "a.fq.gz") (Some "")
                    (Some true)))
              [0%nat] 1 []
              (RowChecker.Row (Some "B") (Some "b.txt") (Some "") None)
              ("The FASTQ file has an unrecognized extension: b.txt" ++ nl
               ++ "It should be one of: .fq.gz, .fastq.gz")
              eq_refl eq_refl)).
Defined.

Section CheckerSets.

Import RowChecker.

Lemma cell_eqb_eq (a b : cell) : cell_eqb a b = true <-> a = b.
Proof.
  destruct a as [x|], b as [y|]; simpl; try (split; congruence).
  rewrite String.eqb_eq. split; congruence.
Qed.

Lemma cell_eqb_refl (a : cell) : cell_eqb a a = true.
Proof. now apply cell_eqb_eq. Qed.

Lemma cell_eqb_neq (a b : cell) : cell_eqb a b = false <-> a <> b.
Proof.
  rewrite <- cell_eqb_eq. destruct (cell_eqb a b); split; congruence.
Qed.

Lemma key_eqb_eq (a b : cell * cell) : key_eqb a b = true <-> a = b.
Proof.
  destruct a as [a1 a2], b as [b1 b2]. unfold key_eqb. cbn [fst snd].
  rewrite andb_true_iff, !cell_eqb_eq. split; [intros [-> ->] | intros H];
    [reflexivity | now injection H].
Qed.

Lemma key_eq_dec (a b : cell * cell) : {a = b} + {a <> b}.
Proof.
  destruct (key_eqb a b) eqn:E.
  - left. now apply key_eqb_eq.
  - right. intros H. apply key_eqb_eq in H. congruence.
Qed.

Lemma set_add_old (k : cell * cell) (s : list (cell * cell)) :
  In k s -> set_add k s = s.
Proof.
  induction s as [|x s IH]; intros Hin; [destruct Hin|].
  cbn [set_add]. destruct (key_eqb k x) eqn:E; [reflexivity|].
  destruct Hin as [-> | Hin].
  - assert (key_eqb k k = true) by now apply key_eqb_eq. congruence.
  - now rewrite IH.
Qed.

Lemma set_add_new (k : cell * cell) (s : list (cell * cell)) :
  ~ In k s -> set_add k s = (s ++ [k])%list.
Proof.
  induction s as [|x s IH]; intros Hn; [reflexivity|].
  cbn [set_add app]. destruct (key_eqb k x) eqn:E.
  - apply key_eqb_eq in E. subst. exfalso. apply Hn. now left.
  - rewrite IH; [reflexivity|]. intros H. apply Hn. now right.
Qed.

Lemma fold_set_add_length (keys : list (cell * cell)) :
  forall s0 : list (cell * cell),
    (length (fold_left (fun s k => set_add k s) keys s0)
     <= length s0 + length keys)%nat
    /\ (length (fold_left (fun s k => set_add k s) keys s0)
        = (length s0 + length keys)%nat
        <-> NoDup keys /\ forall k, In k keys -> ~ In k s0).
Proof.
  induction keys as [|k keys IH]; intros s0; cbn [fold_left length].
  - split; [lia|]. split; [intros _; split; [constructor | intros k []] | lia].
  - destruct (in_dec key_eq_dec k s0) as [Hin | Hn].
    + rewrite (set_add_old k s0 Hin). destruct (IH s0) as [Hle _].
      split; [lia|]. split; [lia|].
      intros [_ H]. exfalso. exact (H k (or_introl eq_refl) Hin).
    + rewrite (set_add_new k s0 Hn). destruct (IH (s0 ++ [k])%list) as [Hle Heq].
      rewrite length_app in Hle, Heq. cbn [length] in Hle, Heq.
      split; [lia|].
      replace (length s0 + S (length keys))%nat
        with (length s0 + 1 + length keys)%nat by lia.
      rewrite Heq. split.
      * intros [Hnd Hdis]. split.
        -- constructor; [|exact Hnd]. intros Hk.
           apply (Hdis k Hk). apply in_or_app. right. now left.
        -- intros x [<- | Hx]; [exact Hn|].
           intros Hx0. apply (Hdis x Hx). apply in_or_app. now left.
      * intros [Hnd Hdis]. inversion Hnd as [|? ? Hk Hnd']; subst. split;
          [exact Hnd'|].
        intros x Hx Hx0. apply in_app_or in Hx0.
        destruct Hx0 as [Hx0 | [<- | []]].
        -- exact (Hdis x (or_intror Hx) Hx0).
        -- contradiction.
Qed.

Lemma count_incr_same (c : counter) (k : cell) :
  count (incr c k) k = (count c k + 1)%nat.
Proof.
  induction c as [|[x n] c IH]; cbn [incr count].
  - now rewrite cell_eqb_refl.
  - destruct (cell_eqb x k) eqn:E; cbn [count]; rewrite E; [reflexivity|].
    exact IH.
Qed.

Lemma count_incr_other (c : counter) (k k' : cell) :
  k <> k' -> count (incr c k) k' = count c k'.
Proof.
  intros Hne. induction c as [|[x n] c IH]; cbn [incr count].
  - assert (E : cell_eqb k k' = false) by now apply cell_eqb_neq.
    now rewrite E.
  - destruct (cell_eqb x k) eqn:E; cbn [count].
    + apply cell_eqb_eq in E. subst x.
      assert (E : cell_eqb k k' = false) by now apply cell_eqb_neq.
      now rewrite E.
    + destruct (cell_eqb x k'); [reflexivity | exact IH].
Qed.

Lemma occurrences_cons (k x : cell) (l : list cell) :
  occurrences k (x :: l)
  = ((if cell_eqb k x then 1 else 0) + occurrences k l)%nat.
Proof.
  unfold occurrences. cbn [filter]. destruct (cell_eqb k x); reflexivity.
Qed.

Lemma upd_same (h : heap) (r : nat) (v : row) : upd h r v r = v.
Proof. unfold upd. now rewrite Nat.eqb_refl. Qed.

Lemma upd_other (h : heap) (r x : nat) (v : row) :
  x <> r -> upd h r v x = h x.
Proof.
  intros H. unfold upd. apply Nat.eqb_neq in H. now rewrite H.
Qed.

Lemma firstn_incl (A : Type) (n : nat) (l : list A) (x : A) :
  In x (firstn n l) -> In x l.
Proof.
  revert l. induction n as [|n IH]; intros [|y l] H; cbn [firstn] in H;
    try destruct H as [<- | H]; try (now left); try contradiction.
  right. now apply IH.
Qed.

(** The loop that renames: a row of the list is renamed once, with the
    count its sample has reached; the other rows stay. *)
Lemma rename_loop_spec (refs : list nat) :
  NoDup refs ->
  forall (seen : counter) (h : heap),
    (forall x, ~ In x refs -> rename_loop refs seen h x = h x)
    /\ (forall k r,
           nth_error refs k = Some r ->
           rename_loop refs seen h r
           = Row (Some (cell_str (sample (h r)) ++ "_T"
                        ++ str (count seen (sample (h r))
                                + occurrences (sample (h r))
                                    (map (fun x => sample (h x))
                                         (firstn (S k) refs)))))
                 (first (h r)) (second (h r)) (single (h r))).
Proof.
  induction 1 as [|r0 rest Hnotin Hnd IH]; intros seen h.
  - split; [reflexivity | intros [|k] r H; discriminate].
  - cbn [rename_loop].
    set (s0 := sample (h r0)).
    set (seen' := incr seen s0).
    set (h' := upd h r0 (Row (Some (cell_str s0 ++ "_T" ++ str (count seen' s0)))
                             (first (h r0)) (second (h r0)) (single (h r0)))).
    destruct (IH seen' h') as [Hout Hin].
    split.
    + intros x Hx. rewrite Hout by (intros H; apply Hx; now right).
      apply upd_other. intros ->. apply Hx. now left.
    + intros [|k] r Hk; cbn [nth_error] in Hk.
      * injection Hk as <-. rewrite (Hout r0 Hnotin). unfold h'.
        rewrite upd_same. cbn [firstn map]. fold s0.
        rewrite occurrences_cons, cell_eqb_refl.
        unfold seen'. rewrite count_incr_same.
        unfold occurrences. cbn [filter length]. rewrite Nat.add_0_r.
        reflexivity.
      * assert (Hr : In r rest) by (eapply nth_error_In; eauto).
        assert (Hne : r <> r0) by (intros ->; contradiction).
        assert (Hr' : h' r = h r) by (unfold h'; now apply upd_other).
        rewrite (Hin k r Hk), Hr'.
        assert (Hmap : map (fun x => sample (h' x)) (firstn (S k) rest)
                       = map (fun x => sample (h x)) (firstn (S k) rest)).
        { apply map_ext_in. intros x Hx. unfold h'.
          rewrite upd_other; [reflexivity|].
          intros ->. apply Hnotin. exact (firstn_incl _ _ _ _ Hx). }
        rewrite Hmap. cbn [firstn map]. fold s0. rewrite occurrences_cons.
        f_equal. f_equal. f_equal. f_equal.
        unfold seen'. destruct (cell_eqb (sample (h r)) s0) eqn:E.
        -- apply cell_eqb_eq in E. rewrite E, count_incr_same. f_equal. lia.
        -- apply cell_eqb_neq in E.
           rewrite count_incr_other by congruence. reflexivity.
Qed.

End CheckerSets.

Section CheckerUnique.

Import RowChecker.

Variable suffixes : string -> list string.

Lemma occurrences_app (k : cell) (a b : list cell) :
  occurrences k (a ++ b)%list = (occurrences k a + occurrences k b)%nat.
Proof. unfold occurrences. now rewrite filter_app, length_app. Qed.

Lemma firstn_S_nth (A : Type) (l : list A) :
  forall (k : nat) (x : A),
    nth_error l k = Some x -> firstn (S k) l = (firstn k l ++ [x])%list.
Proof.
  induction l as [|y l IH]; intros [|k] x H; try discriminate H.
  - injection H as ->. reflexivity.
  - cbn [nth_error] in H. change (firstn (S (S k)) (y :: l))
      with (y :: firstn (S k) l). rewrite (IH k x H). reflexivity.
Qed.

Lemma occurrences_firstn_mono (k : cell) (l : list cell) :
  forall n m : nat,
    (n <= m)%nat ->
    (occurrences k (firstn n l) <= occurrences k (firstn m l))%nat.
Proof.
  induction l as [|y l IH]; intros n m Hnm.
  - now rewrite !firstn_nil.
  - destruct n as [|n]; [cbn [firstn]; unfold occurrences at 1; simpl; lia|].
    destruct m as [|m]; [lia|]. cbn [firstn]. rewrite !occurrences_cons.
    specialize (IH n m). lia.
Qed.

(** A row that passes the validations has a sample name. *)
Lemma validate_sample_some (w w' : row) :
  validate suffixes w = (w', None) -> exists s, sample w' = Some s.
Proof.
  unfold validate, _validate_sample. destruct w as [[s|] f g b]; cbn [sample].
  - destruct (String.length s <=? 0)%nat; [discriminate|].
    destruct (_validate_first _); [discriminate|].
    destruct (_validate_second _); [discriminate|].
    unfold _validate_pair. cbn [sample first second].
    destruct (cell_truthy f && cell_truthy g).
    + destruct (negb _); [discriminate|]. intros H. injection H as <-.
      cbn [sample]. eauto.
    + intros H. injection H as <-. cbn [sample]. eauto.
  - discriminate.
Qed.

(** The state of the checker after the rows of [reader] are accepted:
    the rows are recorded in turn, their keys are in the set, each row is
    the result of its validation, and the other rows are as before. *)
Lemma check_rows_ret (reader : list nat) :
  NoDup reader ->
  forall (c : checker) (h : heap) (i : nat) (c1 : checker) (h1 : heap),
    check_rows suffixes c h i reader = (c1, h1, Ret tt) ->
    modified c1 = (modified c ++ reader)%list
    /\ _seen c1
       = fold_left (fun s k => set_add k s)
           (map (fun r => seen_key (h1 r)) reader) (_seen c)
    /\ (forall x, ~ In x reader -> h1 x = h x)
    /\ (forall r, In r reader -> validate suffixes (h r) = (h1 r, None)).
Proof.
  induction 1 as [|r rest Hnotin Hnd IH]; intros c h i c1 h1 H;
    cbn [check_rows] in H.
  - injection H as <- <-. rewrite app_nil_r.
    repeat split; auto. intros r [].
  - unfold validate_and_transform in H.
    destruct (validate suffixes (h r)) as [w [e|]] eqn:Ev.
    + destruct e; discriminate H.
    + apply IH in H. destruct H as (Hm & Hs & Hout & Hin).
      cbn [modified _seen] in Hm, Hs.
      assert (Hr : h1 r = w) by (rewrite (Hout r Hnotin); apply upd_same).
      repeat split.
      * rewrite Hm, <- app_assoc. reflexivity.
      * rewrite Hs. cbn [map fold_left].
        replace (seen_key (h1 r)) with (sample w, first w)
          by (unfold seen_key; now rewrite Hr).
        reflexivity.
      * intros x Hx. rewrite Hout by (intros Hx'; apply Hx; now right).
        apply upd_other. intros ->. apply Hx. now left.
      * intros r' [<- | Hr']; [now rewrite Hr|].
        specialize (Hin r' Hr'). rewrite upd_other in Hin; [exact Hin|].
        intros ->. contradiction.
Qed.

(** The test of [validate_unique_samples] holds exactly when the keys of
    the accepted rows are pairwise distinct. *)
Lemma unique_test (reader : list nat) (h : heap) (c1 : checker) (h1 : heap) :
  NoDup reader ->
  check_rows suffixes init h 0 reader = (c1, h1, Ret tt) ->
  modified c1 = reader
  /\ ((length (_seen c1) =? length (modified c1))%nat = true
      <-> NoDup (map (fun r => seen_key (h1 r)) reader)).
Proof.
  intros Hnd H. destruct (check_rows_ret reader Hnd _ _ _ _ _ H)
    as (Hm & Hs & _ & _).
  cbn [init modified _seen app] in Hm, Hs. split; [exact Hm|].
  rewrite Hm, Hs, Nat.eqb_eq.
  destruct (fold_set_add_length (map (fun r => seen_key (h1 r)) reader) [])
    as [_ Hiff].
  cbn [length Nat.add] in Hiff. rewrite length_map in Hiff. rewrite Hiff.
  split; [tauto | intros Hk; split; [exact Hk | intros k _ []]].
Qed.

(** X16.  After the rows of a sheet, distinct objects, are accepted by
    [validate_and_transform] from a fresh checker: when their pairs of
    sample and first file are pairwise distinct, [validate_unique_samples]
    returns, the row at position [k] gets the name [sample_Tn] with [n]
    the number of rows up to it, itself included, that have its sample, its
    other fields and the other objects are left as they are; otherwise it
    raises the assertion on unique pairs and changes nothing. *)
Theorem validate_unique_samples_renames (reader : list nat) (h : heap)
  (c1 : checker) (h1 : heap) :
  NoDup reader ->
  check_rows suffixes init h 0 reader = (c1, h1, Ret tt) ->
  (NoDup (map (fun r => seen_key (h1 r)) reader) ->
   exists h2,
     validate_unique_samples c1 h1 = (h2, None)
     /\ (forall x, ~ In x reader -> h2 x = h1 x)
     /\ forall k r,
         nth_error reader k = Some r ->
         h2 r = Row (Some (cell_str (sample (h1 r)) ++ "_T"
                           ++ str (occurrences (sample (h1 r))
                                     (map (fun x => sample (h1 x))
                                          (firstn (S k) reader)))))
                    (first (h1 r)) (second (h1 r)) (single (h1 r)))
  /\ (~ NoDup (map (fun r => seen_key (h1 r)) reader) ->
      validate_unique_samples c1 h1
      = (h1, Some (AssertionError
                     "The pair of sample name and FASTQ must be unique."))).
Proof.
  intros Hnd H. destruct (unique_test reader h c1 h1 Hnd H) as [Hm Htest].
  unfold validate_unique_samples. split; intros Hk.
  - apply Htest in Hk. rewrite Hk. cbn [negb]. rewrite Hm.
    destruct (rename_loop_spec reader Hnd [] h1) as [Hout Hin].
    exists (rename_loop reader [] h1). split; [reflexivity|].
    split; [exact Hout|]. intros k r Hr. rewrite (Hin k r Hr). reflexivity.
  - destruct (length (_seen c1) =? length (modified c1))%nat.
    + exfalso. apply Hk. now apply Htest.
    + reflexivity.
Qed.

(** X17.  When [validate_unique_samples] returns after the rows of a
    sheet are accepted, no two rows of the sheet have the same name. *)
Theorem renamed_samples_distinct (reader : list nat) (h : heap)
  (c1 : checker) (h1 h2 : heap) (k1 k2 r1 r2 : nat) :
  NoDup reader ->
  check_rows suffixes init h 0 reader = (c1, h1, Ret tt) ->
  validate_unique_samples c1 h1 = (h2, None) ->
  nth_error reader k1 = Some r1 ->
  nth_error reader k2 = Some r2 ->
  k1 <> k2 ->
  sample (h2 r1) <> sample (h2 r2).
Proof.
  intros Hnd H Hu.
  destruct (unique_test reader h c1 h1 Hnd H) as [Hm _].
  destruct (check_rows_ret reader Hnd _ _ _ _ _ H) as (_ & _ & _ & Hval).
  unfold validate_unique_samples in Hu.
  destruct (negb _); [discriminate Hu|]. injection Hu as <-. rewrite Hm.
  destruct (rename_loop_spec reader Hnd [] h1) as [_ Hin].
  assert (Hlt : forall k1 k2 r1 r2,
             (k1 < k2)%nat ->
             nth_error reader k1 = Some r1 ->
             nth_error reader k2 = Some r2 ->
             sample (rename_loop reader [] h1 r1)
             <> sample (rename_loop reader [] h1 r2)).
  { clear k1 k2 r1 r2. intros k1 k2 r1 r2 Hlt H1 H2.
    rewrite (Hin k1 r1 H1), (Hin k2 r2 H2). cbn [sample count Nat.add].
    destruct (validate_sample_some _ _ (Hval r1 (nth_error_In _ _ H1)))
      as [s1 E1].
    destruct (validate_sample_some _ _ (Hval r2 (nth_error_In _ _ H2)))
      as [s2 E2].
    rewrite E1, E2. cbn [cell_str].
    set (n1 := occurrences (Some s1) (map _ (firstn (S k1) reader))).
    set (n2 := occurrences (Some s2) (map _ (firstn (S k2) reader))).
    intros Heq. injection Heq as Heq.
    apply name_inj in Heq. destruct Heq as [-> Hn]. unfold n1, n2 in Hn.
    rewrite (firstn_S_nth _ reader k2 r2 H2), map_app, occurrences_app in Hn.
    cbn [map] in Hn. rewrite E2, occurrences_cons, cell_eqb_refl in Hn.
    pose proof (occurrences_firstn_mono (Some s2)
                  (map (fun x => sample (h1 x)) reader) (S k1) k2 Hlt) as Hmono.
    rewrite !firstn_map in Hmono. lia. }
  intros H1 H2 Hne.
  destruct (Nat.lt_total k1 k2) as [Hl | [He | Hl]].
  - exact (Hlt _ _ _ _ Hl H1 H2).
  - contradiction.
  - intros E. exact (Hlt _ _ _ _ Hl H2 H1 (eq_sym E)).
Qed.

End CheckerUnique.

Lemma three_rows_distinct : NoDup [0; 1; 2]%nat.
Proof. repeat constructor; simpl; intuition discriminate. Qed.

(** The instance of X16 at three rows, the first and the third of sample
    [A]: the third row is renamed [A_T2]. *)
Lemma validate_unique_samples_renames_witness :
  fst (RowChecker.validate_unique_samples
         (fst (fst three_rows_checked)) (snd (fst three_rows_checked)))
      2%nat
  = RowChecker.Row (Some "A_T2") (Some "a2.fq.gz") (Some "") (Some true).
Proof.
  destruct (validate_unique_samples_renames (fun _ => []) [0; 1; 2]%nat
              three_rows_heap (fst (fst three_rows_checked))
              (snd (fst three_rows_checked)) three_rows_distinct eq_refl)
    as [Hok _].
  destruct Hok as (h2 & Heq & _ & Hren).
  { cbv. repeat constructor; simpl; intuition discriminate. }
  rewrite Heq. cbn [fst]. rewrite (Hren 2%nat 2%nat eq_refl).
  reflexivity.
Defined.

(** The instance of X17 at the same three rows: the two rows of sample
    [A] get different names. *)
Lemma renamed_samples_distinct_witness :
  RowChecker.cell_eqb
    (RowChecker.sample
       (fst (RowChecker.validate_unique_samples
               (fst (fst three_rows_checked)) (snd (fst three_rows_checked)))
            0%nat))
    (RowChecker.sample
       (fst (RowChecker.validate_unique_samples
               (fst (fst three_rows_checked)) (snd (fst three_rows_checked)))
            2%nat))
  = false.
Proof.
  apply cell_eqb_neq.
  apply (renamed_samples_distinct (fun _ => []) [0; 1; 2]%nat
           three_rows_heap (fst (fst three_rows_checked))
           (snd (fst three_rows_checked))
           (fst (RowChecker.validate_unique_samples
                   (fst (fst three_rows_checked))
                   (snd (fst three_rows_checked))))
           0%nat 2%nat 0%nat 2%nat three_rows_distinct eq_refl eq_refl
           eq_refl eq_refl).
  discriminate.
Defined.
